(** * Real-time AI object tracking: a shallow embedding of the glue code

    The repository is a browser application: a camera render loop that
    feeds frames to an on-device detector, a keyword router from prompts
    to detector tasks, a canvas renderer, a cloud analysis batch and a
    session reset hook.  The embedding follows the TypeScript sources:

    - [JS]       the JavaScript built-ins the code relies on: IEEE-754
                 doubles, strings, [Array.prototype.splice],
                 [String.prototype.split] for the one regular expression
                 used, settled promises;
    - [Canvas]   bounding boxes, detections and the drawing calls issued
                 on the 2D context;
    - [Tracker]  the keyword-routing application (the source file whose
                 tasks are object / face / hands / pose);
    - [Analysis] the person-analysis application (src/App.tsx);
    - [Session]  the reactive cells of src/atoms.tsx and the reset hook
                 of src/hooks.tsx;
    - [Spec]     the predicates the theorems are stated with, and sample
                 data;
    - [Startup]  the mount effect of src/App.tsx;
    - [Props]    further predicates and sample data;
    - [Mounted]  the render loops as the mount effect registers them.

    The theorems follow the modules.  Asynchronous functions are
    modelled at their suspension points: the outcome of an awaited
    operation is an input ([Settled]), and a function the caller does not
    await is split into the part run by the call and the part run at
    settlement.

    Values of [useState] cells read by a function are the values captured
    by the closure it was created in; in [Tracker] and [Analysis] they
    are read from the state record handed to the function, and [Mounted]
    hands the render loops the record of the render that registered
    them. *)

From Stdlib Require Import ZArith List String Ascii Bool Lia.
From Stdlib Require Import Floats.
Import ListNotations.

(* ================================================================== *)
(** ** JavaScript built-ins *)
(* ================================================================== *)

Module JS.

(** A JavaScript [number] is an IEEE-754 binary64 value. *)
Definition number := float.

(** [Math.pow(x, 2)], evaluated as the product [x * x]. *)
Definition Math_pow2 (x : number) : number := (x * x)%float.

(** [Math.sqrt]. *)
Definition Math_sqrt (x : number) : number := PrimFloat.sqrt x.

(** [a < b] on numbers: false as soon as one side is NaN. *)
Definition lt (a b : number) : bool := (a <? b)%float.

(** [a !== b] on numbers: true when they differ, and when one is NaN. *)
Definition strict_neq (a b : number) : bool := negb (a =? b)%float.

Definition Infinity : number := infinity.

(** A settled promise. *)
Inductive Settled (A : Type) : Type :=
| Fulfilled (value : A)
| Rejected (reason : string).
Arguments Fulfilled {A} value.
Arguments Rejected {A} reason.

(** [Promise.all] once every input has settled: the values in order, or
    a rejection as soon as one input rejected.  (Which of several
    rejections wins depends on timing; the first in array order is
    taken.) *)
Fixpoint Promise_all {A : Type} (ps : list (Settled A)) : Settled (list A) :=
  match ps with
  | [] => Fulfilled []
  | Rejected e :: _ => Rejected e
  | Fulfilled v :: rest =>
      match Promise_all rest with
      | Fulfilled vs => Fulfilled (v :: vs)
      | Rejected e => Rejected e
      end
  end.

(** [array.filter(Boolean)] on an array of objects-or-null. *)
Fixpoint filter_Boolean {A : Type} (l : list (option A)) : list A :=
  match l with
  | [] => []
  | Some a :: rest => a :: filter_Boolean rest
  | None :: rest => filter_Boolean rest
  end.

(** [array.splice(start, 1)]: a negative [start] counts from the end
    (clamped at 0), a [start] past the end removes nothing. *)
Fixpoint remove_at {A : Type} (n : nat) (l : list A) : list A :=
  match l, n with
  | [], _ => []
  | _ :: rest, O => rest
  | x :: rest, S k => x :: remove_at k rest
  end.

Definition splice1 {A : Type} (start : Z) (l : list A) : list A :=
  let len := Z.of_nat (List.length l) in
  let from := if (start <? 0)%Z then Z.max (len + start) 0 else Z.min start len in
  remove_at (Z.to_nat from) l.

(** *** Strings

    A string is a sequence of code units; the model covers the code
    units below 256 (the Latin-1 range of UTF-16), which is where every
    keyword and separator of the application lives. *)

Definition code (c : ascii) : N := N_of_ascii c.

(** [WhiteSpace] and [LineTerminator] code units below 256: TAB, LF, VT,
    FF, CR, SPACE and NBSP.  This is the set [trim] strips and [\s]
    matches. *)
Definition isWhiteSpace (c : ascii) : bool :=
  let n := code c in
  ((9 <=? n) && (n <=? 13) || (n =? 32) || (n =? 160))%N.

(** Lower-casing of one code unit: A-Z, and the Latin-1 capitals
    U+00C0..U+00DE except the multiplication sign U+00D7. *)
Definition lowerChar (c : ascii) : ascii :=
  let n := code c in
  if ((65 <=? n) && (n <=? 90))%N then ascii_of_N (n + 32)
  else if ((192 <=? n) && (n <=? 222) && negb (n =? 215))%N then ascii_of_N (n + 32)
  else c.

Fixpoint toLowerCase (s : string) : string :=
  match s with
  | EmptyString => EmptyString
  | String c rest => String (lowerChar c) (toLowerCase rest)
  end.

Fixpoint trimStart (s : string) : string :=
  match s with
  | EmptyString => EmptyString
  | String c rest => if isWhiteSpace c then trimStart rest else s
  end.

(** [trimEnd], by recursion from the right: a white-space unit is dropped
    exactly when everything after it was dropped. *)
Fixpoint trimEnd (s : string) : string :=
  match s with
  | EmptyString => EmptyString
  | String c rest =>
      match trimEnd rest with
      | EmptyString => if isWhiteSpace c then EmptyString else String c EmptyString
      | r => String c r
      end
  end.

Definition trim (s : string) : string := trimEnd (trimStart s).

(** [s.startsWith(p)]. *)
Fixpoint startsWith (s p : string) : bool :=
  match p, s with
  | EmptyString, _ => true
  | String _ _, EmptyString => false
  | String a p', String b s' => Ascii.eqb a b && startsWith s' p'
  end.

(** [s.includes(p)]: [p] occurs in [s] at some position. *)
Fixpoint includes (s p : string) : bool :=
  startsWith s p ||
  match s with
  | EmptyString => false
  | String _ rest => includes rest p
  end.

(** [array.some(pred)]. *)
Definition some {A : Type} (pred : A -> bool) (l : list A) : bool := existsb pred l.

(** A string is truthy when it is not empty. *)
Definition truthy (s : string) : bool :=
  match s with EmptyString => false | _ => true end.

(** *** The separator expression [/[\s,]+|and/i]

    [sepMatch s] is the length of the match of the expression anchored at
    the start of [s], if there is one: the first alternative takes the
    longest run of white space and commas, the second the three letters
    a, n, d in either case. *)

Definition isSepChar (c : ascii) : bool := isWhiteSpace c || Ascii.eqb c ","%char.

Fixpoint sepRun (s : string) : nat :=
  match s with
  | String c rest => if isSepChar c then S (sepRun rest) else O
  | EmptyString => O
  end.

Definition sepMatch (s : string) : option nat :=
  match sepRun s with
  | S k => Some (S k)
  | O => if startsWith (toLowerCase s) "and" then Some 3%nat else None
  end.

(** [s.split(/[\s,]+|and/i)].  The scan keeps the piece collected since
    the end of the last match ([cur]) and the number of code units of the
    current match still to be stepped over ([skip]).  The trailing piece
    is always pushed, so the empty string splits into one empty piece. *)
Fixpoint split_go (s : string) (skip : nat) (cur : string) : list string :=
  match s with
  | EmptyString => [cur]
  | String c rest =>
      match skip with
      | S k => split_go rest k cur
      | O =>
          match sepMatch s with
          | Some (S k) => cur :: split_go rest k EmptyString
          | _ => split_go rest O (String.append cur (String c EmptyString))
          end
      end
  end.

Definition split_sep (s : string) : list string := split_go s O EmptyString.

End JS.

(* ================================================================== *)
(** ** Detections and canvas calls *)
(* ================================================================== *)

Module Canvas.
Import JS.

(** [BoundingBox] of the vision library (and of src/App.tsx). *)
Record BoundingBox : Type := {
  originX : number;
  originY : number;
  width : number;
  height : number
}.

(** [Category] of the vision library, with the two fields the code reads. *)
Record Category : Type := {
  score : number;
  categoryName : string
}.

(** [Detection]: [boundingBox] is optional in the library's type. *)
Record Detection : Type := {
  categories : list Category;
  boundingBox : option BoundingBox
}.

(** The text handed to [drawLabel].  The object label is the template
    [`${category} (${Math.round(score * 100)}%)`]; it is kept as its two
    ingredients, so that no number formatting is modelled. *)
Inductive LabelText : Type :=
| CategoryLabel (category : string) (categoryScore : number)
| PlainText (text : string).

Inductive LabelPosition : Type := top | bottom.

(** The calls issued on the 2D context, in order.  [StrokeLine] is the
    sequence beginPath / moveTo / lineTo / stroke.  The two applications
    each have a [drawLabel] of their own, and both measure text with the
    context's font, so a call of either is recorded as such, with the
    arguments it is given: [DrawLabel] is a call of the [drawLabel] of
    src/App.tsx (label, x, y, colour, position; 16px font, one line per
    [', ']-separated part), [DrawTrackerLabel] a call of the [drawLabel]
    of the tracker (label, x, y; 20px font, one line, a box 30 high). *)
Inductive CanvasOp : Type :=
| ClearRect (x y w h : number)
| StrokeRect (strokeStyle : string) (lineWidth : Z) (x y w h : number)
| StrokeLine (strokeStyle : string) (lineWidth : Z) (x1 y1 x2 y2 : number)
| DrawLabel (label : LabelText) (x y : number) (color : string) (position : LabelPosition)
| DrawTrackerLabel (label : LabelText) (x y : number).

(** [width - bbox.originX - bbox.width], as every renderer computes it. *)
Definition mirroredX (canvasWidth : number) (bbox : BoundingBox) : number :=
  (canvasWidth - originX bbox - width bbox)%float.

(** How a drawing routine ends: normally, or with the [TypeError] raised
    by reading a property of [undefined]. *)
Inductive Completion : Type := Normal | TypeError.

End Canvas.

(* ================================================================== *)
(** ** The keyword-routing tracker (tasks object / face / hands / pose) *)
(* ================================================================== *)

Module Tracker.
Import JS Canvas.
Local Open Scope string_scope.

Inductive VisionTask : Type := object | face | hands | pose.

Definition VisionTask_eqb (a b : VisionTask) : bool :=
  match a, b with
  | object, object | face, face | hands, hands | pose, pose => true
  | _, _ => false
  end.

(** A loaded model instance, as returned by [createFromOptions]. *)
Definition Handle := nat.

Record NormalizedLandmark : Type := { lx : number; ly : number }.
Record Connection : Type := { conn_start : nat; conn_end : nat }.

(** What [detectForVideo] returns: detections for the object and face
    detectors, landmark sets for the hand and pose landmarkers. *)
Inductive Results : Type :=
| DetectionResults (detections : list Detection)
| LandmarkResults (landmarks : list (list NormalizedLandmark)).

(** The vision library as the application sees it. *)
Record VisionLib : Type := {
  createFromOptions : VisionTask -> Settled Handle;
  detectForVideo : Handle -> number -> number -> Results;
  HAND_CONNECTIONS : list Connection;
  POSE_CONNECTIONS : list Connection
}.

(** One [detectForVideo] call: the model, the frame's playback time and
    the [performance.now()] timestamp passed with it. *)
Record InferenceCall : Type := {
  call_model : Handle;
  call_frame : number;
  call_now : number
}.

(** The application state: the [useState] cells, the [useRef] model
    slots, the module-level [lastVideoTime], and what the code did to the
    outside (models closed, errors logged, inference calls, canvas
    calls). *)
Record State : Type := {
  inputPrompt : string;
  isLoading : bool;
  loadingMessage : string;
  errorMessage : string;
  activeTask : VisionTask;
  detectionTarget : string;
  objectDetector : option Handle;
  faceDetector : option Handle;
  handLandmarker : option Handle;
  poseLandmarker : option Handle;
  lastVideoTime : number;
  closed : list Handle;
  console : list string;
  calls : list InferenceCall;
  canvas : list CanvasOp;
  thrown : Completion
}.

(** The state of a freshly mounted component. *)
Definition initial : State := {|
  inputPrompt := "person";
  isLoading := true;
  loadingMessage := "Initializing AI...";
  errorMessage := "";
  activeTask := object;
  detectionTarget := "person";
  objectDetector := None;
  faceDetector := None;
  handLandmarker := None;
  poseLandmarker := None;
  lastVideoTime := (-1)%float;
  closed := [];
  console := [];
  calls := [];
  canvas := [];
  thrown := Normal
|}.

(** Field updates: the [useState] setters, assignments to the [.current]
    slots and to [lastVideoTime], and the effect logs. *)
Definition setInputPrompt (v : string) (s : State) : State :=
  {| inputPrompt := v; isLoading := isLoading s; loadingMessage := loadingMessage s;
     errorMessage := errorMessage s; activeTask := activeTask s;
     detectionTarget := detectionTarget s; objectDetector := objectDetector s;
     faceDetector := faceDetector s; handLandmarker := handLandmarker s;
     poseLandmarker := poseLandmarker s; lastVideoTime := lastVideoTime s;
     closed := closed s; console := console s; calls := calls s; canvas := canvas s;
     thrown := thrown s |}.

Definition setIsLoading (v : bool) (s : State) : State :=
  {| inputPrompt := inputPrompt s; isLoading := v; loadingMessage := loadingMessage s;
     errorMessage := errorMessage s; activeTask := activeTask s;
     detectionTarget := detectionTarget s; objectDetector := objectDetector s;
     faceDetector := faceDetector s; handLandmarker := handLandmarker s;
     poseLandmarker := poseLandmarker s; lastVideoTime := lastVideoTime s;
     closed := closed s; console := console s; calls := calls s; canvas := canvas s;
     thrown := thrown s |}.

Definition setLoadingMessage (v : string) (s : State) : State :=
  {| inputPrompt := inputPrompt s; isLoading := isLoading s; loadingMessage := v;
     errorMessage := errorMessage s; activeTask := activeTask s;
     detectionTarget := detectionTarget s; objectDetector := objectDetector s;
     faceDetector := faceDetector s; handLandmarker := handLandmarker s;
     poseLandmarker := poseLandmarker s; lastVideoTime := lastVideoTime s;
     closed := closed s; console := console s; calls := calls s; canvas := canvas s;
     thrown := thrown s |}.

Definition setErrorMessage (v : string) (s : State) : State :=
  {| inputPrompt := inputPrompt s; isLoading := isLoading s;
     loadingMessage := loadingMessage s; errorMessage := v; activeTask := activeTask s;
     detectionTarget := detectionTarget s; objectDetector := objectDetector s;
     faceDetector := faceDetector s; handLandmarker := handLandmarker s;
     poseLandmarker := poseLandmarker s; lastVideoTime := lastVideoTime s;
     closed := closed s; console := console s; calls := calls s; canvas := canvas s;
     thrown := thrown s |}.

Definition setActiveTask (v : VisionTask) (s : State) : State :=
  {| inputPrompt := inputPrompt s; isLoading := isLoading s;
     loadingMessage := loadingMessage s; errorMessage := errorMessage s;
     activeTask := v; detectionTarget := detectionTarget s;
     objectDetector := objectDetector s; faceDetector := faceDetector s;
     handLandmarker := handLandmarker s; poseLandmarker := poseLandmarker s;
     lastVideoTime := lastVideoTime s; closed := closed s; console := console s;
     calls := calls s; canvas := canvas s; thrown := thrown s |}.

Definition setDetectionTarget (v : string) (s : State) : State :=
  {| inputPrompt := inputPrompt s; isLoading := isLoading s;
     loadingMessage := loadingMessage s; errorMessage := errorMessage s;
     activeTask := activeTask s; detectionTarget := v;
     objectDetector := objectDetector s; faceDetector := faceDetector s;
     handLandmarker := handLandmarker s; poseLandmarker := poseLandmarker s;
     lastVideoTime := lastVideoTime s; closed := closed s; console := console s;
     calls := calls s; canvas := canvas s; thrown := thrown s |}.

Definition set_objectDetector (v : option Handle) (s : State) : State :=
  {| inputPrompt := inputPrompt s; isLoading := isLoading s;
     loadingMessage := loadingMessage s; errorMessage := errorMessage s;
     activeTask := activeTask s; detectionTarget := detectionTarget s;
     objectDetector := v; faceDetector := faceDetector s;
     handLandmarker := handLandmarker s; poseLandmarker := poseLandmarker s;
     lastVideoTime := lastVideoTime s; closed := closed s; console := console s;
     calls := calls s; canvas := canvas s; thrown := thrown s |}.

Definition set_faceDetector (v : option Handle) (s : State) : State :=
  {| inputPrompt := inputPrompt s; isLoading := isLoading s;
     loadingMessage := loadingMessage s; errorMessage := errorMessage s;
     activeTask := activeTask s; detectionTarget := detectionTarget s;
     objectDetector := objectDetector s; faceDetector := v;
     handLandmarker := handLandmarker s; poseLandmarker := poseLandmarker s;
     lastVideoTime := lastVideoTime s; closed := closed s; console := console s;
     calls := calls s; canvas := canvas s; thrown := thrown s |}.

Definition set_handLandmarker (v : option Handle) (s : State) : State :=
  {| inputPrompt := inputPrompt s; isLoading := isLoading s;
     loadingMessage := loadingMessage s; errorMessage := errorMessage s;
     activeTask := activeTask s; detectionTarget := detectionTarget s;
     objectDetector := objectDetector s; faceDetector := faceDetector s;
     handLandmarker := v; poseLandmarker := poseLandmarker s;
     lastVideoTime := lastVideoTime s; closed := closed s; console := console s;
     calls := calls s; canvas := canvas s; thrown := thrown s |}.

Definition set_poseLandmarker (v : option Handle) (s : State) : State :=
  {| inputPrompt := inputPrompt s; isLoading := isLoading s;
     loadingMessage := loadingMessage s; errorMessage := errorMessage s;
     activeTask := activeTask s; detectionTarget := detectionTarget s;
     objectDetector := objectDetector s; faceDetector := faceDetector s;
     handLandmarker := handLandmarker s; poseLandmarker := v;
     lastVideoTime := lastVideoTime s; closed := closed s; console := console s;
     calls := calls s; canvas := canvas s; thrown := thrown s |}.

Definition set_lastVideoTime (v : number) (s : State) : State :=
  {| inputPrompt := inputPrompt s; isLoading := isLoading s;
     loadingMessage := loadingMessage s; errorMessage := errorMessage s;
     activeTask := activeTask s; detectionTarget := detectionTarget s;
     objectDetector := objectDetector s; faceDetector := faceDetector s;
     handLandmarker := handLandmarker s; poseLandmarker := poseLandmarker s;
     lastVideoTime := v; closed := closed s; console := console s; calls := calls s;
     canvas := canvas s; thrown := thrown s |}.

Definition set_closed (v : list Handle) (s : State) : State :=
  {| inputPrompt := inputPrompt s; isLoading := isLoading s;
     loadingMessage := loadingMessage s; errorMessage := errorMessage s;
     activeTask := activeTask s; detectionTarget := detectionTarget s;
     objectDetector := objectDetector s; faceDetector := faceDetector s;
     handLandmarker := handLandmarker s; poseLandmarker := poseLandmarker s;
     lastVideoTime := lastVideoTime s; closed := v; console := console s;
     calls := calls s; canvas := canvas s; thrown := thrown s |}.

Definition set_console (v : list string) (s : State) : State :=
  {| inputPrompt := inputPrompt s; isLoading := isLoading s;
     loadingMessage := loadingMessage s; errorMessage := errorMessage s;
     activeTask := activeTask s; detectionTarget := detectionTarget s;
     objectDetector := objectDetector s; faceDetector := faceDetector s;
     handLandmarker := handLandmarker s; poseLandmarker := poseLandmarker s;
     lastVideoTime := lastVideoTime s; closed := closed s; console := v;
     calls := calls s; canvas := canvas s; thrown := thrown s |}.

Definition set_calls (v : list InferenceCall) (s : State) : State :=
  {| inputPrompt := inputPrompt s; isLoading := isLoading s;
     loadingMessage := loadingMessage s; errorMessage := errorMessage s;
     activeTask := activeTask s; detectionTarget := detectionTarget s;
     objectDetector := objectDetector s; faceDetector := faceDetector s;
     handLandmarker := handLandmarker s; poseLandmarker := poseLandmarker s;
     lastVideoTime := lastVideoTime s; closed := closed s; console := console s;
     calls := v; canvas := canvas s; thrown := thrown s |}.

Definition set_canvas (v : list CanvasOp) (s : State) : State :=
  {| inputPrompt := inputPrompt s; isLoading := isLoading s;
     loadingMessage := loadingMessage s; errorMessage := errorMessage s;
     activeTask := activeTask s; detectionTarget := detectionTarget s;
     objectDetector := objectDetector s; faceDetector := faceDetector s;
     handLandmarker := handLandmarker s; poseLandmarker := poseLandmarker s;
     lastVideoTime := lastVideoTime s; closed := closed s; console := console s;
     calls := calls s; canvas := v; thrown := thrown s |}.

Definition set_thrown (v : Completion) (s : State) : State :=
  {| inputPrompt := inputPrompt s; isLoading := isLoading s;
     loadingMessage := loadingMessage s; errorMessage := errorMessage s;
     activeTask := activeTask s; detectionTarget := detectionTarget s;
     objectDetector := objectDetector s; faceDetector := faceDetector s;
     handLandmarker := handLandmarker s; poseLandmarker := poseLandmarker s;
     lastVideoTime := lastVideoTime s; closed := closed s; console := console s;
     calls := calls s; canvas := canvas s; thrown := v |}.

(** [model.current?.close()]. *)
Definition close (m : option Handle) (s : State) : State :=
  match m with
  | Some h => set_closed (closed s ++ [h]) s
  | None => s
  end.

Definition console_error (msg : string) (s : State) : State :=
  set_console (console s ++ [msg]) s.

(** The number of model slots that hold a model. *)
Definition held (m : option Handle) : nat :=
  match m with Some _ => 1 | None => 0 end.
Definition loaded (s : State) : nat :=
  held (objectDetector s) + held (faceDetector s)
  + held (handLandmarker s) + held (poseLandmarker s).

(** [switchModel], up to the [try]: every slot is closed, then nulled. *)
Definition switchModel_release (s : State) : State :=
  let s := setIsLoading true s in
  let s := setLoadingMessage "Loading AI vision model..." s in
  let s := close (objectDetector s) s in
  let s := close (faceDetector s) s in
  let s := close (handLandmarker s) s in
  let s := close (poseLandmarker s) s in
  let s := set_objectDetector None s in
  let s := set_faceDetector None s in
  let s := set_handLandmarker None s in
  set_poseLandmarker None s.

(** [switchModel]: release, then construct the model of [task]; a
    rejected construction is caught, logged and shown. *)
Definition switchModel (lib : VisionLib) (task : VisionTask) (s : State) : State :=
  let s := switchModel_release s in
  match createFromOptions lib task with
  | Fulfilled h =>
      let s :=
        match task with
        | object => set_objectDetector (Some h) s
        | face => set_faceDetector (Some h) s
        | hands => set_handLandmarker (Some h) s
        | pose => set_poseLandmarker (Some h) s
        end in
      setIsLoading false s
  | Rejected e =>
      let s := console_error "Failed to switch model" s in
      let s := setErrorMessage
                 "Failed to load the selected AI model. Please try another prompt." s in
      setIsLoading false s
  end.

Definition faceKeywords : list string := ["face"; "head"; "selfie"; "visage"].
Definition handKeywords : list string := ["hand"; "hands"; "finger"; "fingers"; "palm"; "wave"].
Definition poseKeywords : list string := ["pose"; "body"; "stand"; "dance"; "jump"; "posture"].

(** The routing decision inside [handlePromptSubmit]: the pair
    ([newActiveTask], [newDetectionTarget]) for a lower-cased, trimmed
    prompt. *)
Definition route (lowerCasePrompt : string) : VisionTask * string :=
  if some (fun keyword => includes lowerCasePrompt keyword) faceKeywords then (face, "")
  else if some (fun keyword => includes lowerCasePrompt keyword) handKeywords then (hands, "")
  else if some (fun keyword => includes lowerCasePrompt keyword) poseKeywords then (pose, "")
  else (object, lowerCasePrompt).

(** [handlePromptSubmit].  An empty prompt returns at once.  Nothing in
    the [try] block throws ([switchModel] catches its own failure), so
    the [catch] branch is never taken; [finally] clears the loading
    flag. *)
Definition handlePromptSubmit (lib : VisionLib) (s : State) : State :=
  if negb (truthy (inputPrompt s)) then s
  else
    let s1 := setIsLoading true s in
    let s1 := setLoadingMessage "Updating tracker..." s1 in
    let lowerCasePrompt := trim (toLowerCase (inputPrompt s)) in
    let '(newActiveTask, newDetectionTarget) := route lowerCasePrompt in
    let s1 := setDetectionTarget newDetectionTarget s1 in
    let s1 :=
      if negb (VisionTask_eqb newActiveTask (activeTask s))
      then switchModel lib newActiveTask (setActiveTask newActiveTask s1)
      else s1 in
    setIsLoading false s1.

(** [drawObjectDetections]: the loop over the detections, issuing canvas
    calls until the array ends or a property of [undefined] is read. *)
Fixpoint drawObjectDetections (detectionTarget : string) (detections : list Detection)
    (canvasWidth : number) : list CanvasOp * Completion :=
  match detections with
  | [] => ([], Normal)
  | detection :: rest =>
      match categories detection with
      | [] => ([], TypeError)
      | c0 :: _ =>
          let category := toLowerCase (categoryName c0) in
          if truthy detectionTarget
             && negb (includes category (trim (toLowerCase detectionTarget)))
          then drawObjectDetections detectionTarget rest canvasWidth
          else
            match boundingBox detection with
            | None => ([], TypeError)
            | Some bbox =>
                let mx := mirroredX canvasWidth bbox in
                let '(ops, c) := drawObjectDetections detectionTarget rest canvasWidth in
                (StrokeRect "#3B68FF" 4 mx (originY bbox) (width bbox) (height bbox)
                 :: DrawTrackerLabel (CategoryLabel category (score c0)) mx (originY bbox)
                 :: ops, c)
            end
      end
  end.

Fixpoint drawFaceDetections (detections : list Detection) (canvasWidth : number)
    : list CanvasOp * Completion :=
  match detections with
  | [] => ([], Normal)
  | detection :: rest =>
      match boundingBox detection with
      | None => ([], TypeError)
      | Some bbox =>
          let '(ops, c) := drawFaceDetections rest canvasWidth in
          (StrokeRect "#FFFF00" 2 (mirroredX canvasWidth bbox) (originY bbox)
             (width bbox) (height bbox) :: ops, c)
      end
  end.

(** [drawLandmarks]: one stroked segment per connection whose two
    landmarks exist. *)
Definition drawLandmarks (landmarks : list (list NormalizedLandmark))
    (connections : list Connection) (canvasWidth canvasHeight : number)
    (color : string) : list CanvasOp :=
  flat_map (fun landmark =>
    flat_map (fun connection =>
      match nth_error landmark (conn_start connection),
            nth_error landmark (conn_end connection) with
      | Some st, Some en =>
          [StrokeLine color 3
             (canvasWidth - lx st * canvasWidth)%float (ly st * canvasHeight)%float
             (canvasWidth - lx en * canvasWidth)%float (ly en * canvasHeight)%float]
      | _, _ => []
      end) connections) landmarks.

(** [drawResults]: clear, then draw what the active task calls for.  The
    results come from the detector of the same task; results of another
    shape have no [detections] (or [landmarks]) to iterate. *)
Definition drawResults (lib : VisionLib) (s : State) (results : option Results)
    (canvasWidth canvasHeight : number) : list CanvasOp * Completion :=
  let clear := ClearRect 0%float 0%float canvasWidth canvasHeight in
  match results with
  | None => ([clear], Normal)
  | Some r =>
      let '(ops, c) :=
        match activeTask s, r with
        | object, DetectionResults ds => drawObjectDetections (detectionTarget s) ds canvasWidth
        | face, DetectionResults ds => drawFaceDetections ds canvasWidth
        | hands, LandmarkResults ls =>
            (drawLandmarks ls (HAND_CONNECTIONS lib) canvasWidth canvasHeight "#FF0000", Normal)
        | pose, LandmarkResults ls =>
            (drawLandmarks ls (POSE_CONNECTIONS lib) canvasWidth canvasHeight "#00FF00", Normal)
        | _, _ => ([], TypeError)
        end in
      (clear :: ops, c)
  end.

(** What one animation-frame callback sees: the video's playback time,
    [performance.now()], and the canvas size fixed by [predict]. *)
Record Frame : Type := {
  currentTime : number;
  now : number;
  canvasWidth : number;
  canvasHeight : number
}.

Definition infer (lib : VisionLib) (h : Handle) (f : Frame) (s : State)
    : option Results * State :=
  (Some (detectForVideo lib h (currentTime f) (now f)),
   set_calls (calls s ++ [{| call_model := h; call_frame := currentTime f;
                             call_now := now f |}]) s).

(** [renderLoop], one callback.  A frame whose playback time equals
    [lastVideoTime] is skipped whole; otherwise the detector of the
    active task, if loaded, is run and the results are drawn.  (An
    exception leaves the loop unscheduled; it is recorded in [thrown].) *)
Definition renderLoop (lib : VisionLib) (f : Frame) (s : State) : State :=
  if strict_neq (currentTime f) (lastVideoTime s) then
    let s := set_lastVideoTime (currentTime f) s in
    let '(results, s) :=
      match VisionTask_eqb (activeTask s) object, objectDetector s with
      | true, Some h => infer lib h f s
      | _, _ =>
      match VisionTask_eqb (activeTask s) face, faceDetector s with
      | true, Some h => infer lib h f s
      | _, _ =>
      match VisionTask_eqb (activeTask s) hands, handLandmarker s with
      | true, Some h => infer lib h f s
      | _, _ =>
      match VisionTask_eqb (activeTask s) pose, poseLandmarker s with
      | true, Some h => infer lib h f s
      | _, _ => (None, s)
      end end end end in
    let '(ops, c) := drawResults lib s results (canvasWidth f) (canvasHeight f) in
    set_thrown c (set_canvas ops s)
  else s.

End Tracker.

(* ================================================================== *)
(** ** The person-analysis application (src/App.tsx) *)
(* ================================================================== *)

Module Analysis.
Import JS Canvas.
Local Open Scope string_scope.

Inductive DetectionMode : Type := object | person_analysis.

Definition DetectionMode_eqb (a b : DetectionMode) : bool :=
  match a, b with
  | object, object | person_analysis, person_analysis => true
  | _, _ => false
  end.

Definition Handle := nat.

(** An entry of [personAnalysisResults]. *)
Record AnalysisResult : Type := {
  bbox : BoundingBox;
  text : string
}.

(** The vision library: model construction, and [detectForVideo], whose
    result carries a [detections] array for both detectors. *)
Record VisionLib : Type := {
  createFromOptions : DetectionMode -> Settled Handle;
  detectForVideo : Handle -> number -> number -> list Detection
}.

(** [ai.models.generateContent] for the crop of the current frame under
    a bounding box and an instruction: the text of the response, or a
    rejection.  (An exception raised while the crop is produced rejects
    the same promise, and is a rejection here too.) *)
Definition CloudModel := BoundingBox -> string -> Settled string.

Record InferenceCall : Type := {
  call_model : Handle;
  call_frame : number;
  call_now : number
}.

(** The application state: the [useState] cells, the [useRef] slots
    (models, the video element, [lastAnalysisTime], [isAnalyzing]), the
    module-level [lastVideoTime], and the effects (models closed, errors
    logged, inference calls, analysis batches launched, canvas calls). *)
Record State : Type := {
  inputPrompt : string;
  isLoading : bool;
  loadingMessage : string;
  errorMessage : string;
  detectionMode : DetectionMode;
  detectionTarget : string;
  personAnalysisResults : option (list AnalysisResult);
  objectDetector : option Handle;
  faceDetector : option Handle;
  handLandmarker : option Handle;
  poseLandmarker : option Handle;
  videoRef : bool;
  lastAnalysisTime : number;
  isAnalyzing : bool;
  lastVideoTime : number;
  closed : list Handle;
  console : list string;
  calls : list InferenceCall;
  batches : list (list Detection);
  canvas : list CanvasOp;
  thrown : Completion
}.

Definition initial : State := {|
  inputPrompt := "age and gender";
  isLoading := true;
  loadingMessage := "Initializing AI...";
  errorMessage := "";
  detectionMode := person_analysis;
  detectionTarget := "";
  personAnalysisResults := None;
  objectDetector := None;
  faceDetector := None;
  handLandmarker := None;
  poseLandmarker := None;
  videoRef := true;
  lastAnalysisTime := 0%float;
  isAnalyzing := false;
  lastVideoTime := (-1)%float;
  closed := [];
  console := [];
  calls := [];
  batches := [];
  canvas := [];
  thrown := Normal
|}.

(** Field updates. *)
Definition setInputPrompt (v : string) (s : State) : State :=
  {| inputPrompt := v; isLoading := isLoading s; loadingMessage := loadingMessage s;
     errorMessage := errorMessage s; detectionMode := detectionMode s;
     detectionTarget := detectionTarget s;
     personAnalysisResults := personAnalysisResults s;
     objectDetector := objectDetector s; faceDetector := faceDetector s;
     handLandmarker := handLandmarker s; poseLandmarker := poseLandmarker s;
     videoRef := videoRef s; lastAnalysisTime := lastAnalysisTime s;
     isAnalyzing := isAnalyzing s; lastVideoTime := lastVideoTime s;
     closed := closed s; console := console s; calls := calls s; batches := batches s;
     canvas := canvas s; thrown := thrown s |}.

Definition setIsLoading (v : bool) (s : State) : State :=
  {| inputPrompt := inputPrompt s; isLoading := v; loadingMessage := loadingMessage s;
     errorMessage := errorMessage s; detectionMode := detectionMode s;
     detectionTarget := detectionTarget s;
     personAnalysisResults := personAnalysisResults s;
     objectDetector := objectDetector s; faceDetector := faceDetector s;
     handLandmarker := handLandmarker s; poseLandmarker := poseLandmarker s;
     videoRef := videoRef s; lastAnalysisTime := lastAnalysisTime s;
     isAnalyzing := isAnalyzing s; lastVideoTime := lastVideoTime s;
     closed := closed s; console := console s; calls := calls s; batches := batches s;
     canvas := canvas s; thrown := thrown s |}.

Definition setLoadingMessage (v : string) (s : State) : State :=
  {| inputPrompt := inputPrompt s; isLoading := isLoading s; loadingMessage := v;
     errorMessage := errorMessage s; detectionMode := detectionMode s;
     detectionTarget := detectionTarget s;
     personAnalysisResults := personAnalysisResults s;
     objectDetector := objectDetector s; faceDetector := faceDetector s;
     handLandmarker := handLandmarker s; poseLandmarker := poseLandmarker s;
     videoRef := videoRef s; lastAnalysisTime := lastAnalysisTime s;
     isAnalyzing := isAnalyzing s; lastVideoTime := lastVideoTime s;
     closed := closed s; console := console s; calls := calls s; batches := batches s;
     canvas := canvas s; thrown := thrown s |}.

Definition setErrorMessage (v : string) (s : State) : State :=
  {| inputPrompt := inputPrompt s; isLoading := isLoading s;
     loadingMessage := loadingMessage s; errorMessage := v;
     detectionMode := detectionMode s; detectionTarget := detectionTarget s;
     personAnalysisResults := personAnalysisResults s;
     objectDetector := objectDetector s; faceDetector := faceDetector s;
     handLandmarker := handLandmarker s; poseLandmarker := poseLandmarker s;
     videoRef := videoRef s; lastAnalysisTime := lastAnalysisTime s;
     isAnalyzing := isAnalyzing s; lastVideoTime := lastVideoTime s;
     closed := closed s; console := console s; calls := calls s; batches := batches s;
     canvas := canvas s; thrown := thrown s |}.

Definition setDetectionMode (v : DetectionMode) (s : State) : State :=
  {| inputPrompt := inputPrompt s; isLoading := isLoading s;
     loadingMessage := loadingMessage s; errorMessage := errorMessage s;
     detectionMode := v; detectionTarget := detectionTarget s;
     personAnalysisResults := personAnalysisResults s;
     objectDetector := objectDetector s; faceDetector := faceDetector s;
     handLandmarker := handLandmarker s; poseLandmarker := poseLandmarker s;
     videoRef := videoRef s; lastAnalysisTime := lastAnalysisTime s;
     isAnalyzing := isAnalyzing s; lastVideoTime := lastVideoTime s;
     closed := closed s; console := console s; calls := calls s; batches := batches s;
     canvas := canvas s; thrown := thrown s |}.

Definition setDetectionTarget (v : string) (s : State) : State :=
  {| inputPrompt := inputPrompt s; isLoading := isLoading s;
     loadingMessage := loadingMessage s; errorMessage := errorMessage s;
     detectionMode := detectionMode s; detectionTarget := v;
     personAnalysisResults := personAnalysisResults s;
     objectDetector := objectDetector s; faceDetector := faceDetector s;
     handLandmarker := handLandmarker s; poseLandmarker := poseLandmarker s;
     videoRef := videoRef s; lastAnalysisTime := lastAnalysisTime s;
     isAnalyzing := isAnalyzing s; lastVideoTime := lastVideoTime s;
     closed := closed s; console := console s; calls := calls s; batches := batches s;
     canvas := canvas s; thrown := thrown s |}.

Definition setPersonAnalysisResults (v : option (list AnalysisResult)) (s : State) : State :=
  {| inputPrompt := inputPrompt s; isLoading := isLoading s;
     loadingMessage := loadingMessage s; errorMessage := errorMessage s;
     detectionMode := detectionMode s; detectionTarget := detectionTarget s;
     personAnalysisResults := v; objectDetector := objectDetector s;
     faceDetector := faceDetector s; handLandmarker := handLandmarker s;
     poseLandmarker := poseLandmarker s; videoRef := videoRef s;
     lastAnalysisTime := lastAnalysisTime s; isAnalyzing := isAnalyzing s;
     lastVideoTime := lastVideoTime s; closed := closed s; console := console s;
     calls := calls s; batches := batches s; canvas := canvas s; thrown := thrown s |}.

Definition set_objectDetector (v : option Handle) (s : State) : State :=
  {| inputPrompt := inputPrompt s; isLoading := isLoading s;
     loadingMessage := loadingMessage s; errorMessage := errorMessage s;
     detectionMode := detectionMode s; detectionTarget := detectionTarget s;
     personAnalysisResults := personAnalysisResults s; objectDetector := v;
     faceDetector := faceDetector s; handLandmarker := handLandmarker s;
     poseLandmarker := poseLandmarker s; videoRef := videoRef s;
     lastAnalysisTime := lastAnalysisTime s; isAnalyzing := isAnalyzing s;
     lastVideoTime := lastVideoTime s; closed := closed s; console := console s;
     calls := calls s; batches := batches s; canvas := canvas s; thrown := thrown s |}.

Definition set_faceDetector (v : option Handle) (s : State) : State :=
  {| inputPrompt := inputPrompt s; isLoading := isLoading s;
     loadingMessage := loadingMessage s; errorMessage := errorMessage s;
     detectionMode := detectionMode s; detectionTarget := detectionTarget s;
     personAnalysisResults := personAnalysisResults s;
     objectDetector := objectDetector s; faceDetector := v;
     handLandmarker := handLandmarker s; poseLandmarker := poseLandmarker s;
     videoRef := videoRef s; lastAnalysisTime := lastAnalysisTime s;
     isAnalyzing := isAnalyzing s; lastVideoTime := lastVideoTime s;
     closed := closed s; console := console s; calls := calls s; batches := batches s;
     canvas := canvas s; thrown := thrown s |}.

Definition set_handLandmarker (v : option Handle) (s : State) : State :=
  {| inputPrompt := inputPrompt s; isLoading := isLoading s;
     loadingMessage := loadingMessage s; errorMessage := errorMessage s;
     detectionMode := detectionMode s; detectionTarget := detectionTarget s;
     personAnalysisResults := personAnalysisResults s;
     objectDetector := objectDetector s; faceDetector := faceDetector s;
     handLandmarker := v; poseLandmarker := poseLandmarker s; videoRef := videoRef s;
     lastAnalysisTime := lastAnalysisTime s; isAnalyzing := isAnalyzing s;
     lastVideoTime := lastVideoTime s; closed := closed s; console := console s;
     calls := calls s; batches := batches s; canvas := canvas s; thrown := thrown s |}.

Definition set_poseLandmarker (v : option Handle) (s : State) : State :=
  {| inputPrompt := inputPrompt s; isLoading := isLoading s;
     loadingMessage := loadingMessage s; errorMessage := errorMessage s;
     detectionMode := detectionMode s; detectionTarget := detectionTarget s;
     personAnalysisResults := personAnalysisResults s;
     objectDetector := objectDetector s; faceDetector := faceDetector s;
     handLandmarker := handLandmarker s; poseLandmarker := v; videoRef := videoRef s;
     lastAnalysisTime := lastAnalysisTime s; isAnalyzing := isAnalyzing s;
     lastVideoTime := lastVideoTime s; closed := closed s; console := console s;
     calls := calls s; batches := batches s; canvas := canvas s; thrown := thrown s |}.

Definition set_videoRef (v : bool) (s : State) : State :=
  {| inputPrompt := inputPrompt s; isLoading := isLoading s;
     loadingMessage := loadingMessage s; errorMessage := errorMessage s;
     detectionMode := detectionMode s; detectionTarget := detectionTarget s;
     personAnalysisResults := personAnalysisResults s;
     objectDetector := objectDetector s; faceDetector := faceDetector s;
     handLandmarker := handLandmarker s; poseLandmarker := poseLandmarker s;
     videoRef := v; lastAnalysisTime := lastAnalysisTime s;
     isAnalyzing := isAnalyzing s; lastVideoTime := lastVideoTime s;
     closed := closed s; console := console s; calls := calls s; batches := batches s;
     canvas := canvas s; thrown := thrown s |}.

Definition set_lastAnalysisTime (v : number) (s : State) : State :=
  {| inputPrompt := inputPrompt s; isLoading := isLoading s;
     loadingMessage := loadingMessage s; errorMessage := errorMessage s;
     detectionMode := detectionMode s; detectionTarget := detectionTarget s;
     personAnalysisResults := personAnalysisResults s;
     objectDetector := objectDetector s; faceDetector := faceDetector s;
     handLandmarker := handLandmarker s; poseLandmarker := poseLandmarker s;
     videoRef := videoRef s; lastAnalysisTime := v; isAnalyzing := isAnalyzing s;
     lastVideoTime := lastVideoTime s; closed := closed s; console := console s;
     calls := calls s; batches := batches s; canvas := canvas s; thrown := thrown s |}.

Definition set_isAnalyzing (v : bool) (s : State) : State :=
  {| inputPrompt := inputPrompt s; isLoading := isLoading s;
     loadingMessage := loadingMessage s; errorMessage := errorMessage s;
     detectionMode := detectionMode s; detectionTarget := detectionTarget s;
     personAnalysisResults := personAnalysisResults s;
     objectDetector := objectDetector s; faceDetector := faceDetector s;
     handLandmarker := handLandmarker s; poseLandmarker := poseLandmarker s;
     videoRef := videoRef s; lastAnalysisTime := lastAnalysisTime s; isAnalyzing := v;
     lastVideoTime := lastVideoTime s; closed := closed s; console := console s;
     calls := calls s; batches := batches s; canvas := canvas s; thrown := thrown s |}.

Definition set_lastVideoTime (v : number) (s : State) : State :=
  {| inputPrompt := inputPrompt s; isLoading := isLoading s;
     loadingMessage := loadingMessage s; errorMessage := errorMessage s;
     detectionMode := detectionMode s; detectionTarget := detectionTarget s;
     personAnalysisResults := personAnalysisResults s;
     objectDetector := objectDetector s; faceDetector := faceDetector s;
     handLandmarker := handLandmarker s; poseLandmarker := poseLandmarker s;
     videoRef := videoRef s; lastAnalysisTime := lastAnalysisTime s;
     isAnalyzing := isAnalyzing s; lastVideoTime := v; closed := closed s;
     console := console s; calls := calls s; batches := batches s; canvas := canvas s;
     thrown := thrown s |}.

Definition set_closed (v : list Handle) (s : State) : State :=
  {| inputPrompt := inputPrompt s; isLoading := isLoading s;
     loadingMessage := loadingMessage s; errorMessage := errorMessage s;
     detectionMode := detectionMode s; detectionTarget := detectionTarget s;
     personAnalysisResults := personAnalysisResults s;
     objectDetector := objectDetector s; faceDetector := faceDetector s;
     handLandmarker := handLandmarker s; poseLandmarker := poseLandmarker s;
     videoRef := videoRef s; lastAnalysisTime := lastAnalysisTime s;
     isAnalyzing := isAnalyzing s; lastVideoTime := lastVideoTime s; closed := v;
     console := console s; calls := calls s; batches := batches s; canvas := canvas s;
     thrown := thrown s |}.

Definition set_console (v : list string) (s : State) : State :=
  {| inputPrompt := inputPrompt s; isLoading := isLoading s;
     loadingMessage := loadingMessage s; errorMessage := errorMessage s;
     detectionMode := detectionMode s; detectionTarget := detectionTarget s;
     personAnalysisResults := personAnalysisResults s;
     objectDetector := objectDetector s; faceDetector := faceDetector s;
     handLandmarker := handLandmarker s; poseLandmarker := poseLandmarker s;
     videoRef := videoRef s; lastAnalysisTime := lastAnalysisTime s;
     isAnalyzing := isAnalyzing s; lastVideoTime := lastVideoTime s;
     closed := closed s; console := v; calls := calls s; batches := batches s;
     canvas := canvas s; thrown := thrown s |}.

Definition set_calls (v : list InferenceCall) (s : State) : State :=
  {| inputPrompt := inputPrompt s; isLoading := isLoading s;
     loadingMessage := loadingMessage s; errorMessage := errorMessage s;
     detectionMode := detectionMode s; detectionTarget := detectionTarget s;
     personAnalysisResults := personAnalysisResults s;
     objectDetector := objectDetector s; faceDetector := faceDetector s;
     handLandmarker := handLandmarker s; poseLandmarker := poseLandmarker s;
     videoRef := videoRef s; lastAnalysisTime := lastAnalysisTime s;
     isAnalyzing := isAnalyzing s; lastVideoTime := lastVideoTime s;
     closed := closed s; console := console s; calls := v; batches := batches s;
     canvas := canvas s; thrown := thrown s |}.

Definition set_batches (v : list (list Detection)) (s : State) : State :=
  {| inputPrompt := inputPrompt s; isLoading := isLoading s;
     loadingMessage := loadingMessage s; errorMessage := errorMessage s;
     detectionMode := detectionMode s; detectionTarget := detectionTarget s;
     personAnalysisResults := personAnalysisResults s;
     objectDetector := objectDetector s; faceDetector := faceDetector s;
     handLandmarker := handLandmarker s; poseLandmarker := poseLandmarker s;
     videoRef := videoRef s; lastAnalysisTime := lastAnalysisTime s;
     isAnalyzing := isAnalyzing s; lastVideoTime := lastVideoTime s;
     closed := closed s; console := console s; calls := calls s; batches := v;
     canvas := canvas s; thrown := thrown s |}.

Definition set_canvas (v : list CanvasOp) (s : State) : State :=
  {| inputPrompt := inputPrompt s; isLoading := isLoading s;
     loadingMessage := loadingMessage s; errorMessage := errorMessage s;
     detectionMode := detectionMode s; detectionTarget := detectionTarget s;
     personAnalysisResults := personAnalysisResults s;
     objectDetector := objectDetector s; faceDetector := faceDetector s;
     handLandmarker := handLandmarker s; poseLandmarker := poseLandmarker s;
     videoRef := videoRef s; lastAnalysisTime := lastAnalysisTime s;
     isAnalyzing := isAnalyzing s; lastVideoTime := lastVideoTime s;
     closed := closed s; console := console s; calls := calls s; batches := batches s;
     canvas := v; thrown := thrown s |}.

Definition set_thrown (v : Completion) (s : State) : State :=
  {| inputPrompt := inputPrompt s; isLoading := isLoading s;
     loadingMessage := loadingMessage s; errorMessage := errorMessage s;
     detectionMode := detectionMode s; detectionTarget := detectionTarget s;
     personAnalysisResults := personAnalysisResults s;
     objectDetector := objectDetector s; faceDetector := faceDetector s;
     handLandmarker := handLandmarker s; poseLandmarker := poseLandmarker s;
     videoRef := videoRef s; lastAnalysisTime := lastAnalysisTime s;
     isAnalyzing := isAnalyzing s; lastVideoTime := lastVideoTime s;
     closed := closed s; console := console s; calls := calls s; batches := batches s;
     canvas := canvas s; thrown := v |}.

Definition close (m : option Handle) (s : State) : State :=
  match m with
  | Some h => set_closed (closed s ++ [h]) s
  | None => s
  end.

Definition console_error (msg : string) (s : State) : State :=
  set_console (console s ++ [msg]) s.

Definition held (m : option Handle) : nat :=
  match m with Some _ => 1 | None => 0 end.
Definition loaded (s : State) : nat :=
  held (objectDetector s) + held (faceDetector s)
  + held (handLandmarker s) + held (poseLandmarker s).

(** [switchModel], up to the [try]: the two slots this application ever
    fills are closed, then nulled. *)
Definition switchModel_release (s : State) : State :=
  let s := setIsLoading true s in
  let s := setLoadingMessage "Loading AI vision model..." s in
  let s := close (objectDetector s) s in
  let s := close (faceDetector s) s in
  let s := set_objectDetector None s in
  set_faceDetector None s.

Definition switchModel (lib : VisionLib) (task : DetectionMode) (s : State) : State :=
  let s := switchModel_release s in
  match createFromOptions lib task with
  | Fulfilled h =>
      let s :=
        match task with
        | object => set_objectDetector (Some h) s
        | person_analysis => set_faceDetector (Some h) s
        end in
      setIsLoading false s
  | Rejected e =>
      let s := console_error "Failed to switch model" s in
      let s := setErrorMessage
                 "Failed to load the selected AI model. Please try another prompt." s in
      setIsLoading false s
  end.

(** The instruction sent with each crop. *)
Definition quote : string := String (ascii_of_nat 34) EmptyString.
Definition analysisPrompt (inputPrompt : string) : string :=
  "Analyze the person in the image based on this user query: " ++ quote ++ inputPrompt
  ++ quote ++ ". Provide a concise, single-line summary of your analysis. Include estimated age and gender if not specified. Format as a comma-separated list of key-value pairs (e.g., Gender: Female, Age: 25-30).".

(** The per-detection async callback of [analyzeAllFaces], once settled:
    [null] without a bounding box, else the box with the response text,
    or the rejection of the cloud request. *)
Definition analyzeFace (ai : CloudModel) (inputPrompt : string) (detection : Detection)
    : Settled (option AnalysisResult) :=
  match boundingBox detection with
  | None => Fulfilled None
  | Some b =>
      match ai b (analysisPrompt inputPrompt) with
      | Fulfilled t =>
          Fulfilled (Some {| bbox := {| originX := originX b; originY := originY b;
                                        width := width b; height := height b |};
                             text := t |})
      | Rejected e => Rejected e
      end
  end.

(** The guard of [analyzeAllFaces]: true when the call returns at once. *)
Definition analyzeAllFaces_returns (detections : option (list Detection)) (s : State) : bool :=
  match detections with
  | None => true
  | Some ds => (List.length ds =? 0)%nat || negb (videoRef s) || isAnalyzing s
  end.

(** [analyzeAllFaces] from the end of the guard to the first [await]:
    the busy flag is raised and the requests are issued. *)
Definition analyzeAllFaces_begin (detections : list Detection) (s : State) : State :=
  set_batches (batches s ++ [detections]) (set_isAnalyzing true s).

(** [analyzeAllFaces] from the [await Promise.all] on: the results
    replace the stored set, or the rejection is caught and logged; the
    [finally] block lowers the busy flag either way. *)
Definition analyzeAllFaces_settle (ai : CloudModel) (inputPrompt : string)
    (detections : list Detection) (s : State) : State :=
  let s :=
    match Promise_all (map (analyzeFace ai inputPrompt) detections) with
    | Fulfilled results => setPersonAnalysisResults (Some (filter_Boolean results)) s
    | Rejected e => console_error "Failed to analyze faces" s
    end in
  set_isAnalyzing false s.

(** [analyzeAllFaces], from call to settlement. *)
Definition analyzeAllFaces (ai : CloudModel) (detections : option (list Detection))
    (s : State) : State :=
  match detections with
  | Some ds =>
      if analyzeAllFaces_returns detections s then s
      else analyzeAllFaces_settle ai (inputPrompt s) ds (analyzeAllFaces_begin ds s)
  | None => s
  end.

(** [drawObjectDetections]. *)
Definition targetsOf (detectionTarget : string) : list string :=
  filter truthy (split_sep (trim (toLowerCase detectionTarget))).

Fixpoint drawObjectDetections (detectionTarget : string) (detections : list Detection)
    (canvasWidth : number) : list CanvasOp :=
  let targets := targetsOf detectionTarget in
  match detections with
  | [] => []
  | detection :: rest =>
      match boundingBox detection, categories detection with
      | Some bbox, c0 :: _ =>
          let category := toLowerCase (categoryName c0) in
          if (0 <? List.length targets)%nat
             && negb (some (fun target => includes category target) targets)
          then drawObjectDetections detectionTarget rest canvasWidth
          else
            let mirroredX := (canvasWidth - originX bbox - width bbox)%float in
            StrokeRect "#3B68FF" 4 mirroredX (originY bbox) (width bbox) (height bbox)
            :: DrawLabel (CategoryLabel category (score c0)) mirroredX (originY bbox)
                 "#3B68FF" top
            :: drawObjectDetections detectionTarget rest canvasWidth
      | _, _ => drawObjectDetections detectionTarget rest canvasWidth
      end
  end.

(** *** [drawFaceDetections] *)

(** The first loop: a box for every detection that has one. *)
Fixpoint drawFaceBoxes (detections : list Detection) (canvasWidth : number)
    : list CanvasOp :=
  match detections with
  | [] => []
  | detection :: rest =>
      match boundingBox detection with
      | None => drawFaceBoxes rest canvasWidth
      | Some bbox =>
          let mirroredX := (canvasWidth - originX bbox - width bbox)%float in
          StrokeRect "#3B68FF" 2 mirroredX (originY bbox) (width bbox) (height bbox)
          :: drawFaceBoxes rest canvasWidth
      end
  end.

(** An element of [unattachedDetections] is a reference to a detection
    object of the frame; the reference is the object's position in the
    frame's [detections] array, kept beside the object. *)
Definition DetectionRef : Type := nat * Detection.

Definition refsOf (detections : list Detection) : list DetectionRef :=
  combine (seq 0 (List.length detections)) detections.

Record Point : Type := { px : number; py : number }.

Definition centerOf (b : BoundingBox) : Point :=
  {| px := (originX b + width b / 2)%float; py := (originY b + height b / 2)%float |}.

(** [Math.sqrt(Math.pow(rx - dx, 2) + Math.pow(ry - dy, 2))]. *)
Definition distance (resultCenter detCenter : Point) : number :=
  Math_sqrt (Math_pow2 (px resultCenter - px detCenter)
             + Math_pow2 (py resultCenter - py detCenter))%float.

(** The three variables of the inner loop. *)
Record Best : Type := {
  bestMatch : option DetectionRef;
  bestMatchIndex : Z;
  minDistance : number
}.

Definition noBest : Best :=
  {| bestMatch := None; bestMatchIndex := (-1)%Z; minDistance := Infinity |}.

(** The inner [for] loop from index [i] on. *)
Fixpoint scan (resultCenter : Point) (pool : list DetectionRef) (i : Z) (b : Best) : Best :=
  match pool with
  | [] => b
  | detection :: rest =>
      match boundingBox (snd detection) with
      | None => scan resultCenter rest (i + 1)%Z b
      | Some detBbox =>
          let d := distance resultCenter (centerOf detBbox) in
          if lt d (minDistance b)
          then scan resultCenter rest (i + 1)%Z
                 {| bestMatch := Some detection; bestMatchIndex := i; minDistance := d |}
          else scan resultCenter rest (i + 1)%Z b
      end
  end.

(** The state of the outer loop: canvas calls issued, the pool of
    detections not yet claimed, and which result claimed which
    detection. *)
Record Matching : Type := {
  ops : list CanvasOp;
  unattachedDetections : list DetectionRef;
  attached : list (AnalysisResult * DetectionRef)
}.

(** The test [bestMatch && minDistance < bestMatch.boundingBox!.width * 0.75]:
    the detection the result is attached to, with its box. *)
Definition accepted (b : Best) : option (DetectionRef * BoundingBox) :=
  match bestMatch b with
  | None => None
  | Some detection =>
      match boundingBox (snd detection) with
      | None => None
      | Some box =>
          if lt (minDistance b) (width box * 0.75)%float then Some (detection, box) else None
      end
  end.

(** One iteration of the outer loop. *)
Definition matchResult (canvasWidth : number) (m : Matching) (result : AnalysisResult)
    : Matching :=
  let b := scan (centerOf (bbox result)) (unattachedDetections m) 0%Z noBest in
  match accepted b with
  | Some (detection, box) =>
      let mirroredX := (canvasWidth - originX box - width box)%float in
      {| ops := ops m ++ [DrawLabel (PlainText (text result)) mirroredX
                            (originY box + height box)%float "#3B68FF" bottom];
         unattachedDetections := splice1 (bestMatchIndex b) (unattachedDetections m);
         attached := attached m ++ [(result, detection)] |}
  | None => m
  end.

(** The outer loop over [personAnalysisResults]. *)
Definition matchAll (canvasWidth : number) (results : list AnalysisResult)
    (detections : list Detection) : Matching :=
  fold_left (matchResult canvasWidth) results
    {| ops := []; unattachedDetections := refsOf detections; attached := [] |}.

Definition drawFaceDetections (personAnalysisResults : option (list AnalysisResult))
    (detections : option (list Detection)) (canvasWidth : number) : list CanvasOp :=
  match detections with
  | None => []
  | Some ds =>
      drawFaceBoxes ds canvasWidth ++
      match personAnalysisResults with
      | Some (r :: rs) => ops (matchAll canvasWidth (r :: rs) ds)
      | _ => []
      end
  end.

Definition drawResults (s : State) (results : option (list Detection))
    (canvasWidth canvasHeight : number) : list CanvasOp :=
  ClearRect 0%float 0%float canvasWidth canvasHeight ::
  match results with
  | None => []
  | Some ds =>
      match detectionMode s with
      | object => drawObjectDetections (detectionTarget s) ds canvasWidth
      | person_analysis => drawFaceDetections (personAnalysisResults s) (Some ds) canvasWidth
      end
  end.

Record Frame : Type := {
  currentTime : number;
  nowMs : number;
  canvasWidth : number;
  canvasHeight : number
}.

Definition infer (lib : VisionLib) (h : Handle) (f : Frame) (s : State)
    : option (list Detection) * State :=
  (Some (detectForVideo lib h (currentTime f) (nowMs f)),
   set_calls (calls s ++ [{| call_model := h; call_frame := currentTime f;
                             call_now := nowMs f |}]) s).

(** [renderLoop], one callback.  [analyzeAllFaces] is called without
    [await]: the callback runs it up to its first suspension. *)
Definition renderLoop (lib : VisionLib) (f : Frame) (s : State) : State :=
  if strict_neq (currentTime f) (lastVideoTime s) then
    let s := set_lastVideoTime (currentTime f) s in
    let '(results, s) :=
      match DetectionMode_eqb (detectionMode s) object, objectDetector s with
      | true, Some h => infer lib h f s
      | _, _ =>
      match DetectionMode_eqb (detectionMode s) person_analysis, faceDetector s with
      | true, Some h => infer lib h f s
      | _, _ => (None, s)
      end end in
    let s :=
      match detectionMode s, results with
      | person_analysis, Some (d :: ds) =>
          if lt 3000%float (nowMs f - lastAnalysisTime s)%float then
            let s := set_lastAnalysisTime (nowMs f) s in
            if analyzeAllFaces_returns results s then s
            else analyzeAllFaces_begin (d :: ds) s
          else s
      | _, _ => s
      end in
    set_canvas (drawResults s results (canvasWidth f) (canvasHeight f)) s
  else s.

(** [handleModeChange]. *)
Definition handleModeChange (lib : VisionLib) (mode : DetectionMode) (s : State) : State :=
  if DetectionMode_eqb mode (detectionMode s) then s
  else
    let s := setDetectionMode mode s in
    let s := setPersonAnalysisResults None s in
    let s := setErrorMessage "" s in
    let s :=
      match mode with
      | object => setDetectionTarget "cup" (setInputPrompt "cup" s)
      | person_analysis => setDetectionTarget "" (setInputPrompt "age and gender" s)
      end in
    switchModel lib mode s.

(** [handlePromptSubmit]. *)
Definition handlePromptSubmit (s : State) : State :=
  if negb (truthy (inputPrompt s)) then s
  else
    match detectionMode s with
    | object => setDetectionTarget (inputPrompt s) s
    | person_analysis => setPersonAnalysisResults None (set_lastAnalysisTime 0%float s)
    end.

End Analysis.

(* ================================================================== *)
(** ** The reactive cells and the session reset (src/atoms.tsx, src/hooks.tsx) *)
(* ================================================================== *)

Module Session.
Import JS.
Local Open Scope string_scope.

(** [DetectTypes] is imported from a file outside the sources at hand;
    its members are the keys of the two [Record<DetectTypes, _>] literals
    of src/atoms.tsx. *)
Inductive DetectTypes : Type :=
| BoundingBoxes2D
| SegmentationMasks
| Points
| BoundingBoxes3D.

Record BoundingBox2D : Type := {
  bb2_x : number; bb2_y : number; bb2_width : number; bb2_height : number;
  bb2_label : string
}.

Record BoundingBox3D : Type := {
  bb3_center : list number; bb3_size : list number; bb3_rpy : list number;
  bb3_label : string
}.

Record BoundingBoxMask : Type := {
  bbm_x : number; bbm_y : number; bbm_width : number; bbm_height : number;
  bbm_label : string; bbm_imageData : string
}.

Record Point : Type := {
  point : number * number;
  point_label : string
}.

Definition Line : Type := list (number * number) * string.

(** A camera track is known by its identity; a [MediaStream] is the
    tracks it holds. *)
Definition TrackId := nat.
Definition MediaStream := list TrackId.

(** A video element, by identity. *)
Definition VideoElement := nat.

(** One field per atom of src/atoms.tsx, in the order of the file. *)
Record Store : Type := {
  ImageSrcAtom : option string;
  IsUploadedImageAtom : bool;
  BoundingBoxes2DAtom : list BoundingBox2D;
  BoundingBoxes3DAtom : list BoundingBox3D;
  BoundingBoxMasksAtom : list BoundingBoxMask;
  ShareStream : option MediaStream;
  DetectTypeAtom : DetectTypes;
  VideoRefAtom : option VideoElement;
  FOVAtom : number;
  ImageSentAtom : bool;
  PointsAtom : list Point;
  RevealOnHoverModeAtom : bool;
  HoverEnteredAtom : bool;
  HoveredBoxAtom : option number;
  DrawModeAtom : bool;
  LinesAtom : list Line;
  ActiveColorAtom : string;
  BumpSessionAtom : number;
  IsLoadingAtom : bool;
  TemperatureAtom : number;
  PromptsAtom : DetectTypes -> string * string * string;
  CustomPromptsAtom : DetectTypes -> string
}.

Definition dq : string := String (ascii_of_nat 34) EmptyString.

Definition defaultPrompts (t : DetectTypes) : string * string * string :=
  match t with
  | BoundingBoxes2D =>
      ("Detect", "items",
       ", with no more than 20 items. Output a json list where each entry contains the 2D bounding box in "
       ++ dq ++ "box_2d" ++ dq ++ " and a text label in " ++ dq ++ "label" ++ dq ++ ".")
  | SegmentationMasks =>
      ("Segment", "everything",
       ". Output a json list where each entry contains the 2D bounding box in "
       ++ dq ++ "box_2d" ++ dq ++ ", a text label in the key " ++ dq ++ "label" ++ dq
       ++ ". Use descriptive labels.")
  | Points =>
      ("Detect key points on", "a person",
       " in the image. Output a json list where each entry contains a point in "
       ++ dq ++ "point" ++ dq ++ " and a text label in " ++ dq ++ "label" ++ dq ++ ".")
  | BoundingBoxes3D =>
      ("Detect", "cars",
       ". Respond in a JSON list, with each entry having a 3D bounding box in "
       ++ dq ++ "box_3d" ++ dq ++ " and a text label in " ++ dq ++ "label" ++ dq ++ ".")
  end.

(** The initial values of the atoms. *)
Definition initialStore : Store := {|
  ImageSrcAtom := Some "assets/1.png";
  IsUploadedImageAtom := false;
  BoundingBoxes2DAtom := [];
  BoundingBoxes3DAtom := [];
  BoundingBoxMasksAtom := [];
  ShareStream := None;
  DetectTypeAtom := BoundingBoxes2D;
  VideoRefAtom := None;
  FOVAtom := 90%float;
  ImageSentAtom := false;
  PointsAtom := [];
  RevealOnHoverModeAtom := false;
  HoverEnteredAtom := false;
  HoveredBoxAtom := None;
  DrawModeAtom := false;
  LinesAtom := [];
  ActiveColorAtom := "#3B68FF";
  BumpSessionAtom := 0%float;
  IsLoadingAtom := false;
  TemperatureAtom := 0.25%float;
  PromptsAtom := defaultPrompts;
  CustomPromptsAtom := fun _ => ""
|}.

(** The page: the store, and the tracks on which [stop()] was called. *)
Record World : Type := {
  store : Store;
  stopped : list TrackId
}.

(** [prev?.getTracks().forEach((track) => track.stop())]. *)
Definition stopTracks (prev : option MediaStream) (stoppedSoFar : list TrackId)
    : list TrackId :=
  match prev with
  | Some tracks => stoppedSoFar ++ tracks
  | None => stoppedSoFar
  end.

(** The function returned by [useResetState]: ten setters, in order.
    The stream's setter is given an updater, which stops the tracks of
    the previous stream and returns [null]. *)
Definition resetState (w : World) : World :=
  let s := store w in
  {| store := {|
       ImageSrcAtom := None;
       IsUploadedImageAtom := false;
       BoundingBoxes2DAtom := [];
       BoundingBoxes3DAtom := [];
       BoundingBoxMasksAtom := [];
       ShareStream := None;
       DetectTypeAtom := DetectTypeAtom s;
       VideoRefAtom := VideoRefAtom s;
       FOVAtom := FOVAtom s;
       ImageSentAtom := false;
       PointsAtom := [];
       RevealOnHoverModeAtom := RevealOnHoverModeAtom s;
       HoverEnteredAtom := HoverEnteredAtom s;
       HoveredBoxAtom := HoveredBoxAtom s;
       DrawModeAtom := false;
       LinesAtom := [];
       ActiveColorAtom := ActiveColorAtom s;
       BumpSessionAtom := BumpSessionAtom s;
       IsLoadingAtom := IsLoadingAtom s;
       TemperatureAtom := TemperatureAtom s;
       PromptsAtom := PromptsAtom s;
       CustomPromptsAtom := CustomPromptsAtom s
     |};
     stopped := stopTracks (ShareStream s) (stopped w) |}.

(** A track is live until [stop()] is called on it. *)
Definition ended (w : World) (t : TrackId) : Prop := In t (stopped w).

End Session.

(* ================================================================== *)
(** ** Statements shared by the theorems *)
(* ================================================================== *)

Module Spec.
Import JS Canvas.
Local Open Scope string_scope.

(** Every rectangle and label among [ops] sits at the mirrored position
    of the bounding box of one of the detections [ds], on a canvas
    [canvasWidth] wide. *)
Definition mirrored (canvasWidth : number) (ds : list Detection) (ops : list CanvasOp)
    : Prop :=
  (forall style lw x y w h, In (StrokeRect style lw x y w h) ops ->
     exists d b, In d ds /\ boundingBox d = Some b /\
       x = (canvasWidth - originX b - width b)%float /\
       y = originY b /\ w = width b /\ h = height b) /\
  (forall label x y color pos, In (DrawLabel label x y color pos) ops ->
     exists d b, In d ds /\ boundingBox d = Some b /\
       x = (canvasWidth - originX b - width b)%float) /\
  (forall label x y, In (DrawTrackerLabel label x y) ops ->
     exists d b, In d ds /\ boundingBox d = Some b /\
       x = (canvasWidth - originX b - width b)%float).

(** The box of the renderer example: origin (10, 10), 100 wide, 50 high. *)
Definition exampleBox : BoundingBox :=
  {| originX := 10%float; originY := 10%float; width := 100%float; height := 50%float |}.

Definition exampleDetection : Detection :=
  {| categories := [{| score := 0.5%float; categoryName := "Cup" |}];
     boundingBox := Some exampleBox |}.

(** The centre of a box: its origin moved by half its width and half its
    height. *)
Definition centreX (b : BoundingBox) : number := (originX b + width b / 2)%float.
Definition centreY (b : BoundingBox) : number := (originY b + height b / 2)%float.

(** The Euclidean distance between the centres of two boxes, in binary64
    arithmetic: the square root of the sum of the squared differences of
    the two coordinates.  It is written here without reference to the
    matcher. *)
Definition euclidean (a b : BoundingBox) : number :=
  PrimFloat.sqrt ((centreX a - centreX b) * (centreX a - centreX b)
                  + (centreY a - centreY b) * (centreY a - centreY b))%float.

(** The Euclidean distance from the centre of an analysis result's box
    to the centre of a detection's box. *)
Definition distanceTo (result : Analysis.AnalysisResult) (box : BoundingBox) : number :=
  euclidean (Analysis.bbox result) box.

(** [d], with box [box], is a detection of [pool] at minimum distance
    from [result]: no detection of the pool is strictly closer. *)
Definition nearest (result : Analysis.AnalysisResult) (pool : list Analysis.DetectionRef)
    (d : Analysis.DetectionRef) (box : BoundingBox) : Prop :=
  In d pool /\ boundingBox (snd d) = Some box /\
  forall c cbox, In c pool -> boundingBox (snd c) = Some cbox ->
    (distanceTo result cbox <? distanceTo result box)%float = false.

(** The label drawn for [result] under the box it is attached to. *)
Definition labelFor (canvasWidth : number) (result : Analysis.AnalysisResult)
    (box : BoundingBox) : CanvasOp :=
  DrawLabel (PlainText (Analysis.text result))
    (canvasWidth - originX box - width box)%float
    (originY box + height box)%float "#3B68FF" bottom.

(** The identity of the detection an attachment claims. *)
Definition claimedId (a : Analysis.AnalysisResult * Analysis.DetectionRef) : nat :=
  fst (snd a).

(** A detection is claimed when some attachment names it. *)
Definition isClaimed (attached : list (Analysis.AnalysisResult * Analysis.DetectionRef))
    (x : Analysis.DetectionRef) : bool :=
  existsb (fun a => Nat.eqb (claimedId a) (fst x)) attached.

(** The not-yet-claimed detections of a frame, in the frame's order:
    those that no attachment made so far names. *)
Definition notYetClaimed (detections : list Detection)
    (attached : list (Analysis.AnalysisResult * Analysis.DetectionRef))
    : list Analysis.DetectionRef :=
  filter (fun x => negb (isClaimed attached x)) (Analysis.refsOf detections).

(** What the inner loop of the matcher has established after the
    detections [seen]: nothing seen is strictly closer than
    [minDistance], which is infinite as long as nothing was taken, and
    otherwise the distance of [bestMatch], found at [bestMatchIndex]. *)
Definition scanned (rc : Analysis.Point) (seen : list Analysis.DetectionRef)
    (b : Analysis.Best) : Prop :=
  (forall c cbox, In c seen -> boundingBox (snd c) = Some cbox ->
     lt (Analysis.distance rc (Analysis.centerOf cbox)) (Analysis.minDistance b) = false) /\
  match Analysis.bestMatch b with
  | None => Analysis.minDistance b = Infinity
  | Some d =>
      exists box k, boundingBox (snd d) = Some box /\
        Analysis.minDistance b = Analysis.distance rc (Analysis.centerOf box) /\
        Analysis.bestMatchIndex b = Z.of_nat k /\ nth_error seen k = Some d
  end.

(** The invariant of the matching pass over the detections [all] of a
    frame: the pool and the attachments hold detections of the frame, no
    detection is in the pool twice or attached twice, and no attached
    detection is still in the pool. *)
Definition exclusive (all : list Analysis.DetectionRef) (m : Analysis.Matching) : Prop :=
  (forall x, In x (Analysis.unattachedDetections m) -> In x all) /\
  (forall a, In a (Analysis.attached m) -> In (snd a) all) /\
  NoDup (map fst (Analysis.unattachedDetections m)) /\
  NoDup (map claimedId (Analysis.attached m)) /\
  (forall a, In a (Analysis.attached m) ->
     ~ In (claimedId a) (map fst (Analysis.unattachedDetections m))).

(** Sample data: a frame with two faces, the second one small, and a
    cloud model that rejects crops narrower than 50 pixels. *)
Definition smallBox : BoundingBox :=
  {| originX := 300%float; originY := 40%float; width := 30%float; height := 30%float |}.

Definition twoFaces : list Detection :=
  [ {| categories := []; boundingBox := Some exampleBox |};
    {| categories := []; boundingBox := Some smallBox |} ].

Definition flakyCloud : Analysis.CloudModel :=
  fun box _ =>
    if lt (width box) 50%float then Rejected "429 quota exceeded"
    else Fulfilled "Gender: Female, Age: 25-30".

(** The person-analysis application once its model is loaded, holding
    the results of an earlier batch. *)
Definition analysisRunning : Analysis.State :=
  Analysis.setPersonAnalysisResults
    (Some [{| Analysis.bbox := exampleBox; Analysis.text := "Gender: Female" |}])
    (Analysis.switchModel
       {| Analysis.createFromOptions := fun _ => Fulfilled 7%nat;
          Analysis.detectForVideo := fun _ _ _ => twoFaces |}
       Analysis.person_analysis Analysis.initial).

(** Sample data: a vision library whose models load, and the tracker
    after its first model load. *)
Definition stubVision : Tracker.VisionLib :=
  {| Tracker.createFromOptions := fun _ => Fulfilled 1%nat;
     Tracker.detectForVideo := fun _ _ _ => Tracker.DetectionResults [exampleDetection];
     Tracker.HAND_CONNECTIONS := [];
     Tracker.POSE_CONNECTIONS := [] |}.

Definition trackerRunning : Tracker.State :=
  Tracker.switchModel stubVision Tracker.object Tracker.initial.

(** All keywords the router knows. *)
Definition recognizedKeywords : list string :=
  Tracker.faceKeywords ++ Tracker.handKeywords ++ Tracker.poseKeywords.

(** The two canvas calls of object mode for one detection with a
    category and a box. *)
Definition boxAndLabel (canvasWidth : number) (d : Detection) : list CanvasOp :=
  match categories d, boundingBox d with
  | c0 :: _, Some b =>
      [StrokeRect "#3B68FF" 4 (canvasWidth - originX b - width b)%float (originY b)
         (width b) (height b);
       DrawLabel (CategoryLabel (toLowerCase (categoryName c0)) (score c0))
         (canvasWidth - originX b - width b)%float (originY b) "#3B68FF" top]
  | _, _ => []
  end.

Definition wellFormed (d : Detection) : Prop :=
  categories d <> [] /\ boundingBox d <> None.

(** The tracker after the prompt [face] was submitted and the input
    field was then emptied. *)
Definition trackerOnFaces : Tracker.State :=
  Tracker.setInputPrompt ""
    (Tracker.handlePromptSubmit stubVision (Tracker.setInputPrompt "face" trackerRunning)).

(** Two animation-frame callbacks that find the video at the same
    playback time, 16 ms apart. *)
Definition trackerFrameA : Tracker.Frame :=
  {| Tracker.currentTime := 1.5%float; Tracker.now := 1000%float;
     Tracker.canvasWidth := 640%float; Tracker.canvasHeight := 480%float |}.
Definition trackerFrameB : Tracker.Frame :=
  {| Tracker.currentTime := 1.5%float; Tracker.now := 1016%float;
     Tracker.canvasWidth := 640%float; Tracker.canvasHeight := 480%float |}.

Definition analysisVision : Analysis.VisionLib :=
  {| Analysis.createFromOptions := fun _ => Fulfilled 7%nat;
     Analysis.detectForVideo := fun _ _ _ => twoFaces |}.
Definition analysisFrameA : Analysis.Frame :=
  {| Analysis.currentTime := 1.5%float; Analysis.nowMs := 4000%float;
     Analysis.canvasWidth := 640%float; Analysis.canvasHeight := 480%float |}.
Definition analysisFrameB : Analysis.Frame :=
  {| Analysis.currentTime := 1.5%float; Analysis.nowMs := 4016%float;
     Analysis.canvasWidth := 640%float; Analysis.canvasHeight := 480%float |}.

(** A session in use: a camera stream with two tracks, one drawn box,
    the 3D detection type selected, a narrower field of view, a custom
    prompt, and a request in flight. *)
Definition usedStore : Session.Store :=
  {| Session.ImageSrcAtom := Some "assets/3.png";
     Session.IsUploadedImageAtom := false;
     Session.BoundingBoxes2DAtom :=
       [{| Session.bb2_x := 0.5%float; Session.bb2_y := 0.5%float;
           Session.bb2_width := 0.25%float; Session.bb2_height := 0.25%float;
           Session.bb2_label := "cup" |}];
     Session.BoundingBoxes3DAtom := [];
     Session.BoundingBoxMasksAtom := [];
     Session.ShareStream := Some [11%nat; 12%nat];
     Session.DetectTypeAtom := Session.BoundingBoxes3D;
     Session.VideoRefAtom := Some 1%nat;
     Session.FOVAtom := 60%float;
     Session.ImageSentAtom := true;
     Session.PointsAtom := [];
     Session.RevealOnHoverModeAtom := true;
     Session.HoverEnteredAtom := false;
     Session.HoveredBoxAtom := Some 0%float;
     Session.DrawModeAtom := true;
     Session.LinesAtom := [([(0.5%float, 0.5%float)], "#FF3B3B")];
     Session.ActiveColorAtom := "#FF3B3B";
     Session.BumpSessionAtom := 2%float;
     Session.IsLoadingAtom := true;
     Session.TemperatureAtom := 0.5%float;
     Session.PromptsAtom := Session.defaultPrompts;
     Session.CustomPromptsAtom := fun _ => "red cars only" |}.

Definition usedWorld : Session.World :=
  {| Session.store := usedStore; Session.stopped := [] |}.

Definition freshWorld : Session.World :=
  {| Session.store := Session.initialStore; Session.stopped := [] |}.

(** A model slot of the tracker holds [h]; the slot a task loads into. *)
Definition trackerHolds (s : Tracker.State) (h : Tracker.Handle) : Prop :=
  Tracker.objectDetector s = Some h \/ Tracker.faceDetector s = Some h \/
  Tracker.handLandmarker s = Some h \/ Tracker.poseLandmarker s = Some h.

Definition trackerSlot (task : Tracker.VisionTask) (s : Tracker.State)
    : option Tracker.Handle :=
  match task with
  | Tracker.object => Tracker.objectDetector s
  | Tracker.face => Tracker.faceDetector s
  | Tracker.hands => Tracker.handLandmarker s
  | Tracker.pose => Tracker.poseLandmarker s
  end.

(** The same for the person-analysis application, which only ever loads
    an object detector or a face detector. *)
Definition analysisHolds (s : Analysis.State) (h : Analysis.Handle) : Prop :=
  Analysis.objectDetector s = Some h \/ Analysis.faceDetector s = Some h.

Definition analysisSlot (task : Analysis.DetectionMode) (s : Analysis.State)
    : option Analysis.Handle :=
  match task with
  | Analysis.object => Analysis.objectDetector s
  | Analysis.person_analysis => Analysis.faceDetector s
  end.

(** The two landmarker slots of the person-analysis application are
    declared and never assigned. *)
Definition landmarkersUnused (s : Analysis.State) : Prop :=
  Analysis.handLandmarker s = None /\ Analysis.poseLandmarker s = None.

(** Sample data for the matcher: two faces 300 pixels apart, and two
    analysis results computed a few frames earlier, both near the first
    face. *)
Definition faceLeft : Detection :=
  {| categories := []; boundingBox := Some exampleBox |}.
Definition faceRight : Detection :=
  {| categories := [];
     boundingBox := Some {| originX := 310%float; originY := 10%float;
                            width := 100%float; height := 50%float |} |}.
Definition resultNearLeft : Analysis.AnalysisResult :=
  {| Analysis.bbox := {| originX := 16%float; originY := 18%float;
                         width := 100%float; height := 50%float |};
     Analysis.text := "Gender: Female, Age: 25-30" |}.
Definition resultAlsoNearLeft : Analysis.AnalysisResult :=
  {| Analysis.bbox := {| originX := 4%float; originY := 10%float;
                         width := 100%float; height := 50%float |};
     Analysis.text := "Gender: Male, Age: 40-50" |}.

(** A string of white space only. *)
Fixpoint whiteSpaceOnly (s : string) : bool :=
  match s with
  | EmptyString => true
  | String c rest => isWhiteSpace c && whiteSpaceOnly rest
  end.

(** A detected person. *)
Definition personDetection : Detection :=
  {| categories := [{| score := 0.75%float; categoryName := "person" |}];
     boundingBox := Some exampleBox |}.

(** The filter of object mode in the person-analysis application: the
    detection has a box and a category, and the token list is empty or
    one of its tokens occurs in the lower-cased name of the first
    category. *)
Definition passesFilter (targets : list string) (d : Detection) : Prop :=
  exists b c0 cs,
    boundingBox d = Some b /\ categories d = c0 :: cs /\
    (targets = [] \/
     exists t, In t targets /\ includes (toLowerCase (categoryName c0)) t = true).

(** *** Two readings of the token list

    Both work on the lower-cased, trimmed target.  [fields] cuts a string
    at its white-space and comma characters and keeps the non-empty
    pieces. *)
Definition piece (cur : string) : list string :=
  match cur with EmptyString => [] | _ => [cur] end.

Fixpoint fields_go (s cur : string) : list string :=
  match s with
  | EmptyString => piece cur
  | String c rest =>
      if isSepChar c then piece cur ++ fields_go rest EmptyString
      else fields_go rest (String.append cur (String c EmptyString))
  end.

Definition fields (s : string) : list string := fields_go s EmptyString.

(** The reading of the claim: [and] separates as a word, that is, as a
    piece of its own between white space and commas. *)
Definition wordTokens (target : string) : list string :=
  filter (fun t => negb (String.eqb t "and")) (fields (trim (toLowerCase target))).

(** The three letters a, n, d, in either case, at the start of [s]. *)
Definition isLetter (lower upper c : ascii) : bool :=
  Ascii.eqb c lower || Ascii.eqb c upper.

Definition andAt (s : string) : bool :=
  match s with
  | String a (String n (String d _)) =>
      isLetter "a" "A" a && isLetter "n" "N" n && isLetter "d" "D" d
  | _ => false
  end.

(** Every occurrence of the letters a-n-d, found from the left and not
    overlapping an earlier one, is replaced by one comma. *)
Fixpoint markAnd (s : string) : string :=
  match s with
  | String a ((String _ (String _ rest)) as tl) =>
      if andAt s then String ","%char (markAnd rest) else String a (markAnd tl)
  | _ => s
  end.

(** The reading that matches the program: the letters a-n-d separate
    wherever they occur, also inside a longer word. *)
Definition tokens (target : string) : list string :=
  fields (markAnd (trim (toLowerCase target))).

End Spec.

(* ================================================================== *)
(** ** Start-up of the person-analysis application (src/App.tsx) *)
(* ================================================================== *)

Module Startup.
Import JS.
Local Open Scope string_scope.

(** What the browser answers during start-up: the vision runtime
    ([FilesetResolver.forVisionTasks]), whether
    [navigator.mediaDevices.getUserMedia] exists, and the camera request. *)
Record Browser : Type := {
  forVisionTasks : Settled unit;
  hasGetUserMedia : bool;
  getUserMedia : Settled Session.MediaStream
}.

(** The component with what start-up adds to it: the [vision] slot, the
    stream given to the video element, and whether [predict] listens for
    the video's [loadeddata] event. *)
Record Page : Type := {
  app : Analysis.State;
  vision : bool;
  srcObject : option Session.MediaStream;
  listening : bool
}.

Definition mounted : Page :=
  {| app := Analysis.initial; vision := false; srcObject := None; listening := false |}.

Definition withApp (a : Analysis.State) (p : Page) : Page :=
  {| app := a; vision := vision p; srcObject := srcObject p; listening := listening p |}.

(** [setupCamera].  It catches the rejection of the camera request, so
    it never rejects itself. *)
Definition setupCamera (b : Browser) (p : Page) : Page :=
  if negb (hasGetUserMedia b) then
    withApp (Analysis.setErrorMessage "Camera access is not supported by this browser."
               (app p)) p
  else
    match getUserMedia b with
    | Fulfilled stream =>
        if Analysis.videoRef (app p) then
          {| app := app p; vision := vision p; srcObject := Some stream; listening := true |}
        else p
    | Rejected e =>
        withApp (Analysis.setErrorMessage
                   "Could not access the camera. Please grant permission and refresh."
                   (Analysis.console_error "Failed to get camera feed" (app p))) p
    end.

(** [setup], the body of the mount effect. *)
Definition setup (b : Browser) (lib : Analysis.VisionLib) (p : Page) : Page :=
  let p := withApp (Analysis.setLoadingMessage "Initializing vision tasks..." (app p)) p in
  match forVisionTasks b with
  | Fulfilled _ =>
      let p := {| app := app p; vision := true; srcObject := srcObject p;
                  listening := listening p |} in
      let p := setupCamera b p in
      withApp (Analysis.switchModel lib Analysis.person_analysis (app p)) p
  | Rejected e =>
      withApp (Analysis.setIsLoading false
                 (Analysis.setErrorMessage "Failed to initialize. Please refresh the page."
                    (Analysis.console_error "Failed during setup" (app p)))) p
  end.

End Startup.

(* ================================================================== *)
(** ** Further statements and sample data *)
(* ================================================================== *)

Module Props.
Import JS Canvas.
Local Open Scope string_scope.

(** The person-analysis application with a batch in flight. *)
Definition analysisBusy : Analysis.State :=
  Analysis.analyzeAllFaces_begin Spec.twoFaces Spec.analysisRunning.

(** The condition under which a callback of the person-analysis render
    loop launches a batch for the detections [ds] found by the face
    detector [h]. *)
Definition triggers (lib : Analysis.VisionLib) (f : Analysis.Frame) (s : Analysis.State)
    (h : Analysis.Handle) (ds : list Detection) : Prop :=
  strict_neq (Analysis.currentTime f) (Analysis.lastVideoTime s) = true /\
  Analysis.detectionMode s = Analysis.person_analysis /\
  Analysis.faceDetector s = Some h /\
  Analysis.detectForVideo lib h (Analysis.currentTime f) (Analysis.nowMs f) = ds /\
  ds <> [] /\
  lt 3000%float (Analysis.nowMs f - Analysis.lastAnalysisTime s)%float = true /\
  Analysis.videoRef s = true /\
  Analysis.isAnalyzing s = false.

(** The tracker's object renderer can treat [d] without reading a
    property of [undefined]: [d] has a category, and either the filter
    skips it or it has a bounding box. *)
Definition trackerSafe (target : string) (d : Detection) : Prop :=
  exists c0 cs, categories d = c0 :: cs /\
    ((truthy target
      && negb (includes (toLowerCase (categoryName c0)) (trim (toLowerCase target))) = true)
     \/ boundingBox d <> None).

(** No match of the separator expression starts anywhere in [s]. *)
Fixpoint noSeparator (s : string) : bool :=
  match s with
  | EmptyString => true
  | String c rest =>
      match sepMatch s with
      | None => noSeparator rest
      | Some _ => false
      end
  end.

(** [s] holds no white space and no comma; [s] holds nothing else. *)
Fixpoint noSepChars (s : string) : bool :=
  match s with
  | EmptyString => true
  | String c rest => negb (isSepChar c) && noSepChars rest
  end.

Fixpoint sepOnly (s : string) : bool :=
  match s with
  | EmptyString => true
  | String c rest => isSepChar c && sepOnly rest
  end.

(** Both ends of a connection exist in a landmark set. *)
Definition connected (landmark : list Tracker.NormalizedLandmark)
    (c : Tracker.Connection) : bool :=
  match nth_error landmark (Tracker.conn_start c), nth_error landmark (Tracker.conn_end c) with
  | Some _, Some _ => true
  | _, _ => false
  end.

Definition isSegment (color : string) (op : CanvasOp) : Prop :=
  exists x1 y1 x2 y2, op = StrokeLine color 3 x1 y1 x2 y2.

(** Sample data: a detection without categories between two cups, and a
    hand of three landmarks with one connection that points past them. *)
Definition nameless : Detection :=
  {| categories := []; boundingBox := Some Spec.smallBox |}.

Definition threeLandmarks : list Tracker.NormalizedLandmark :=
  [ {| Tracker.lx := 0.25%float; Tracker.ly := 0.25%float |};
    {| Tracker.lx := 0.5%float; Tracker.ly := 0.5%float |};
    {| Tracker.lx := 0.75%float; Tracker.ly := 0.25%float |} ].

Definition someConnections : list Tracker.Connection :=
  [ {| Tracker.conn_start := 0; Tracker.conn_end := 1 |};
    {| Tracker.conn_start := 1; Tracker.conn_end := 2 |};
    {| Tracker.conn_start := 2; Tracker.conn_end := 20 |} ].

(** The call the tracker issues where the person-analysis application
    issues [op]: the same call, but a label goes through the tracker's
    own [drawLabel], which is given the label, x and y only. *)
Definition trackerCall (op : CanvasOp) : CanvasOp :=
  match op with
  | DrawLabel label x y _ _ => DrawTrackerLabel label x y
  | _ => op
  end.

(** A detection has a bounding box. *)
Definition hasBox (d : Detection) : bool :=
  match boundingBox d with Some _ => true | None => false end.

Definition isLabel (op : CanvasOp) : Prop :=
  exists t x y, op = DrawLabel (PlainText t) x y "#3B68FF" bottom.

(** What the matching pass keeps besides exclusivity: one label per
    attachment, and only detections with a box are attached. *)
Definition labelled (m : Analysis.Matching) : Prop :=
  List.length (Analysis.ops m) = List.length (Analysis.attached m) /\
  Forall isLabel (Analysis.ops m) /\
  (forall a, In a (Analysis.attached m) -> hasBox (snd (snd a)) = true).

(** The models in the slots of the tracker, in the order in which
    [switchModel] closes them. *)
Definition slotList (m : option Tracker.Handle) : list Tracker.Handle :=
  match m with Some h => [h] | None => [] end.

Definition heldList (s : Tracker.State) : list Tracker.Handle :=
  slotList (Tracker.objectDetector s) ++ slotList (Tracker.faceDetector s)
  ++ slotList (Tracker.handLandmarker s) ++ slotList (Tracker.poseLandmarker s).

(** Every model the tracker holds sits in the slot of its active task. *)
Definition owned (s : Tracker.State) : Prop :=
  forall h, Spec.trackerHolds s h -> Spec.trackerSlot (Tracker.activeTask s) s = Some h.

(** The tracker holding two models, as after a switch that was given a
    new handle. *)
Definition freshVision : Tracker.VisionLib :=
  {| Tracker.createFromOptions := fun _ => Fulfilled 2%nat;
     Tracker.detectForVideo := fun _ _ _ => Tracker.DetectionResults [];
     Tracker.HAND_CONNECTIONS := [];
     Tracker.POSE_CONNECTIONS := [] |}.

(** The person-analysis application 100 ms after a launch. *)
Definition analysisRecent : Analysis.State :=
  Analysis.set_lastAnalysisTime 3900%float Spec.analysisRunning.

(** The streams of a session: the tracks of the stream cell, if any. *)
Definition streamTracks (w : Session.World) : list Session.TrackId :=
  match Session.ShareStream (Session.store w) with
  | Some tracks => tracks
  | None => []
  end.

(** Browsers: one that refuses the camera, and one without a vision
    runtime. *)
Definition cameraDenied : Startup.Browser :=
  {| Startup.forVisionTasks := Fulfilled tt;
     Startup.hasGetUserMedia := true;
     Startup.getUserMedia := Rejected "NotAllowedError" |}.

End Props.

(* ================================================================== *)
(** ** The render loop that runs *)
(* ================================================================== *)

Module Mounted.
Import JS Canvas.
Local Open Scope string_scope.

(** In both applications [predict] is registered once: [setupCamera],
    called by the effect that runs at mount, adds it as the listener of
    the video's [loadeddata] event.  The [renderLoop] that runs, and the
    [drawResults] it calls, are therefore the functions of the first
    render, and a [useState] value they read is the constant of that
    render: the initial value of the cell, whatever a handler has stored
    since.  The [useRef] slots and the module-level [lastVideoTime] are
    shared by all renders and are read as they are. *)

(** The [useState] cells of [from] beside everything else of [to]. *)
Definition trackerCells (from to : Tracker.State) : Tracker.State :=
  Tracker.setInputPrompt (Tracker.inputPrompt from)
    (Tracker.setIsLoading (Tracker.isLoading from)
      (Tracker.setLoadingMessage (Tracker.loadingMessage from)
        (Tracker.setErrorMessage (Tracker.errorMessage from)
          (Tracker.setActiveTask (Tracker.activeTask from)
            (Tracker.setDetectionTarget (Tracker.detectionTarget from) to))))).

(** One callback of the tracker's running loop: [renderLoop] of the
    first render on the shared slots; the cells stay as they are. *)
Definition trackerLoop (lib : Tracker.VisionLib) (f : Tracker.Frame) (s : Tracker.State)
    : Tracker.State :=
  trackerCells s (Tracker.renderLoop lib f (trackerCells Tracker.initial s)).

Definition analysisCells (from to : Analysis.State) : Analysis.State :=
  Analysis.setInputPrompt (Analysis.inputPrompt from)
    (Analysis.setIsLoading (Analysis.isLoading from)
      (Analysis.setLoadingMessage (Analysis.loadingMessage from)
        (Analysis.setErrorMessage (Analysis.errorMessage from)
          (Analysis.setDetectionMode (Analysis.detectionMode from)
            (Analysis.setDetectionTarget (Analysis.detectionTarget from)
              (Analysis.setPersonAnalysisResults (Analysis.personAnalysisResults from)
                 to)))))).

(** One callback of the running loop of the person-analysis
    application. *)
Definition analysisLoop (lib : Analysis.VisionLib) (f : Analysis.Frame)
    (s : Analysis.State) : Analysis.State :=
  analysisCells s (Analysis.renderLoop lib f (analysisCells Analysis.initial s)).

(** Sample data: a scene with a person and a cup; the tracker after its
    first model load and the submission of the prompt [cup]; the
    person-analysis application holding a stored result. *)
Definition sceneVision : Tracker.VisionLib :=
  {| Tracker.createFromOptions := fun _ => Fulfilled 1%nat;
     Tracker.detectForVideo := fun _ _ _ =>
       Tracker.DetectionResults [Spec.personDetection; Spec.exampleDetection];
     Tracker.HAND_CONNECTIONS := [];
     Tracker.POSE_CONNECTIONS := [] |}.

Definition trackerAfterCup : Tracker.State :=
  Tracker.handlePromptSubmit sceneVision
    (Tracker.setInputPrompt "cup"
       (Tracker.switchModel sceneVision Tracker.object Tracker.initial)).

Definition trackerAfterFace : Tracker.State :=
  Tracker.handlePromptSubmit sceneVision
    (Tracker.setInputPrompt "face"
       (Tracker.switchModel sceneVision Tracker.object Tracker.initial)).

Definition analysisWithResult : Analysis.State :=
  Analysis.setPersonAnalysisResults (Some [Spec.resultNearLeft]) Spec.analysisRunning.

End Mounted.

(* ================================================================== *)
(** ** Numbers *)
(* ================================================================== *)

Lemma cmp_lex_trans (e1 e2 e3 : Z) (m1 m2 m3 : positive) :
  match (e1 ?= e2)%Z with Lt => Lt | Gt => Gt | Eq => Pos.compare_cont Eq m1 m2 end = Lt ->
  match (e2 ?= e3)%Z with Lt => Lt | Gt => Gt | Eq => Pos.compare_cont Eq m2 m3 end = Lt ->
  match (e1 ?= e3)%Z with Lt => Lt | Gt => Gt | Eq => Pos.compare_cont Eq m1 m3 end = Lt.
Proof.
  change (Pos.compare_cont Eq m1 m2) with (m1 ?= m2)%positive.
  change (Pos.compare_cont Eq m2 m3) with (m2 ?= m3)%positive.
  change (Pos.compare_cont Eq m1 m3) with (m1 ?= m3)%positive.
  destruct (Z.compare_spec e1 e2), (Z.compare_spec e2 e3); try discriminate;
    destruct (Z.compare_spec e1 e3); try lia; intros L1 L2; try reflexivity.
  rewrite Pos.compare_lt_iff in *; lia.
Qed.

Lemma cmp_lex_trans_opp (e1 e2 e3 : Z) (m1 m2 m3 : positive) :
  match (e1 ?= e2)%Z with
  | Lt => Gt | Gt => Lt | Eq => CompOpp (Pos.compare_cont Eq m1 m2) end = Lt ->
  match (e2 ?= e3)%Z with
  | Lt => Gt | Gt => Lt | Eq => CompOpp (Pos.compare_cont Eq m2 m3) end = Lt ->
  match (e1 ?= e3)%Z with
  | Lt => Gt | Gt => Lt | Eq => CompOpp (Pos.compare_cont Eq m1 m3) end = Lt.
Proof.
  change (Pos.compare_cont Eq m1 m2) with (m1 ?= m2)%positive.
  change (Pos.compare_cont Eq m2 m3) with (m2 ?= m3)%positive.
  change (Pos.compare_cont Eq m1 m3) with (m1 ?= m3)%positive.
  destruct (Z.compare_spec e1 e2), (Z.compare_spec e2 e3); try discriminate;
    destruct (Z.compare_spec e1 e3); try lia; intros L1 L2; try reflexivity.
  destruct (Pos.compare_spec m1 m2); try discriminate.
  destruct (Pos.compare_spec m2 m3); try discriminate.
  destruct (Pos.compare_spec m1 m3); try reflexivity; lia.
Qed.

(** The order of the binary64 format is transitive, NaN and the
    infinities included. *)
Lemma SFltb_trans (a b c : spec_float) :
  SFltb a b = true -> SFltb b c = true -> SFltb a c = true.
Proof.
  unfold SFltb, SFcompare.
  destruct a as [sa|sa| |sa ma ea], b as [sb|sb| |sb mb eb], c as [sc|sc| |sc mc ec];
    try discriminate; try reflexivity;
    repeat match goal with s : bool |- _ => destruct s end;
    try discriminate; try reflexivity; intros H1 H2.
  - pose proof (cmp_lex_trans_opp ea eb ec ma mb mc) as T.
    destruct (match (ea ?= eb)%Z with
              | Lt => Gt | Gt => Lt | Eq => CompOpp (Pos.compare_cont Eq ma mb) end);
      try discriminate.
    destruct (match (eb ?= ec)%Z with
              | Lt => Gt | Gt => Lt | Eq => CompOpp (Pos.compare_cont Eq mb mc) end);
      try discriminate.
    rewrite T; reflexivity.
  - pose proof (cmp_lex_trans ea eb ec ma mb mc) as T.
    destruct (match (ea ?= eb)%Z with
              | Lt => Lt | Gt => Gt | Eq => Pos.compare_cont Eq ma mb end);
      try discriminate.
    destruct (match (eb ?= ec)%Z with
              | Lt => Lt | Gt => Gt | Eq => Pos.compare_cont Eq mb mc end);
      try discriminate.
    rewrite T; reflexivity.
Qed.

Lemma lt_trans (x y z : JS.number) :
  JS.lt x y = true -> JS.lt y z = true -> JS.lt x z = true.
Proof. unfold JS.lt. rewrite !ltb_spec. apply SFltb_trans. Qed.

Lemma lt_irrefl (x : JS.number) : JS.lt x x = false.
Proof.
  unfold JS.lt. rewrite ltb_spec. unfold SFltb, SFcompare.
  destruct (Prim2SF x) as [[]|[]| |[] m e]; try reflexivity;
    rewrite Z.compare_refl; change (Pos.compare_cont Eq m m) with (m ?= m)%positive;
    rewrite Pos.compare_refl; reflexivity.
Qed.

(* ================================================================== *)
(** ** The renderer mirrors every box *)
(* ================================================================== *)

Section Mirroring.
Import JS Canvas Spec.
Variable W : number.

Lemma mirrored_nil ds : mirrored W ds [].
Proof. repeat split; intros; contradiction. Qed.

Lemma mirrored_weaken d ds ops : mirrored W ds ops -> mirrored W (d :: ds) ops.
Proof.
  intros (R & L & T); repeat split; intros.
  - destruct (R _ _ _ _ _ _ H) as (d' & b & I & E); exists d', b; split; [right|]; assumption.
  - destruct (L _ _ _ _ _ H) as (d' & b & I & E); exists d', b; split; [right|]; assumption.
  - destruct (T _ _ _ H) as (d' & b & I & E); exists d', b; split; [right|]; assumption.
Qed.

Lemma mirrored_box d b ds style lw ops :
  boundingBox d = Some b -> mirrored W (d :: ds) ops ->
  mirrored W (d :: ds)
    (StrokeRect style lw (W - originX b - width b)%float (originY b) (width b) (height b)
     :: ops).
Proof.
  intros B (R & L & T); repeat split; intros.
  - destruct H as [H|H]; [|eauto].
    inversion H; subst. exists d, b. repeat split; auto. left; reflexivity.
  - destruct H as [H|H]; [discriminate|eauto].
  - destruct H as [H|H]; [discriminate|eauto].
Qed.

Lemma mirrored_label d b ds label y color pos ops :
  boundingBox d = Some b -> mirrored W (d :: ds) ops ->
  mirrored W (d :: ds) (DrawLabel label (W - originX b - width b)%float y color pos :: ops).
Proof.
  intros B (R & L & T); repeat split; intros.
  - destruct H as [H|H]; [discriminate|eauto].
  - destruct H as [H|H]; [|eauto].
    inversion H; subst. exists d, b. repeat split; auto. left; reflexivity.
  - destruct H as [H|H]; [discriminate|eauto].
Qed.

Lemma mirrored_tracker_label d b ds label y ops :
  boundingBox d = Some b -> mirrored W (d :: ds) ops ->
  mirrored W (d :: ds) (DrawTrackerLabel label (W - originX b - width b)%float y :: ops).
Proof.
  intros B (R & L & T); repeat split; intros.
  - destruct H as [H|H]; [discriminate|eauto].
  - destruct H as [H|H]; [discriminate|eauto].
  - destruct H as [H|H]; [|eauto].
    inversion H; subst. exists d, b. repeat split; auto. left; reflexivity.
Qed.

Lemma analysis_objects_mirrored target ds :
  mirrored W ds (Analysis.drawObjectDetections target ds W).
Proof.
  induction ds as [|d ds IH]; simpl; [apply mirrored_nil|].
  destruct (boundingBox d) as [b|] eqn:B; [|apply mirrored_weaken, IH].
  destruct (categories d) as [|c0 cs]; [apply mirrored_weaken, IH|].
  match goal with |- context [if ?c then _ else _] => destruct c end;
    [apply mirrored_weaken, IH|].
  apply mirrored_box; [assumption|].
  apply mirrored_label; [assumption|].
  apply mirrored_weaken, IH.
Qed.

Lemma analysis_faces_mirrored ds : mirrored W ds (Analysis.drawFaceBoxes ds W).
Proof.
  induction ds as [|d ds IH]; simpl; [apply mirrored_nil|].
  destruct (boundingBox d) as [b|] eqn:B; [|apply mirrored_weaken, IH].
  apply mirrored_box; [assumption|]. apply mirrored_weaken, IH.
Qed.

Lemma tracker_objects_mirrored target ds :
  mirrored W ds (fst (Tracker.drawObjectDetections target ds W)).
Proof.
  induction ds as [|d ds IH]; simpl; [apply mirrored_nil|].
  destruct (categories d) as [|c0 cs]; [apply mirrored_nil|].
  match goal with |- context [if ?c then _ else _] => destruct c end;
    [apply mirrored_weaken, IH|].
  destruct (boundingBox d) as [b|] eqn:B; [|apply mirrored_nil].
  destruct (Tracker.drawObjectDetections target ds W) as [ops c]; simpl in *.
  apply mirrored_box; [assumption|].
  apply mirrored_tracker_label; [assumption|].
  apply mirrored_weaken, IH.
Qed.

Lemma tracker_faces_mirrored ds :
  mirrored W ds (fst (Tracker.drawFaceDetections ds W)).
Proof.
  induction ds as [|d ds IH]; simpl; [apply mirrored_nil|].
  destruct (boundingBox d) as [b|] eqn:B; [|apply mirrored_nil].
  destruct (Tracker.drawFaceDetections ds W) as [ops c]; simpl in *.
  apply mirrored_box; [assumption|]. apply mirrored_weaken, IH.
Qed.

End Mirroring.

(** C9.  Every rectangle stroked by the renderers (object and face mode,
    in both applications) has its left edge at
    [canvasWidth - originX - boxWidth] of the detection it is drawn for,
    the labels of object mode (drawn by either [drawLabel]) with it; and
    the box with origin (10,10),
    width 100 and height 50 on a canvas 640 wide is stroked at x = 530,
    y = 10, 100 by 50. *)
Theorem renderer_mirrors_boxes :
  (forall canvasWidth target ds,
     Spec.mirrored canvasWidth ds (Analysis.drawObjectDetections target ds canvasWidth) /\
     Spec.mirrored canvasWidth ds (Analysis.drawFaceBoxes ds canvasWidth) /\
     Spec.mirrored canvasWidth ds (fst (Tracker.drawObjectDetections target ds canvasWidth)) /\
     Spec.mirrored canvasWidth ds (fst (Tracker.drawFaceDetections ds canvasWidth))) /\
  Analysis.drawObjectDetections "" [Spec.exampleDetection] 640%float =
    [Canvas.StrokeRect "#3B68FF" 4 530%float 10%float 100%float 50%float;
     Canvas.DrawLabel (Canvas.CategoryLabel "cup" 0.5%float) 530%float 10%float
       "#3B68FF" Canvas.top] /\
  Tracker.drawObjectDetections "" [Spec.exampleDetection] 640%float =
    ([Canvas.StrokeRect "#3B68FF" 4 530%float 10%float 100%float 50%float;
      Canvas.DrawTrackerLabel (Canvas.CategoryLabel "cup" 0.5%float) 530%float 10%float],
     Canvas.Normal) /\
  Analysis.drawFaceBoxes [Spec.exampleDetection] 640%float =
    [Canvas.StrokeRect "#3B68FF" 2 530%float 10%float 100%float 50%float] /\
  Tracker.drawFaceDetections [Spec.exampleDetection] 640%float =
    ([Canvas.StrokeRect "#FFFF00" 2 530%float 10%float 100%float 50%float], Canvas.Normal).
Proof.
  split; [|repeat split; vm_compute; reflexivity].
  intros W target ds.
  split; [apply analysis_objects_mirrored|].
  split; [apply analysis_faces_mirrored|].
  split; [apply tracker_objects_mirrored|apply tracker_faces_mirrored].
Qed.

(* ================================================================== *)
(** ** Nearest-centroid matching *)
(* ================================================================== *)

Section Scan.
Import JS Canvas Analysis Spec.
Variable rc : Point.

Lemma scanned_start : scanned rc [] noBest.
Proof. split; [intros ? ? []|reflexivity]. Qed.

Lemma scanned_skip seen b x :
  boundingBox (snd x) = None -> scanned rc seen b -> scanned rc (seen ++ [x]) b.
Proof.
  intros N [M B]; split.
  - intros c cbox I E. apply in_app_or in I as [I|[I|[]]]; [eauto|].
    subst; congruence.
  - destruct (bestMatch b) as [d|]; [|assumption].
    destruct B as (box & k & B1 & B2 & B3 & B4).
    exists box, k; repeat split; auto.
    rewrite nth_error_app1; [assumption|]. apply nth_error_Some; congruence.
Qed.

Lemma scanned_keep seen b x box :
  boundingBox (snd x) = Some box ->
  lt (distance rc (centerOf box)) (minDistance b) = false ->
  scanned rc seen b -> scanned rc (seen ++ [x]) b.
Proof.
  intros E F [M B]; split.
  - intros c cbox I Ec. apply in_app_or in I as [I|[I|[]]]; [eauto|].
    subst; congruence.
  - destruct (bestMatch b) as [d|]; [|assumption].
    destruct B as (box' & k & B1 & B2 & B3 & B4).
    exists box', k; repeat split; auto.
    rewrite nth_error_app1; [assumption|]. apply nth_error_Some; congruence.
Qed.

Lemma scanned_take seen b x box :
  boundingBox (snd x) = Some box ->
  lt (distance rc (centerOf box)) (minDistance b) = true ->
  scanned rc seen b ->
  scanned rc (seen ++ [x])
    {| bestMatch := Some x; bestMatchIndex := Z.of_nat (List.length seen);
       minDistance := distance rc (centerOf box) |}.
Proof.
  intros E T [M B]; split; simpl.
  - intros c cbox I Ec. apply in_app_or in I as [I|[I|[]]].
    + destruct (lt (distance rc (centerOf cbox)) (distance rc (centerOf box))) eqn:L;
        [|reflexivity].
      rewrite <- (M c cbox I Ec). symmetry. eapply lt_trans; eassumption.
    + subst. assert (cbox = box) by congruence; subst.
      destruct (lt (distance rc (centerOf box)) (distance rc (centerOf box))) eqn:L;
        [|reflexivity].
      rewrite lt_irrefl in L; discriminate.
  - exists box, (List.length seen); repeat split; auto.
    rewrite nth_error_app2, Nat.sub_diag; [reflexivity|apply Nat.le_refl].
Qed.

Lemma scan_scanned rest : forall seen b,
  scanned rc seen b ->
  scanned rc (seen ++ rest) (scan rc rest (Z.of_nat (List.length seen)) b).
Proof.
  induction rest as [|x rest IH]; intros seen b S; simpl.
  - rewrite app_nil_r; assumption.
  - replace (seen ++ x :: rest) with ((seen ++ [x]) ++ rest)
      by (rewrite <- app_assoc; reflexivity).
    replace (Z.of_nat (List.length seen) + 1)%Z with (Z.of_nat (List.length (seen ++ [x])))
      by (rewrite length_app; simpl; lia).
    destruct (boundingBox (snd x)) as [box|] eqn:E.
    + destruct (lt (distance rc (centerOf box)) (minDistance b)) eqn:L; apply IH.
      * eapply scanned_take; eassumption.
      * eapply scanned_keep; eassumption.
    + apply IH, scanned_skip; assumption.
Qed.

Lemma scan_pool pool : scanned rc pool (scan rc pool 0%Z noBest).
Proof. apply (scan_scanned pool [] noBest), scanned_start. Qed.

End Scan.

(** The pass on sample data.  The first result is 10 pixels from the left
    face and claims it.  The second result is 6 pixels from the left
    face, which is taken, and 306 pixels from the right face, whose
    threshold is 75: it is attached to nothing. *)
Example matching_on_two_faces :
  let m := Analysis.matchAll 640%float [Spec.resultNearLeft; Spec.resultAlsoNearLeft]
             [Spec.faceLeft; Spec.faceRight] in
  Spec.distanceTo Spec.resultNearLeft Spec.exampleBox = 10%float /\
  Analysis.attached m = [(Spec.resultNearLeft, (0%nat, Spec.faceLeft))] /\
  Analysis.unattachedDetections m = [(1%nat, Spec.faceRight)] /\
  Analysis.ops m = [Spec.labelFor 640%float Spec.resultNearLeft Spec.exampleBox].
Proof. repeat split; vm_compute; reflexivity. Qed.

(* ================================================================== *)
(** ** Claimed detections leave the pool *)
(* ================================================================== *)

Section Splice.
Context {A : Type}.

Lemma splice1_at (k : nat) (l : list A) :
  (k < List.length l)%nat -> JS.splice1 (Z.of_nat k) l = JS.remove_at k l.
Proof.
  intros L. unfold JS.splice1.
  replace (Z.of_nat k <? 0)%Z with false by (symmetry; apply Z.ltb_ge; lia).
  rewrite Z.min_l by lia. rewrite Nat2Z.id. reflexivity.
Qed.

Lemma remove_at_In (k : nat) : forall (l : list A) y,
  In y (JS.remove_at k l) -> In y l.
Proof.
  induction k as [|k IH]; intros [|x l] y; simpl; auto.
  intros [E|I]; auto.
Qed.

Lemma remove_at_NoDup (k : nat) : forall l : list A, NoDup l -> NoDup (JS.remove_at k l).
Proof.
  induction k as [|k IH]; intros [|x l] N; simpl; auto; inversion N; subst; auto.
  constructor; auto. intros I; apply remove_at_In in I; contradiction.
Qed.

Lemma remove_at_gone (k : nat) : forall (l : list A) x,
  NoDup l -> nth_error l k = Some x -> ~ In x (JS.remove_at k l).
Proof.
  induction k as [|k IH]; intros [|y l] x N E; simpl in *; try discriminate.
  - inversion E; subst. inversion N; assumption.
  - inversion N; subst. intros [->|I].
    + apply nth_error_In in E; contradiction.
    + eapply IH; eassumption.
Qed.

End Splice.

Lemma remove_at_map {A B : Type} (f : A -> B) (k : nat) : forall l : list A,
  map f (JS.remove_at k l) = JS.remove_at k (map f l).
Proof.
  induction k as [|k IH]; intros [|x l]; simpl; auto. rewrite IH; reflexivity.
Qed.

Lemma refsOf_ids (ds : list Canvas.Detection) :
  map fst (Analysis.refsOf ds) = seq 0 (List.length ds).
Proof.
  unfold Analysis.refsOf. generalize 0%nat.
  induction ds as [|d ds IH]; intros n; simpl; [reflexivity|].
  rewrite IH; reflexivity.
Qed.

Lemma exclusive_start (ds : list Canvas.Detection) :
  Spec.exclusive (Analysis.refsOf ds)
    {| Analysis.ops := []; Analysis.unattachedDetections := Analysis.refsOf ds;
       Analysis.attached := [] |}.
Proof.
  repeat split; simpl; auto; try contradiction.
  - rewrite refsOf_ids. apply seq_NoDup.
  - constructor.
Qed.

(** What an attaching iteration does to the pool: the claimed detection
    sat at some index of the pool, and the pool loses that index. *)
Lemma matchResult_attaches W m r :
  Analysis.matchResult W m r = m \/
  exists d k,
    nth_error (Analysis.unattachedDetections m) k = Some d /\
    Analysis.attached (Analysis.matchResult W m r) = Analysis.attached m ++ [(r, d)] /\
    Analysis.unattachedDetections (Analysis.matchResult W m r) =
      JS.remove_at k (Analysis.unattachedDetections m).
Proof.
  unfold Analysis.matchResult, Analysis.accepted.
  destruct (scan_pool (Analysis.centerOf (Analysis.bbox r))
              (Analysis.unattachedDetections m)) as [_ B].
  destruct (Analysis.bestMatch _) as [d|]; [|left; reflexivity].
  destruct B as (box & k & B1 & B2 & B3 & B4). rewrite B1.
  destruct (JS.lt _ _); [|left; reflexivity].
  right. exists d, k. simpl. rewrite B3, splice1_at; auto.
  apply nth_error_Some; congruence.
Qed.

Lemma exclusive_step all W m r :
  Spec.exclusive all m -> Spec.exclusive all (Analysis.matchResult W m r).
Proof.
  intros (P & Q & N1 & N2 & D).
  destruct (matchResult_attaches W m r) as [->|(d & k & E & EA & EP)];
    [repeat split; assumption|].
  unfold Spec.exclusive. rewrite EA, EP.
  assert (Ik : nth_error (map fst (Analysis.unattachedDetections m)) k = Some (fst d))
    by (apply map_nth_error; exact E).
  repeat split.
  - intros x I. apply P. eapply remove_at_In; eassumption.
  - intros a I. apply in_app_or in I as [I|[<-|[]]]; [auto|].
    apply P. eapply nth_error_In; eassumption.
  - rewrite remove_at_map. apply remove_at_NoDup; assumption.
  - rewrite map_app; simpl.
    apply NoDup_app; [assumption|repeat constructor; intros []|].
    intros a Ia [<-|[]]. apply in_map_iff in Ia as (a' & Ea & Ia').
    apply (D a' Ia'). rewrite Ea. eapply nth_error_In; eassumption.
  - intros a I. rewrite remove_at_map. apply in_app_or in I as [I|[<-|[]]].
    + intros C. apply (D a I). eapply remove_at_In; eassumption.
    + apply remove_at_gone; assumption.
Qed.

Lemma exclusive_matchAll W rs ds :
  Spec.exclusive (Analysis.refsOf ds) (Analysis.matchAll W rs ds).
Proof.
  unfold Analysis.matchAll.
  generalize (exclusive_start ds).
  generalize ({| Analysis.ops := []; Analysis.unattachedDetections := Analysis.refsOf ds;
                 Analysis.attached := [] |}).
  induction rs as [|r rs IH]; intros m E; simpl; [assumption|].
  apply IH, exclusive_step, E.
Qed.

Lemma distance_is_euclidean (a b : Canvas.BoundingBox) :
  Analysis.distance (Analysis.centerOf a) (Analysis.centerOf b) = Spec.euclidean a b.
Proof. reflexivity. Qed.

Lemma filter_all {A : Type} (f : A -> bool) (l : list A) :
  (forall x, In x l -> f x = true) -> filter f l = l.
Proof.
  induction l as [|x l IH]; intros H; simpl; [reflexivity|].
  rewrite (H x (or_introl eq_refl)), IH; [reflexivity|].
  intros y I; apply H; right; exact I.
Qed.

(** Removing the index at which [d] sits from a pool without repeated
    identities leaves the detections other than [d]. *)
Lemma remove_at_filter : forall (k : nat) (pool : list Analysis.DetectionRef) d,
  NoDup (map fst pool) -> nth_error pool k = Some d ->
  JS.remove_at k pool = filter (fun x => negb (Nat.eqb (fst d) (fst x))) pool.
Proof.
  induction k as [|k IH]; intros [|y pool] d N E; simpl in *; try discriminate.
  - inversion E; subst. rewrite Nat.eqb_refl. simpl.
    inversion N as [|? ? NI ND]; subst. symmetry. apply filter_all.
    intros x I. apply Bool.negb_true_iff, Nat.eqb_neq. intros Q.
    apply NI. rewrite Q. apply in_map, I.
  - inversion N as [|? ? NI ND]; subst.
    assert (Q : Nat.eqb (fst d) (fst y) = false).
    { apply Nat.eqb_neq. intros Q. apply NI. rewrite <- Q.
      apply in_map. eapply nth_error_In; eassumption. }
    rewrite Q. simpl. rewrite (IH pool d ND E). reflexivity.
Qed.

Lemma notYetClaimed_step ds att (r : Analysis.AnalysisResult) (d : Analysis.DetectionRef) :
  Spec.notYetClaimed ds (att ++ [(r, d)])
  = filter (fun x => negb (Nat.eqb (fst d) (fst x))) (Spec.notYetClaimed ds att).
Proof.
  unfold Spec.notYetClaimed, Spec.isClaimed.
  induction (Analysis.refsOf ds) as [|x l IH]; simpl; [reflexivity|].
  rewrite existsb_app. simpl. unfold Spec.claimedId at 2. simpl.
  rewrite IH.
  destruct (existsb _ att); simpl; [reflexivity|].
  rewrite Bool.orb_false_r.
  destruct (Nat.eqb (fst d) (fst x)); reflexivity.
Qed.

(** Throughout a pass the pool is the list of not-yet-claimed detections. *)
Lemma pool_matchAll W ds : forall rs,
  Analysis.unattachedDetections (Analysis.matchAll W rs ds)
  = Spec.notYetClaimed ds (Analysis.attached (Analysis.matchAll W rs ds)).
Proof.
  intros rs. induction rs as [|r rs IH] using rev_ind.
  - simpl. unfold Spec.notYetClaimed. symmetry. apply filter_all. reflexivity.
  - assert (S : Analysis.matchAll W (rs ++ [r]) ds
                = Analysis.matchResult W (Analysis.matchAll W rs ds) r)
      by (unfold Analysis.matchAll; rewrite fold_left_app; reflexivity).
    rewrite S.
    destruct (exclusive_matchAll W rs ds) as (_ & _ & N & _ & _).
    destruct (matchResult_attaches W (Analysis.matchAll W rs ds) r)
      as [->|(d & k & E & EA & EP)]; [exact IH|].
    rewrite EA, EP, notYetClaimed_step, <- IH.
    apply remove_at_filter; assumption.
Qed.


(** C2.  In one matching pass over the detections of a frame, the
    detections claimed by the analysis results are pairwise distinct
    detections of the frame.  A claimed detection has left the pool when
    the next result is matched: the pass over [rs ++ [r]] matches [r]
    against the state left by the pass over [rs], whose pool holds none
    of the detections claimed so far. *)
Theorem claimed_detections_exclusive :
  forall canvasWidth results detections,
    let m := Analysis.matchAll canvasWidth results detections in
    NoDup (map Spec.claimedId (Analysis.attached m)) /\
    (forall a, In a (Analysis.attached m) -> In (snd a) (Analysis.refsOf detections)) /\
    (forall rs r,
       Analysis.matchAll canvasWidth (rs ++ [r]) detections =
         Analysis.matchResult canvasWidth (Analysis.matchAll canvasWidth rs detections) r /\
       forall a, In a (Analysis.attached (Analysis.matchAll canvasWidth rs detections)) ->
         ~ In (Spec.claimedId a)
             (map fst (Analysis.unattachedDetections
                         (Analysis.matchAll canvasWidth rs detections)))).
Proof.
  intros W rs ds m.
  destruct (exclusive_matchAll W rs ds) as (P & Q & N1 & N2 & D).
  split; [assumption|]. split; [assumption|].
  intros rs1 r. split.
  - unfold Analysis.matchAll. rewrite fold_left_app. reflexivity.
  - apply (exclusive_matchAll W rs1 ds).
Qed.

(* ================================================================== *)
(** ** The analysis batch *)
(* ================================================================== *)

Lemma Promise_all_rejects {A : Type} (ps : list (JS.Settled A)) (e : string) :
  In (JS.Rejected e) ps -> exists e', JS.Promise_all ps = JS.Rejected e'.
Proof.
  induction ps as [|p ps IH]; intros I; [contradiction|].
  simpl. destruct p as [v|e0]; [|eauto].
  destruct I as [I|I]; [discriminate|].
  destruct (IH I) as [e' ->]. eauto.
Qed.

Lemma Promise_all_fulfils {A : Type} (ps : list (JS.Settled A)) :
  (forall e, ~ In (JS.Rejected e) ps) -> exists vs, JS.Promise_all ps = JS.Fulfilled vs.
Proof.
  induction ps as [|p ps IH]; intros N; simpl; [eauto|].
  destruct p as [v|e]; [|exfalso; apply (N e); left; reflexivity].
  destruct IH as [vs ->]; [|eauto].
  intros e I; apply (N e); right; assumption.
Qed.

(** C3.  A batch that got past the guard of [analyzeAllFaces] and in
    which the cloud request of one face rejects: the busy flag is up
    while the batch is in flight; when it settles the stored results and
    the error message shown to the user are what they were, one error was
    logged to the console, and the busy flag is down. *)
Theorem rejected_request_aborts_batch :
  forall (ai : Analysis.CloudModel) (s : Analysis.State) (detections : list Canvas.Detection)
         (d : Canvas.Detection) (box : Canvas.BoundingBox) (reason : string),
    Analysis.analyzeAllFaces_returns (Some detections) s = false ->
    In d detections ->
    Canvas.boundingBox d = Some box ->
    ai box (Analysis.analysisPrompt (Analysis.inputPrompt s)) = JS.Rejected reason ->
    let s' := Analysis.analyzeAllFaces ai (Some detections) s in
    Analysis.isAnalyzing (Analysis.analyzeAllFaces_begin detections s) = true /\
    Analysis.personAnalysisResults s' = Analysis.personAnalysisResults s /\
    Analysis.errorMessage s' = Analysis.errorMessage s /\
    Analysis.console s' = Analysis.console s ++ ["Failed to analyze faces"%string] /\
    Analysis.isAnalyzing s' = false.
Proof.
  intros ai s ds d box reason G I B R s'. subst s'.
  unfold Analysis.analyzeAllFaces. rewrite G.
  unfold Analysis.analyzeAllFaces_settle.
  destruct (Promise_all_rejects
              (map (Analysis.analyzeFace ai (Analysis.inputPrompt s)) ds) reason) as [e' ->].
  - apply in_map_iff. exists d. split; [|assumption].
    unfold Analysis.analyzeFace. rewrite B, R. reflexivity.
  - repeat split.
Qed.

Lemma rejected_request_aborts_batch_witness :
  let s' := Analysis.analyzeAllFaces Spec.flakyCloud (Some Spec.twoFaces)
              Spec.analysisRunning in
  Analysis.isAnalyzing (Analysis.analyzeAllFaces_begin Spec.twoFaces Spec.analysisRunning)
    = true /\
  Analysis.personAnalysisResults s' = Analysis.personAnalysisResults Spec.analysisRunning /\
  Analysis.errorMessage s' = Analysis.errorMessage Spec.analysisRunning /\
  Analysis.console s' =
    Analysis.console Spec.analysisRunning ++ ["Failed to analyze faces"%string] /\
  Analysis.isAnalyzing s' = false.
Proof.
  apply (rejected_request_aborts_batch Spec.flakyCloud Spec.analysisRunning Spec.twoFaces
           {| Canvas.categories := []; Canvas.boundingBox := Some Spec.smallBox |}
           Spec.smallBox "429 quota exceeded").
  - vm_compute; reflexivity.
  - right; left; reflexivity.
  - reflexivity.
  - vm_compute; reflexivity.
Defined.

(* ================================================================== *)
(** ** The prompt router *)
(* ================================================================== *)

Section Router.
Import JS Tracker.
Local Open Scope string_scope.

Lemma includes_empty (p : string) : includes "" p = true -> p = "".
Proof. destruct p; [reflexivity|discriminate]. Qed.

Lemma some_includes (prompt keyword : string) (l : list string) :
  In keyword l -> includes prompt keyword = true ->
  some (fun k => includes prompt k) l = true.
Proof. intros I E. apply existsb_exists. exists keyword; auto. Qed.

Lemma some_excludes (prompt : string) (l : list string) :
  (forall k, In k l -> includes prompt k = false) ->
  some (fun k => includes prompt k) l = false.
Proof.
  intros N. destruct (some _ l) eqn:E; [|reflexivity].
  apply existsb_exists in E as (k & I & T). rewrite (N k I) in T; discriminate.
Qed.

(** [switchModel] touches neither the task nor the target nor the prompt. *)
Lemma switchModel_frame lib task s :
  activeTask (switchModel lib task s) = activeTask s /\
  detectionTarget (switchModel lib task s) = detectionTarget s /\
  inputPrompt (switchModel lib task s) = inputPrompt s.
Proof.
  unfold switchModel, switchModel_release.
  destruct s as [? ? ? ? ? ? o f h p ? ? ? ? ? ?].
  destruct (createFromOptions lib task), task, o, f, h, p;
    (split; [|split]; reflexivity).
Qed.

Lemma handlePromptSubmit_routes lib s :
  truthy (inputPrompt s) = true ->
  activeTask (handlePromptSubmit lib s) = fst (route (trim (toLowerCase (inputPrompt s)))) /\
  detectionTarget (handlePromptSubmit lib s)
    = snd (route (trim (toLowerCase (inputPrompt s)))).
Proof.
  intros T. unfold handlePromptSubmit. rewrite T; simpl.
  destruct (route (trim (toLowerCase (inputPrompt s)))) as [task target]; simpl.
  destruct (VisionTask_eqb task (activeTask s)) eqn:E; simpl.
  - split; [|reflexivity]. destruct task, (activeTask s); try discriminate; reflexivity.
  - destruct (switchModel_frame lib task
                (setActiveTask task
                   (setDetectionTarget target
                      (setLoadingMessage "Updating tracker..." (setIsLoading true s)))))
      as (F1 & F2 & _).
    split; [rewrite F1|rewrite F2]; reflexivity.
Qed.

(** Lower-casing and trimming see neither the case of the letters nor
    white space around the prompt. *)
Lemma toLowerCase_app (a b : string) :
  toLowerCase (a ++ b) = toLowerCase a ++ toLowerCase b.
Proof. induction a as [|c a IH]; simpl; [reflexivity|rewrite IH; reflexivity]. Qed.

Lemma lowerChar_white (c : ascii) : isWhiteSpace c = true -> lowerChar c = c.
Proof.
  destruct c as [[] [] [] [] [] [] [] []]; vm_compute; intros E;
    reflexivity || discriminate.
Qed.

Lemma toLowerCase_white (ws : string) :
  Spec.whiteSpaceOnly ws = true -> toLowerCase ws = ws.
Proof.
  induction ws as [|c ws IH]; simpl; [reflexivity|].
  intros E. apply andb_true_iff in E as [C W].
  rewrite lowerChar_white, IH; auto.
Qed.

Lemma trimStart_white (ws s : string) :
  Spec.whiteSpaceOnly ws = true -> trimStart (ws ++ s) = trimStart s.
Proof.
  induction ws as [|c ws IH]; simpl; [reflexivity|].
  intros E. apply andb_true_iff in E as [C W]. rewrite C. auto.
Qed.

Lemma trimStart_white_only (ws : string) :
  Spec.whiteSpaceOnly ws = true -> trimStart ws = "".
Proof.
  induction ws as [|c ws IH]; simpl; [reflexivity|].
  intros E. apply andb_true_iff in E as [C W]. rewrite C. auto.
Qed.

Lemma trimEnd_white (ws : string) : Spec.whiteSpaceOnly ws = true -> trimEnd ws = "".
Proof.
  induction ws as [|c ws IH]; simpl; [reflexivity|].
  intros E. apply andb_true_iff in E as [C W]. rewrite IH, C; auto.
Qed.

Lemma trimEnd_app_white (s ws : string) :
  Spec.whiteSpaceOnly ws = true -> trimEnd (s ++ ws) = trimEnd s.
Proof.
  intros W. induction s as [|c s IH]; simpl; [apply trimEnd_white, W|].
  rewrite IH. reflexivity.
Qed.

Lemma trim_padded (ws1 q ws2 : string) :
  Spec.whiteSpaceOnly ws1 = true -> Spec.whiteSpaceOnly ws2 = true ->
  trim (ws1 ++ q ++ ws2) = trim q.
Proof.
  intros W1 W2. unfold trim. rewrite trimStart_white by assumption.
  induction q as [|c q IH]; simpl.
  - rewrite trimStart_white_only by assumption. reflexivity.
  - destruct (isWhiteSpace c); [exact IH|].
    apply (trimEnd_app_white (String c q)), W2.
Qed.

Lemma lowered_trimmed_padded (p q ws1 ws2 : string) :
  toLowerCase p = toLowerCase q ->
  Spec.whiteSpaceOnly ws1 = true -> Spec.whiteSpaceOnly ws2 = true ->
  trim (toLowerCase (ws1 ++ p ++ ws2)) = trim (toLowerCase q).
Proof.
  intros E W1 W2.
  rewrite !toLowerCase_app, E.
  rewrite (toLowerCase_white ws1), (toLowerCase_white ws2) by assumption.
  apply trim_padded; assumption.
Qed.

End Router.

(** C4.  A submitted prompt whose lower-cased, trimmed form contains a
    face keyword selects the face task and clears the detection target,
    whatever else the prompt contains (the hand and pose keywords are
    looked at only after the face keywords failed) and whatever the state
    of the application.  The same holds for the prompt written in any
    other case and padded with white space on either side. *)
Theorem face_keyword_routes_to_face :
  forall (lib : Tracker.VisionLib) (s : Tracker.State) (keyword : string),
    In keyword Tracker.faceKeywords ->
    JS.includes (JS.trim (JS.toLowerCase (Tracker.inputPrompt s))) keyword = true ->
    let s' := Tracker.handlePromptSubmit lib s in
    (Tracker.activeTask s' = Tracker.face /\ Tracker.detectionTarget s' = ""%string) /\
    Tracker.route (JS.trim (JS.toLowerCase (Tracker.inputPrompt s)))
      = (Tracker.face, ""%string) /\
    (forall p ws1 ws2,
       JS.toLowerCase p = JS.toLowerCase (Tracker.inputPrompt s) ->
       Spec.whiteSpaceOnly ws1 = true -> Spec.whiteSpaceOnly ws2 = true ->
       let s2 := Tracker.handlePromptSubmit lib
                   (Tracker.setInputPrompt (ws1 ++ p ++ ws2)%string s) in
       Tracker.activeTask s2 = Tracker.face /\ Tracker.detectionTarget s2 = ""%string).
Proof.
  assert (G : forall lib s keyword,
             In keyword Tracker.faceKeywords ->
             JS.includes (JS.trim (JS.toLowerCase (Tracker.inputPrompt s))) keyword = true ->
             (Tracker.activeTask (Tracker.handlePromptSubmit lib s) = Tracker.face /\
              Tracker.detectionTarget (Tracker.handlePromptSubmit lib s) = ""%string) /\
             Tracker.route (JS.trim (JS.toLowerCase (Tracker.inputPrompt s)))
               = (Tracker.face, ""%string)).
  { intros lib s keyword I E.
    assert (T : JS.truthy (Tracker.inputPrompt s) = true).
    { destruct (Tracker.inputPrompt s) eqn:P; [|reflexivity].
      apply includes_empty in E. subst keyword.
      repeat destruct I as [I|I]; discriminate || contradiction. }
    assert (R : Tracker.route (JS.trim (JS.toLowerCase (Tracker.inputPrompt s)))
                = (Tracker.face, ""%string)).
    { unfold Tracker.route. rewrite (some_includes _ keyword); auto. }
    destruct (handlePromptSubmit_routes lib s T) as [A D].
    rewrite A, D, R. auto. }
  intros lib s keyword I E s'. subst s'.
  destruct (G lib s keyword I E) as [F R].
  split; [exact F|]. split; [exact R|].
  intros p ws1 ws2 C W1 W2 s2. subst s2.
  apply (G lib (Tracker.setInputPrompt (ws1 ++ p ++ ws2)%string s) keyword I).
  change (Tracker.inputPrompt (Tracker.setInputPrompt (ws1 ++ p ++ ws2)%string s))
    with (ws1 ++ p ++ ws2)%string.
  rewrite (lowered_trimmed_padded p (Tracker.inputPrompt s)); assumption.
Qed.

Lemma face_keyword_routes_to_face_witness :
  let s := Tracker.setInputPrompt "wave at my face"%string Spec.trackerRunning in
  Tracker.activeTask (Tracker.handlePromptSubmit Spec.stubVision s) = Tracker.face /\
  Tracker.detectionTarget (Tracker.handlePromptSubmit Spec.stubVision s) = ""%string /\
  (let s2 := Tracker.handlePromptSubmit Spec.stubVision
               (Tracker.setInputPrompt "  Wave at my FACE "%string s) in
   Tracker.activeTask s2 = Tracker.face /\ Tracker.detectionTarget s2 = ""%string).
Proof.
  destruct (face_keyword_routes_to_face Spec.stubVision
              (Tracker.setInputPrompt "wave at my face"%string Spec.trackerRunning)
              "face"%string) as ((A & D) & _ & P).
  - left; reflexivity.
  - vm_compute; reflexivity.
  - split; [exact A|]. split; [exact D|].
    apply (P "Wave at my FACE"%string "  "%string " "%string); reflexivity.
Defined.

(** C5, as stated, fails for the empty prompt: the handler returns at
    its first line.  With the input field emptied, a tracker on the face
    task stays on the face task, and a tracker filtering for [person]
    keeps that filter, under which a cup is not drawn. *)
Lemma empty_prompt_is_ignored :
  (forall k, In k Spec.recognizedKeywords ->
     JS.includes (JS.trim (JS.toLowerCase (Tracker.inputPrompt Spec.trackerOnFaces))) k
       = false) /\
  ~ (Tracker.activeTask (Tracker.handlePromptSubmit Spec.stubVision Spec.trackerOnFaces)
       = Tracker.object) /\
  (let s := Tracker.setInputPrompt "" Spec.trackerRunning in
   let s' := Tracker.handlePromptSubmit Spec.stubVision s in
   ~ (Tracker.detectionTarget s' = JS.trim (JS.toLowerCase (Tracker.inputPrompt s))) /\
   Tracker.detectionTarget s' = "person"%string /\
   Tracker.drawObjectDetections (Tracker.detectionTarget s') [Spec.exampleDetection]
     640%float = ([], Canvas.Normal)).
Proof.
  split; [|split; [|split; [|split]]].
  - intros k I. unfold Spec.recognizedKeywords in I.
    repeat (destruct I as [<-|I]; [vm_compute; reflexivity|]). contradiction.
  - vm_compute. discriminate.
  - vm_compute. discriminate.
  - vm_compute. reflexivity.
  - vm_compute. reflexivity.
Qed.

(** C5, amended.  For a prompt whose lower-cased, trimmed form contains
    no keyword: an empty prompt is ignored (the handler returns the state
    it was given, so no error is raised and neither task nor target
    change); any other prompt selects the object task and stores its
    trimmed, lower-cased form as the detection target, which is the empty
    string for a prompt of white space only. *)
Theorem unrecognized_prompt_routes_to_object :
  forall (lib : Tracker.VisionLib) (s : Tracker.State),
    (forall k, In k Spec.recognizedKeywords ->
       JS.includes (JS.trim (JS.toLowerCase (Tracker.inputPrompt s))) k = false) ->
    let s' := Tracker.handlePromptSubmit lib s in
    (Tracker.inputPrompt s = ""%string -> s' = s) /\
    (Tracker.inputPrompt s <> ""%string ->
       Tracker.activeTask s' = Tracker.object /\
       Tracker.detectionTarget s' = JS.trim (JS.toLowerCase (Tracker.inputPrompt s)) /\
       (Spec.whiteSpaceOnly (Tracker.inputPrompt s) = true ->
          Tracker.detectionTarget s' = ""%string)).
Proof.
  intros lib s N s'. subst s'. split.
  - intros E. unfold Tracker.handlePromptSubmit. rewrite E. reflexivity.
  - intros NE.
    assert (T : JS.truthy (Tracker.inputPrompt s) = true)
      by (destruct (Tracker.inputPrompt s); [contradiction|reflexivity]).
    assert (R : Tracker.route (JS.trim (JS.toLowerCase (Tracker.inputPrompt s)))
                = (Tracker.object, JS.trim (JS.toLowerCase (Tracker.inputPrompt s)))).
    { unfold Tracker.route, Spec.recognizedKeywords in *.
      rewrite !some_excludes; [reflexivity| | |]; intros k I; apply N;
        repeat (apply in_or_app; (left; exact I) || right); exact I. }
    destruct (handlePromptSubmit_routes lib s T) as [A D].
    rewrite A, D, R. repeat split.
    simpl. intros W. rewrite (toLowerCase_white _ W). unfold JS.trim.
    rewrite (trimStart_white_only _ W). reflexivity.
Qed.

Lemma unrecognized_prompt_routes_to_object_witness :
  let s := Tracker.setInputPrompt "  Coffee MUG "%string Spec.trackerOnFaces in
  let s' := Tracker.handlePromptSubmit Spec.stubVision s in
  Tracker.activeTask s' = Tracker.object /\
  Tracker.detectionTarget s' = "coffee mug"%string.
Proof.
  destruct (unrecognized_prompt_routes_to_object Spec.stubVision
              (Tracker.setInputPrompt "  Coffee MUG "%string Spec.trackerOnFaces))
    as [_ H].
  - intros k I. unfold Spec.recognizedKeywords in I.
    repeat (destruct I as [<-|I]; [vm_compute; reflexivity|]). contradiction.
  - destruct H as (A & D & _); [discriminate|].
    split; [exact A|exact D].
Defined.

(* ================================================================== *)
(** ** The render loop *)
(* ================================================================== *)

Lemma tracker_renderLoop_time lib f s :
  JS.strict_neq (Tracker.currentTime f) (Tracker.lastVideoTime s) = true ->
  Tracker.lastVideoTime (Tracker.renderLoop lib f s) = Tracker.currentTime f.
Proof.
  intros H. unfold Tracker.renderLoop. rewrite H.
  destruct s as [? ? ? ? a ? o fd h p ? ? ? ? ? ?]; simpl.
  destruct a, o, fd, h, p; simpl; try reflexivity;
    destruct (Tracker.detectForVideo lib _ _ _); simpl; try reflexivity;
    match goal with |- context [let '(_, _) := ?x in _] => destruct x end; reflexivity.
Qed.

Lemma analysis_renderLoop_time lib f s :
  JS.strict_neq (Analysis.currentTime f) (Analysis.lastVideoTime s) = true ->
  Analysis.lastVideoTime (Analysis.renderLoop lib f s) = Analysis.currentTime f.
Proof.
  intros H. unfold Analysis.renderLoop. rewrite H.
  destruct s as [? ? ? ? a ? ? o fd ? ? v ? an ? ? ? ? ? ? ?]; simpl.
  destruct a, o, fd; simpl; try reflexivity;
    destruct (Analysis.detectForVideo lib _ _ _); simpl; try reflexivity;
    destruct (JS.lt _ _); simpl; try reflexivity;
    unfold Analysis.analyzeAllFaces_returns; simpl;
    destruct v, an; reflexivity.
Qed.

(** C6.  Two callbacks of the render loop that find the video at the
    same playback time [t] (a playback time is never NaN), with nothing
    but the loop itself writing [lastVideoTime] in between: the second
    callback leaves the state as it found it, so it issues no
    [detectForVideo] call and draws nothing.  This holds for both
    applications. *)
Theorem repeated_timestamp_skips_inference :
  forall t : JS.number,
    PrimFloat.is_nan t = false ->
    (forall lib f1 f2 s1 s2,
        Tracker.currentTime f1 = t -> Tracker.currentTime f2 = t ->
        Tracker.lastVideoTime s2 = Tracker.lastVideoTime (Tracker.renderLoop lib f1 s1) ->
        Tracker.renderLoop lib f2 s2 = s2 /\
        Tracker.calls (Tracker.renderLoop lib f2 s2) = Tracker.calls s2) /\
    (forall lib f1 f2 s1 s2,
        Analysis.currentTime f1 = t -> Analysis.currentTime f2 = t ->
        Analysis.lastVideoTime s2 = Analysis.lastVideoTime (Analysis.renderLoop lib f1 s1) ->
        Analysis.renderLoop lib f2 s2 = s2 /\
        Analysis.calls (Analysis.renderLoop lib f2 s2) = Analysis.calls s2).
Proof.
  intros t NaN.
  assert (R : JS.strict_neq t t = false).
  { unfold JS.strict_neq. unfold PrimFloat.is_nan in NaN. exact NaN. }
  split; intros lib f1 f2 s1 s2 E1 E2 L.
  - assert (S : JS.strict_neq t (Tracker.lastVideoTime s2) = false).
    { rewrite L. destruct (JS.strict_neq (Tracker.currentTime f1) (Tracker.lastVideoTime s1))
        eqn:C.
      - rewrite tracker_renderLoop_time, E1; assumption.
      - unfold Tracker.renderLoop. rewrite C, <- E1. assumption. }
    assert (K : Tracker.renderLoop lib f2 s2 = s2)
      by (unfold Tracker.renderLoop; rewrite E2, S; reflexivity).
    rewrite K; auto.
  - assert (S : JS.strict_neq t (Analysis.lastVideoTime s2) = false).
    { rewrite L. destruct (JS.strict_neq (Analysis.currentTime f1) (Analysis.lastVideoTime s1))
        eqn:C.
      - rewrite analysis_renderLoop_time, E1; assumption.
      - unfold Analysis.renderLoop. rewrite C, <- E1. assumption. }
    assert (K : Analysis.renderLoop lib f2 s2 = s2)
      by (unfold Analysis.renderLoop; rewrite E2, S; reflexivity).
    rewrite K; auto.
Qed.

Lemma repeated_timestamp_skips_inference_witness :
  (let s1 := Tracker.renderLoop Spec.stubVision Spec.trackerFrameA Spec.trackerRunning in
   List.length (Tracker.calls s1) = 1%nat /\
   Tracker.renderLoop Spec.stubVision Spec.trackerFrameB s1 = s1) /\
  (let s1 := Analysis.renderLoop Spec.analysisVision Spec.analysisFrameA
               Spec.analysisRunning in
   List.length (Analysis.calls s1) = 1%nat /\
   Analysis.renderLoop Spec.analysisVision Spec.analysisFrameB s1 = s1).
Proof.
  destruct (repeated_timestamp_skips_inference 1.5%float eq_refl) as [T A].
  split; (split; [vm_compute; reflexivity|]).
  - apply (T Spec.stubVision Spec.trackerFrameA Spec.trackerFrameB Spec.trackerRunning);
      reflexivity.
  - apply (A Spec.analysisVision Spec.analysisFrameA Spec.analysisFrameB
             Spec.analysisRunning); reflexivity.
Defined.

(* ================================================================== *)
(** ** The session reset *)
(* ================================================================== *)

(** C7, as stated, fails in its last part: the reset does not clear all
    cells.  After a reset of a session in use the detection type, the
    hover mode, the active colour, the loading flag and the custom prompt
    are those of the session before; the store is neither the store of a
    fresh page nor that of a fresh page after a reset. *)
Lemma reset_keeps_settings :
  let s' := Session.store (Session.resetState Spec.usedWorld) in
  Session.DetectTypeAtom s' = Session.BoundingBoxes3D /\
  Session.RevealOnHoverModeAtom s' = true /\
  Session.ActiveColorAtom s' = "#FF3B3B"%string /\
  Session.IsLoadingAtom s' = true /\
  Session.CustomPromptsAtom s' Session.BoundingBoxes3D = "red cars only"%string /\
  s' <> Session.initialStore /\
  s' <> Session.store (Session.resetState Spec.freshWorld).
Proof.
  repeat split; intros E; apply (f_equal Session.IsLoadingAtom) in E; discriminate.
Qed.

(** C7, amended.  The reset empties the five annotation arrays, stops
    every track of the stream it finds and leaves the stream cell null,
    and sets the image source to null and the draw-mode, uploaded-image
    and image-sent flags to false.  The other twelve cells keep their
    values, and tracks stopped earlier stay stopped. *)
Theorem reset_clears_session :
  forall w : Session.World,
    let s := Session.store w in
    let w' := Session.resetState w in
    let s' := Session.store w' in
    (Session.BoundingBoxes2DAtom s' = [] /\ Session.BoundingBoxes3DAtom s' = [] /\
     Session.BoundingBoxMasksAtom s' = [] /\ Session.PointsAtom s' = [] /\
     Session.LinesAtom s' = []) /\
    (Session.ShareStream s' = None /\
     (forall tracks t, Session.ShareStream s = Some tracks -> In t tracks ->
        Session.ended w' t) /\
     (forall t, Session.ended w t -> Session.ended w' t)) /\
    (Session.ImageSrcAtom s' = None /\ Session.DrawModeAtom s' = false /\
     Session.IsUploadedImageAtom s' = false /\ Session.ImageSentAtom s' = false) /\
    (Session.DetectTypeAtom s' = Session.DetectTypeAtom s /\
     Session.VideoRefAtom s' = Session.VideoRefAtom s /\
     Session.FOVAtom s' = Session.FOVAtom s /\
     Session.RevealOnHoverModeAtom s' = Session.RevealOnHoverModeAtom s /\
     Session.HoverEnteredAtom s' = Session.HoverEnteredAtom s /\
     Session.HoveredBoxAtom s' = Session.HoveredBoxAtom s /\
     Session.ActiveColorAtom s' = Session.ActiveColorAtom s /\
     Session.BumpSessionAtom s' = Session.BumpSessionAtom s /\
     Session.IsLoadingAtom s' = Session.IsLoadingAtom s /\
     Session.TemperatureAtom s' = Session.TemperatureAtom s /\
     Session.PromptsAtom s' = Session.PromptsAtom s /\
     Session.CustomPromptsAtom s' = Session.CustomPromptsAtom s).
Proof.
  intros w s w' s'. subst s w' s'. unfold Session.ended. simpl.
  repeat split.
  - intros tracks t E I. rewrite E. simpl. apply in_or_app; right; assumption.
  - intros t I. unfold Session.stopTracks.
    destruct (Session.ShareStream (Session.store w)); [apply in_or_app; left|]; assumption.
Qed.

(* ================================================================== *)
(** ** Model switching *)
(* ================================================================== *)

Lemma tracker_release s :
  let r := Tracker.switchModel_release s in
  Tracker.loaded r = 0%nat /\
  (forall h, Spec.trackerHolds s h -> In h (Tracker.closed r)) /\
  (forall h, In h (Tracker.closed s) -> In h (Tracker.closed r)).
Proof.
  destruct s as [? ? ? ? ? ? o f hd p ? cl ? ? ? ?].
  unfold Spec.trackerHolds, Tracker.switchModel_release; simpl.
  split; [reflexivity|]. split.
  - intros h H. destruct o, f, hd, p; simpl in *;
      destruct H as [E|[E|[E|E]]]; try discriminate; inversion E; subst;
      rewrite ?in_app_iff; simpl; auto 10.
  - intros h I. destruct o, f, hd, p; simpl; rewrite ?in_app_iff; auto 10.
Qed.

Lemma tracker_switch lib task s :
  let s' := Tracker.switchModel lib task s in
  Tracker.closed s' = Tracker.closed (Tracker.switchModel_release s) /\
  match Tracker.createFromOptions lib task with
  | JS.Fulfilled h => Tracker.loaded s' = 1%nat /\ Spec.trackerSlot task s' = Some h
  | JS.Rejected _ => Tracker.loaded s' = 0%nat
  end.
Proof.
  unfold Tracker.switchModel.
  destruct (tracker_release s) as [L _]. revert L.
  generalize (Tracker.switchModel_release s) as r. intros r L.
  assert (Z4 : Tracker.objectDetector r = None /\ Tracker.faceDetector r = None /\
               Tracker.handLandmarker r = None /\ Tracker.poseLandmarker r = None).
  { unfold Tracker.loaded in L.
    destruct (Tracker.objectDetector r), (Tracker.faceDetector r),
      (Tracker.handLandmarker r), (Tracker.poseLandmarker r); simpl in L;
      try discriminate; auto. }
  destruct Z4 as (Z1 & Z2 & Z3 & Z4).
  destruct (Tracker.createFromOptions lib task) as [h|e]; simpl.
  - destruct task; unfold Tracker.loaded; simpl; rewrite ?Z1, ?Z2, ?Z3, ?Z4; auto.
  - unfold Tracker.loaded; simpl; rewrite Z1, Z2, Z3, Z4; simpl.
    split; [|reflexivity]. unfold Tracker.console_error. simpl.
    reflexivity.
Qed.

Lemma analysis_release s :
  Spec.landmarkersUnused s ->
  let r := Analysis.switchModel_release s in
  Analysis.loaded r = 0%nat /\ Spec.landmarkersUnused r /\
  (forall h, Spec.analysisHolds s h -> In h (Analysis.closed r)) /\
  (forall h, In h (Analysis.closed s) -> In h (Analysis.closed r)).
Proof.
  destruct s as [? ? ? ? ? ? ? o f hd p ? ? ? ? cl ? ? ? ? ?].
  unfold Spec.landmarkersUnused, Spec.analysisHolds, Analysis.switchModel_release,
    Analysis.loaded; simpl.
  intros [-> ->].
  destruct o, f; simpl; (split; [reflexivity|]; split; [auto|]; split).
  all: try (intros x H; destruct H as [E|E]; try discriminate; inversion E; subst).
  all: try (intros x I).
  all: rewrite ?in_app_iff; simpl; auto 10.
Qed.

Lemma analysis_switch lib task s :
  Spec.landmarkersUnused s ->
  let s' := Analysis.switchModel lib task s in
  Spec.landmarkersUnused s' /\
  Analysis.closed s' = Analysis.closed (Analysis.switchModel_release s) /\
  match Analysis.createFromOptions lib task with
  | JS.Fulfilled h => Analysis.loaded s' = 1%nat /\ Spec.analysisSlot task s' = Some h
  | JS.Rejected _ => Analysis.loaded s' = 0%nat
  end.
Proof.
  intros U. unfold Analysis.switchModel.
  destruct (analysis_release s U) as (L & [U1 U2] & _). revert L U1 U2.
  generalize (Analysis.switchModel_release s) as r. intros r L U1 U2.
  assert (Z2 : Analysis.objectDetector r = None /\ Analysis.faceDetector r = None).
  { unfold Analysis.loaded in L. rewrite U1, U2 in L.
    destruct (Analysis.objectDetector r), (Analysis.faceDetector r); simpl in L;
      try discriminate; auto. }
  destruct Z2 as (Z1 & Z2). unfold Spec.landmarkersUnused.
  destruct (Analysis.createFromOptions lib task) as [h|e]; simpl.
  - destruct task; unfold Analysis.loaded; simpl; rewrite ?Z1, ?Z2, ?U1, ?U2; auto.
  - unfold Analysis.loaded; simpl; rewrite Z1, Z2, U1, U2; simpl. auto.
Qed.

(** The landmarker slots of the person-analysis application stay empty
    under every handler, from the initial state on. *)
Lemma analysis_landmarkers_unused :
  Spec.landmarkersUnused Analysis.initial /\
  (forall lib mode s, Spec.landmarkersUnused s ->
     Spec.landmarkersUnused (Analysis.handleModeChange lib mode s)) /\
  (forall s, Spec.landmarkersUnused s ->
     Spec.landmarkersUnused (Analysis.handlePromptSubmit s)) /\
  (forall ai ds s, Spec.landmarkersUnused s ->
     Spec.landmarkersUnused (Analysis.analyzeAllFaces ai ds s)).
Proof.
  split; [split; reflexivity|]. split; [|split].
  - intros lib mode s U. unfold Analysis.handleModeChange.
    destruct (Analysis.DetectionMode_eqb mode (Analysis.detectionMode s)); [assumption|].
    apply analysis_switch. destruct mode; exact U.
  - intros s U. unfold Analysis.handlePromptSubmit.
    destruct (negb _); [assumption|]. destruct (Analysis.detectionMode s); exact U.
  - intros ai ds s U. unfold Analysis.analyzeAllFaces.
    destruct ds as [ds|]; [|assumption].
    destruct (Analysis.analyzeAllFaces_returns _ _); [assumption|].
    unfold Analysis.analyzeAllFaces_settle.
    destruct (JS.Promise_all _); exact U.
Qed.

(** C8.  A model switch closes every model it finds and empties every
    slot before it constructs anything: between release and
    construction no model is loaded.  After the switch exactly one model
    is loaded, in the slot of the requested task, when its construction
    succeeded, and none when it failed; nothing was closed after the
    release.  For the person-analysis application this is for the states
    it can be in: its two landmarker slots are never filled. *)
Theorem at_most_one_model_loaded :
  forall (libT : Tracker.VisionLib) (taskT : Tracker.VisionTask) (sT : Tracker.State)
         (libA : Analysis.VisionLib) (taskA : Analysis.DetectionMode) (sA : Analysis.State),
    Spec.landmarkersUnused sA ->
    (let r := Tracker.switchModel_release sT in
     let s' := Tracker.switchModel libT taskT sT in
     Tracker.loaded r = 0%nat /\
     (forall h, Spec.trackerHolds sT h -> In h (Tracker.closed r)) /\
     Tracker.closed s' = Tracker.closed r /\
     (Tracker.loaded s' <= 1)%nat /\
     match Tracker.createFromOptions libT taskT with
     | JS.Fulfilled h => Tracker.loaded s' = 1%nat /\ Spec.trackerSlot taskT s' = Some h
     | JS.Rejected _ => Tracker.loaded s' = 0%nat
     end) /\
    (let r := Analysis.switchModel_release sA in
     let s' := Analysis.switchModel libA taskA sA in
     Analysis.loaded r = 0%nat /\
     (forall h, Spec.analysisHolds sA h -> In h (Analysis.closed r)) /\
     Analysis.closed s' = Analysis.closed r /\
     (Analysis.loaded s' <= 1)%nat /\
     match Analysis.createFromOptions libA taskA with
     | JS.Fulfilled h => Analysis.loaded s' = 1%nat /\ Spec.analysisSlot taskA s' = Some h
     | JS.Rejected _ => Analysis.loaded s' = 0%nat
     end).
Proof.
  intros libT taskT sT libA taskA sA U. split.
  - destruct (tracker_release sT) as (L & H & _).
    destruct (tracker_switch libT taskT sT) as (C & M).
    repeat split; try assumption.
    destruct (Tracker.createFromOptions libT taskT); [destruct M as [-> _]|rewrite M]; lia.
  - destruct (analysis_release sA U) as (L & _ & H & _).
    destruct (analysis_switch libA taskA sA U) as (_ & C & M).
    repeat split; try assumption.
    destruct (Analysis.createFromOptions libA taskA); [destruct M as [-> _]|rewrite M]; lia.
Qed.

Lemma at_most_one_model_loaded_witness :
  (let s' := Tracker.switchModel Spec.stubVision Tracker.face Spec.trackerRunning in
   In 1%nat (Tracker.closed s') /\ Tracker.loaded s' = 1%nat /\
   Tracker.objectDetector s' = None) /\
  (let s' := Analysis.switchModel Spec.analysisVision Analysis.object Spec.analysisRunning in
   In 7%nat (Analysis.closed s') /\ Analysis.loaded s' = 1%nat /\
   Analysis.faceDetector s' = None).
Proof.
  destruct (at_most_one_model_loaded Spec.stubVision Tracker.face Spec.trackerRunning
              Spec.analysisVision Analysis.object Spec.analysisRunning)
    as [(_ & HT & CT & _ & MT) (_ & HA & CA & _ & MA)].
  - split; reflexivity.
  - split; (split; [|split; [|reflexivity]]).
    + rewrite CT. apply HT. left; reflexivity.
    + apply MT.
    + rewrite CA. apply HA. right; reflexivity.
    + apply MA.
Defined.

(* ================================================================== *)
(** ** The target filter of object mode *)
(* ================================================================== *)

(** Object mode of the person-analysis application draws a detection
    exactly when it passes the filter, and then draws its box and label. *)
Lemma object_filter_decides (target : string) (d : Canvas.Detection) (W : JS.number) :
  (Spec.passesFilter (Analysis.targetsOf target) d ->
     Analysis.drawObjectDetections target [d] W = Spec.boxAndLabel W d /\
     Spec.boxAndLabel W d <> []) /\
  (~ Spec.passesFilter (Analysis.targetsOf target) d ->
     Analysis.drawObjectDetections target [d] W = []).
Proof.
  unfold Spec.passesFilter, Spec.boxAndLabel, Analysis.drawObjectDetections.
  destruct (Canvas.boundingBox d) as [b|];
    [|split; [intros (b & c0 & cs & E & _); discriminate|reflexivity]].
  destruct (Canvas.categories d) as [|c0 cs];
    [split; [intros (b' & c & cs & _ & E & _); discriminate|reflexivity]|].
  set (category := JS.toLowerCase (Canvas.categoryName c0)).
  destruct (Analysis.targetsOf target) as [|t ts] eqn:T.
  - split; [intros _; split; [reflexivity|discriminate]|].
    intros N. exfalso. apply N. exists b, c0, cs. auto.
  - change (0 <? List.length (t :: ts))%nat with true. rewrite andb_true_l.
    destruct (JS.some (fun x => JS.includes category x) (t :: ts)) eqn:S.
    + split; [intros _; split; [reflexivity|discriminate]|].
      intros N. exfalso. apply N. exists b, c0, cs. repeat split. right.
      apply existsb_exists in S as (x & I & X). exists x; auto.
    + split; [|reflexivity].
      intros (b' & c & cs' & _ & E & [D|(x & I & X)]); [discriminate|].
      inversion E; subst c cs'.
      assert (S' : JS.some (fun x => JS.includes category x) (t :: ts) = true)
        by (apply existsb_exists; exists x; auto).
      rewrite S in S'. discriminate.
Qed.

Section Separators.
Import JS Spec.
Local Open Scope string_scope.

Lemma letter_lower (l u c : ascii) :
  (l, u) = ("a", "A")%char \/ (l, u) = ("n", "N")%char \/ (l, u) = ("d", "D")%char ->
  Ascii.eqb l (lowerChar c) = isLetter l u c.
Proof.
  intros [E|[E|E]]; inversion E; subst;
    destruct c as [[] [] [] [] [] [] [] []]; reflexivity.
Qed.

Lemma startsWith_and (s : string) : startsWith (toLowerCase s) "and" = andAt s.
Proof.
  destruct s as [|a [|n [|d rest]]]; cbn [toLowerCase startsWith andAt];
    rewrite ?andb_false_r; try reflexivity.
  replace (startsWith (toLowerCase rest) "") with true
    by (destruct (toLowerCase rest); reflexivity).
  rewrite andb_true_r.
  rewrite (letter_lower "a" "A"), (letter_lower "n" "N"), (letter_lower "d" "D") by auto.
  apply andb_assoc.
Qed.

Lemma letter_not_sep (c : ascii) : isLetter "a" "A" c = true -> isSepChar c = false.
Proof. destruct c as [[] [] [] [] [] [] [] []]; intros E; try discriminate; reflexivity. Qed.

Lemma andAt_not_sep (c : ascii) (tl : string) :
  andAt (String c tl) = true -> isSepChar c = false.
Proof.
  destruct tl as [|n [|d rest]]; simpl; try discriminate.
  intros E. apply andb_true_iff in E as [E _]. apply andb_true_iff in E as [E _].
  apply letter_not_sep, E.
Qed.

Lemma markAnd_other (c : ascii) (tl : string) :
  andAt (String c tl) = false -> markAnd (String c tl) = String c (markAnd tl).
Proof.
  intros E. destruct tl as [|n [|d rest]]; try reflexivity.
  change (markAnd (String c (String n (String d rest))))
    with (if andAt (String c (String n (String d rest)))
          then String ","%char (markAnd rest)
          else String c (markAnd (String n (String d rest)))).
  rewrite E. reflexivity.
Qed.

Lemma filter_piece (cur : string) (l : list string) :
  filter truthy (cur :: l) = (piece cur ++ filter truthy l)%list.
Proof. destruct cur; reflexivity. Qed.

(** Stepping over part of a run of separator characters, or over none of
    it, leaves the same non-empty pieces. *)
Lemma split_skip_run (s : string) : forall k,
  (k <= sepRun s)%nat ->
  filter truthy (split_go s k "") = filter truthy (split_go s 0 "").
Proof.
  induction s as [|c s IH]; intros [|k] L; try reflexivity.
  simpl in L. destruct (isSepChar c) eqn:C; [|lia].
  cbn [split_go]. unfold sepMatch. cbn [sepRun]. rewrite C.
  rewrite filter_piece. cbn [piece app].
  rewrite (IH k) by lia. symmetry. apply IH. apply Nat.le_refl.
Qed.

Lemma split_fields : forall (n : nat) (s cur : string),
  (String.length s <= n)%nat ->
  filter truthy (split_go s 0 cur) = fields_go (markAnd s) cur.
Proof.
  induction n as [|n IH]; intros [|c rest] cur L; try (destruct cur; reflexivity).
  - simpl in L. lia.
  - simpl in L. cbn [split_go]. unfold sepMatch. cbn [sepRun].
    destruct (isSepChar c) eqn:C.
    + assert (A : andAt (String c rest) = false).
      { destruct (andAt (String c rest)) eqn:A; [|reflexivity].
        apply andAt_not_sep in A. congruence. }
      rewrite (markAnd_other _ _ A). cbn [fields_go]. rewrite C.
      rewrite filter_piece, split_skip_run by apply Nat.le_refl.
      rewrite (IH rest "") by lia. reflexivity.
    + rewrite startsWith_and.
      destruct (andAt (String c rest)) eqn:A.
      * destruct rest as [|x [|y rest3]]; try discriminate.
        change (markAnd (String c (String x (String y rest3))))
          with (if andAt (String c (String x (String y rest3)))
                then String ","%char (markAnd rest3)
                else String c (markAnd (String x (String y rest3)))).
        rewrite A. cbn [split_go fields_go]. change (isSepChar ","%char) with true.
        cbv iota. rewrite filter_piece.
        rewrite (IH rest3 "") by (simpl in L; lia). reflexivity.
      * rewrite (markAnd_other _ _ A). cbn [fields_go]. rewrite C.
        apply IH. lia.
Qed.

Lemma targetsOf_tokens (target : string) : Analysis.targetsOf target = tokens target.
Proof.
  unfold Analysis.targetsOf, tokens, fields, split_sep.
  apply (split_fields (String.length (trim (toLowerCase target)))), Nat.le_refl.
Qed.

Lemma drawObjectDetections_cons (target : string) (d : Canvas.Detection)
    (ds : list Canvas.Detection) (W : number) :
  Analysis.drawObjectDetections target (d :: ds) W
  = (Analysis.drawObjectDetections target [d] W
     ++ Analysis.drawObjectDetections target ds W)%list.
Proof.
  cbn [Analysis.drawObjectDetections].
  destruct (Canvas.boundingBox d); [|reflexivity].
  destruct (Canvas.categories d); [reflexivity|].
  destruct (_ && _); reflexivity.
Qed.

End Separators.



(* ================================================================== *)
(** ** The analysis batch: success, guard and trigger *)
(* ================================================================== *)

Lemma analyzeFace_all_fulfilled (ai : Analysis.CloudModel) (p : string)
    (ds : list Canvas.Detection) :
  (forall d box, In d ds -> Canvas.boundingBox d = Some box ->
     exists t, ai box (Analysis.analysisPrompt p) = JS.Fulfilled t) ->
  exists rs,
    JS.Promise_all (map (Analysis.analyzeFace ai p) ds) = JS.Fulfilled rs /\
    map Analysis.bbox (JS.filter_Boolean rs) = JS.filter_Boolean (map Canvas.boundingBox ds) /\
    (forall r, In r (JS.filter_Boolean rs) ->
       ai (Analysis.bbox r) (Analysis.analysisPrompt p) = JS.Fulfilled (Analysis.text r)).
Proof.
  induction ds as [|d ds IH]; intros F; simpl.
  - exists []. repeat split. intros r [].
  - destruct IH as (rs & P & B & T); [intros d' box I; apply F; right; assumption|].
    unfold Analysis.analyzeFace at 1.
    destruct (Canvas.boundingBox d) as [b|] eqn:E.
    + destruct (F d b (or_introl eq_refl) E) as [t A]. rewrite A, P.
      eexists; split; [reflexivity|]. simpl. split.
      * rewrite B. destruct b; reflexivity.
      * intros r [<-|I]; [destruct b; exact A|auto].
    + rewrite P. eexists; split; [reflexivity|]. simpl. auto.
Qed.

(** X1.  A batch that got past the guard and in which every cloud
    request is fulfilled: the stored results become one result per
    detection that has a bounding box, in the order of the detections,
    each carrying the box of its detection and the text returned for that
    box; detections without a box leave no result.  Nothing is logged and
    the busy flag is down. *)
Theorem fulfilled_batch_replaces_results :
  forall (ai : Analysis.CloudModel) (s : Analysis.State) (detections : list Canvas.Detection),
    Analysis.analyzeAllFaces_returns (Some detections) s = false ->
    (forall d box, In d detections -> Canvas.boundingBox d = Some box ->
       exists t, ai box (Analysis.analysisPrompt (Analysis.inputPrompt s)) = JS.Fulfilled t) ->
    let s' := Analysis.analyzeAllFaces ai (Some detections) s in
    exists results,
      Analysis.personAnalysisResults s' = Some results /\
      map Analysis.bbox results = JS.filter_Boolean (map Canvas.boundingBox detections) /\
      (forall r, In r results ->
         ai (Analysis.bbox r) (Analysis.analysisPrompt (Analysis.inputPrompt s))
           = JS.Fulfilled (Analysis.text r)) /\
      Analysis.console s' = Analysis.console s /\
      Analysis.isAnalyzing s' = false.
Proof.
  intros ai s ds G F s'. subst s'.
  unfold Analysis.analyzeAllFaces. rewrite G.
  unfold Analysis.analyzeAllFaces_settle.
  destruct (analyzeFace_all_fulfilled ai _ ds F) as (rs & -> & B & T).
  exists (JS.filter_Boolean rs). repeat split; assumption.
Qed.

Lemma fulfilled_batch_replaces_results_witness :
  exists results,
    Analysis.personAnalysisResults
      (Analysis.analyzeAllFaces (fun _ _ => JS.Fulfilled "Mood: calm"%string)
         (Some Spec.twoFaces) Spec.analysisRunning) = Some results /\
    map Analysis.bbox results = [Spec.exampleBox; Spec.smallBox].
Proof.
  destruct (fulfilled_batch_replaces_results (fun _ _ => JS.Fulfilled "Mood: calm"%string)
              Spec.analysisRunning Spec.twoFaces) as (results & P & B & _).
  - vm_compute; reflexivity.
  - intros d box _ _. eexists; reflexivity.
  - exists results. split; [exact P|exact B].
Defined.

(** X2.  Whatever the detections and the cloud model, a call of
    [analyzeAllFaces] leaves the busy flag as it found it (a call that
    runs lowers the flag it raised, a call made while a batch is in
    flight returns at the guard), and never touches the error message,
    the loading flag, the mode or the model slots; it logs at most one
    error.  With no detections, no video element or a batch in flight it
    returns the state unchanged. *)
Theorem analyzeAllFaces_restores_busy_flag :
  forall (ai : Analysis.CloudModel) (detections : option (list Canvas.Detection))
         (s : Analysis.State),
    let s' := Analysis.analyzeAllFaces ai detections s in
    Analysis.isAnalyzing s' = Analysis.isAnalyzing s /\
    Analysis.errorMessage s' = Analysis.errorMessage s /\
    Analysis.isLoading s' = Analysis.isLoading s /\
    Analysis.detectionMode s' = Analysis.detectionMode s /\
    Analysis.objectDetector s' = Analysis.objectDetector s /\
    Analysis.faceDetector s' = Analysis.faceDetector s /\
    (Analysis.console s' = Analysis.console s \/
     Analysis.console s' = Analysis.console s ++ ["Failed to analyze faces"%string]) /\
    (detections = None \/ detections = Some [] \/ Analysis.videoRef s = false \/
     Analysis.isAnalyzing s = true -> s' = s).
Proof.
  intros ai ds s s'. subst s'. unfold Analysis.analyzeAllFaces.
  destruct ds as [ds|].
  - destruct (Analysis.analyzeAllFaces_returns (Some ds) s) eqn:G.
    + repeat split; auto.
    + unfold Analysis.analyzeAllFaces_returns in G.
      apply orb_false_iff in G as [G A]. apply orb_false_iff in G as [L V].
      apply negb_false_iff in V.
      unfold Analysis.analyzeAllFaces_settle.
      destruct (JS.Promise_all _); simpl; repeat split; auto.
      all: intros [H|[H|[H|H]]]; try discriminate; try congruence.
      all: inversion H; subst; discriminate.
  - repeat split; auto.
Qed.

(** X3.  One callback of the person-analysis render loop launches an
    analysis batch exactly when: the frame is new, the mode the loop
    reads is person analysis, the face detector is loaded and finds at
    least one face, the frame's timestamp exceeds the value of
    [lastAnalysisTime] by more than 3000 ms, the video element is mounted
    and no batch is in flight.  It then launches one batch, for the faces
    of this frame, raises the busy flag and stores the frame's timestamp
    in [lastAnalysisTime].  ([lastAnalysisTime] is not the time of the
    last launch: a callback that finds a batch in flight stores its
    timestamp there too, and a prompt submission stores 0.) *)
Theorem analysis_batch_trigger :
  forall (lib : Analysis.VisionLib) (f : Analysis.Frame) (s : Analysis.State),
    let s' := Analysis.renderLoop lib f s in
    (forall h ds, Props.triggers lib f s h ds ->
       Analysis.batches s' = Analysis.batches s ++ [ds] /\
       Analysis.isAnalyzing s' = true /\
       Analysis.lastAnalysisTime s' = Analysis.nowMs f) /\
    (Analysis.batches s' = Analysis.batches s \/
     exists h ds, Props.triggers lib f s h ds).
Proof.
  intros lib f s s'. subst s'. unfold Props.triggers, Analysis.renderLoop.
  destruct s as [? ? ? ? mode ? ? o fd ? ? v la an lv ? ? ? ? ? ?]; simpl.
  destruct (JS.strict_neq (Analysis.currentTime f) lv) eqn:N;
    [|split; [intros h ds (C & _); discriminate|left; reflexivity]].
  destruct mode.
  - split; [intros h ds (_ & C & _); discriminate|].
    left. destruct o; reflexivity.
  - simpl. destruct fd as [h|];
      [|split; [intros h ds (_ & _ & C & _); discriminate|left; reflexivity]].
    simpl. destruct (Analysis.detectForVideo lib h _ _) as [|d ds] eqn:D; simpl.
    { split; [|left; reflexivity].
      intros h' ds' (_ & _ & E & D' & NE & _). inversion E; subst h'.
      rewrite D in D'. subst ds'. contradiction. }
    destruct (JS.lt 3000%float (Analysis.nowMs f - la)%float) eqn:L; simpl;
      [|split; [intros h' ds' (_ & _ & _ & _ & _ & C & _); discriminate|left; reflexivity]].
    unfold Analysis.analyzeAllFaces_returns; simpl.
    destruct v; simpl;
      [|split; [intros h' ds' (_ & _ & _ & _ & _ & _ & C & _); discriminate|left; reflexivity]].
    destruct an; simpl;
      [split; [intros h' ds' (_ & _ & _ & _ & _ & _ & _ & C); discriminate|left; reflexivity]|].
    split.
    + intros h' ds' (_ & _ & E & D' & _). inversion E; subst h'.
      rewrite D in D'. subst ds'. repeat split.
    + right. exists h, (d :: ds). repeat split; auto. discriminate.
Qed.

(** X4.  When the 3000 ms interval has passed but a batch is still in
    flight, the callback launches nothing, and yet it restarts the
    interval: the next launch is at least 3000 ms after this frame. *)
Theorem busy_callback_restarts_interval :
  forall (lib : Analysis.VisionLib) (f : Analysis.Frame) (s : Analysis.State)
         (h : Analysis.Handle) (d : Canvas.Detection) (ds : list Canvas.Detection),
    JS.strict_neq (Analysis.currentTime f) (Analysis.lastVideoTime s) = true ->
    Analysis.detectionMode s = Analysis.person_analysis ->
    Analysis.faceDetector s = Some h ->
    Analysis.detectForVideo lib h (Analysis.currentTime f) (Analysis.nowMs f) = d :: ds ->
    JS.lt 3000%float (Analysis.nowMs f - Analysis.lastAnalysisTime s)%float = true ->
    Analysis.isAnalyzing s = true ->
    let s' := Analysis.renderLoop lib f s in
    Analysis.batches s' = Analysis.batches s /\
    Analysis.isAnalyzing s' = true /\
    Analysis.lastAnalysisTime s' = Analysis.nowMs f.
Proof.
  intros lib f s h d ds N M F D L A s'. subst s'. unfold Analysis.renderLoop.
  rewrite N.
  destruct s as [? ? ? ? mode ? ? o fd ? ? v la an lv ? ? ? ? ? ?]; simpl in *.
  subst mode fd an. simpl. rewrite D. simpl. rewrite L. simpl.
  unfold Analysis.analyzeAllFaces_returns; simpl.
  rewrite orb_true_r. repeat split.
Qed.

Lemma busy_callback_restarts_interval_witness :
  let s' := Analysis.renderLoop Spec.analysisVision Spec.analysisFrameA Props.analysisBusy in
  Analysis.batches s' = Analysis.batches Props.analysisBusy /\
  Analysis.isAnalyzing s' = true /\
  Analysis.lastAnalysisTime s' = 4000%float.
Proof.
  apply (busy_callback_restarts_interval Spec.analysisVision Spec.analysisFrameA
           Props.analysisBusy 7%nat
           {| Canvas.categories := []; Canvas.boundingBox := Some Spec.exampleBox |}
           [{| Canvas.categories := []; Canvas.boundingBox := Some Spec.smallBox |}]);
    vm_compute; reflexivity.
Defined.

(* ================================================================== *)
(** ** The render loop on a new frame *)
(* ================================================================== *)

(** X5.  The render loop of each application, as a function of the task
    (or mode) value and the model slots it reads: on a frame with a new
    playback time it runs at most one inference, on the model in the slot
    of that task value, with the frame's playback time and timestamp;
    a model in another slot is not consulted.  When that slot is empty no
    inference is issued and the canvas is cleared and left blank.  In
    every case the canvas is cleared first and the frame's playback time
    is remembered.  Which task value the loop of the mounted application
    reads is settled by the theorems on [Mounted.trackerLoop] and
    [Mounted.analysisLoop]. *)
Theorem inference_reads_one_slot :
  forall (libT : Tracker.VisionLib) (fT : Tracker.Frame) (sT : Tracker.State)
         (libA : Analysis.VisionLib) (fA : Analysis.Frame) (sA : Analysis.State),
    JS.strict_neq (Tracker.currentTime fT) (Tracker.lastVideoTime sT) = true ->
    JS.strict_neq (Analysis.currentTime fA) (Analysis.lastVideoTime sA) = true ->
    (let s' := Tracker.renderLoop libT fT sT in
     let clear := Canvas.ClearRect 0%float 0%float (Tracker.canvasWidth fT)
                    (Tracker.canvasHeight fT) in
     Tracker.lastVideoTime s' = Tracker.currentTime fT /\
     (exists ops, Tracker.canvas s' = clear :: ops) /\
     match Spec.trackerSlot (Tracker.activeTask sT) sT with
     | Some h =>
         Tracker.calls s' = Tracker.calls sT ++
           [{| Tracker.call_model := h; Tracker.call_frame := Tracker.currentTime fT;
               Tracker.call_now := Tracker.now fT |}]
     | None =>
         Tracker.calls s' = Tracker.calls sT /\ Tracker.canvas s' = [clear] /\
         Tracker.thrown s' = Canvas.Normal
     end) /\
    (let s' := Analysis.renderLoop libA fA sA in
     let clear := Canvas.ClearRect 0%float 0%float (Analysis.canvasWidth fA)
                    (Analysis.canvasHeight fA) in
     Analysis.lastVideoTime s' = Analysis.currentTime fA /\
     (exists ops, Analysis.canvas s' = clear :: ops) /\
     match Spec.analysisSlot (Analysis.detectionMode sA) sA with
     | Some h =>
         Analysis.calls s' = Analysis.calls sA ++
           [{| Analysis.call_model := h; Analysis.call_frame := Analysis.currentTime fA;
               Analysis.call_now := Analysis.nowMs fA |}]
     | None =>
         Analysis.calls s' = Analysis.calls sA /\ Analysis.canvas s' = [clear] /\
         Analysis.batches s' = Analysis.batches sA
     end).
Proof.
  intros libT fT sT libA fA sA NT NA. split.
  - unfold Tracker.renderLoop. rewrite NT.
    destruct sT as [? ? ? ? a ? o fd h p ? ? ? ? ? ?]; simpl.
    destruct a, o, fd, h, p; simpl;
      try solve [(split; [reflexivity|split; [eexists; reflexivity|repeat split]])];
      destruct (Tracker.detectForVideo libT _ _ _); simpl;
      try solve [(split; [reflexivity|split; [eexists; reflexivity|repeat split]])];
      try match goal with
          | |- context [Tracker.drawObjectDetections ?t ?d ?w] =>
              destruct (Tracker.drawObjectDetections t d w)
          | |- context [Tracker.drawFaceDetections ?d ?w] =>
              destruct (Tracker.drawFaceDetections d w)
          end; simpl;
      solve [(split; [reflexivity|split; [eexists; reflexivity|repeat split]])].
  - unfold Analysis.renderLoop. rewrite NA.
    destruct sA as [? ? ? ? a ? ? o fd ? ? v ? an ? ? ? ? ? ? ?]; simpl.
    destruct a, o, fd; simpl;
      try solve [(split; [reflexivity|split; [eexists; reflexivity|repeat split]])];
      destruct (Analysis.detectForVideo libA _ _ _); simpl;
      try solve [(split; [reflexivity|split; [eexists; reflexivity|repeat split]])];
      destruct (JS.lt _ _); simpl;
      try solve [(split; [reflexivity|split; [eexists; reflexivity|repeat split]])];
      unfold Analysis.analyzeAllFaces_returns; simpl; destruct v, an; simpl;
      solve [(split; [reflexivity|split; [eexists; reflexivity|repeat split]])].
Qed.

Lemma inference_reads_one_slot_witness :
  Tracker.calls (Tracker.renderLoop Spec.stubVision Spec.trackerFrameA Spec.trackerRunning)
    = [{| Tracker.call_model := 1%nat; Tracker.call_frame := 1.5%float;
          Tracker.call_now := 1000%float |}] /\
  Analysis.calls (Analysis.renderLoop Spec.analysisVision Spec.analysisFrameA
                    Spec.analysisRunning)
    = [{| Analysis.call_model := 7%nat; Analysis.call_frame := 1.5%float;
          Analysis.call_now := 4000%float |}].
Proof.
  destruct (inference_reads_one_slot Spec.stubVision Spec.trackerFrameA
              Spec.trackerRunning Spec.analysisVision Spec.analysisFrameA
              Spec.analysisRunning) as [(_ & _ & T) (_ & _ & A)].
  - vm_compute; reflexivity.
  - vm_compute; reflexivity.
  - split; [exact T|exact A].
Defined.

(* ================================================================== *)
(** ** The object renderers *)
(* ================================================================== *)

Lemma tracker_draw_safe target d ds W :
  Props.trackerSafe target d ->
  Tracker.drawObjectDetections target (d :: ds) W
    = (fst (Tracker.drawObjectDetections target [d] W)
         ++ fst (Tracker.drawObjectDetections target ds W),
       snd (Tracker.drawObjectDetections target ds W)) /\
  snd (Tracker.drawObjectDetections target [d] W) = Canvas.Normal.
Proof.
  intros (c0 & cs & C & S). simpl. rewrite C.
  destruct (JS.truthy target && negb _)%bool eqn:R.
  - destruct (Tracker.drawObjectDetections target ds W); auto.
  - destruct S as [S|S]; [discriminate|].
    destruct (Canvas.boundingBox d) as [b|]; [|contradiction].
    destruct (Tracker.drawObjectDetections target ds W) as [ops c].
    split; reflexivity.
Qed.

Lemma tracker_draw_unsafe target d ds W :
  ~ Props.trackerSafe target d ->
  Tracker.drawObjectDetections target (d :: ds) W = ([], Canvas.TypeError).
Proof.
  intros N. simpl. destruct (Canvas.categories d) as [|c0 cs] eqn:C; [reflexivity|].
  destruct (JS.truthy target && negb _)%bool eqn:R.
  - exfalso. apply N. exists c0, cs. split; [assumption|]. left. assumption.
  - destruct (Canvas.boundingBox d) as [b|] eqn:B; [|reflexivity].
    exfalso. apply N. exists c0, cs. split; [assumption|]. right. congruence.
Qed.

(** X6.  The object renderer of the tracker stops at the first detection
    it cannot treat: one without a category, or one that passes the
    filter and has no bounding box.  The detections before it are drawn,
    the call ends in a [TypeError], and the detections after it are not
    drawn, well-formed or not.  Without such a detection the call ends
    normally. *)
Theorem tracker_renderer_stops_at_malformed_detection :
  forall (target : string) (before : list Canvas.Detection) (bad : Canvas.Detection)
         (after : list Canvas.Detection) (W : JS.number),
    Forall (Props.trackerSafe target) before ->
    ~ Props.trackerSafe target bad ->
    snd (Tracker.drawObjectDetections target before W) = Canvas.Normal /\
    Tracker.drawObjectDetections target (before ++ bad :: after) W
      = (fst (Tracker.drawObjectDetections target before W), Canvas.TypeError).
Proof.
  intros target before bad after W S N.
  induction S as [|d ds Sd Sds [IH1 IH2]]; simpl app.
  - split; [reflexivity|]. apply tracker_draw_unsafe, N.
  - destruct (tracker_draw_safe target d ds W Sd) as (E & _).
    destruct (tracker_draw_safe target d (ds ++ bad :: after) W Sd) as (E' & _).
    rewrite E', E, IH2. simpl. rewrite IH1. auto.
Qed.

Lemma tracker_renderer_stops_at_malformed_detection_witness :
  Tracker.drawObjectDetections "" (Spec.exampleDetection :: Props.nameless
                                    :: [Spec.personDetection]) 640%float
    = (fst (Tracker.drawObjectDetections "" [Spec.exampleDetection] 640%float),
       Canvas.TypeError).
Proof.
  apply (tracker_renderer_stops_at_malformed_detection "" [Spec.exampleDetection]
           Props.nameless [Spec.personDetection] 640%float).
  - repeat constructor. exists {| Canvas.score := 0.5%float; Canvas.categoryName := "Cup" |}, [].
    split; [reflexivity|]. right; discriminate.
  - intros (c0 & cs & C & _). discriminate.
Defined.

(* ================================================================== *)
(** ** The target tokens of object mode *)
(* ================================================================== *)

Section Tokens.
Import JS.
Local Open Scope string_scope.

Lemma append_empty_r (s : string) : s ++ "" = s.
Proof. induction s as [|c s IH]; simpl; [reflexivity|rewrite IH; reflexivity]. Qed.

Lemma append_snoc (cur rest : string) (c : ascii) :
  (cur ++ String c "") ++ rest = cur ++ String c rest.
Proof. induction cur as [|a cur IH]; simpl; [reflexivity|rewrite IH; reflexivity]. Qed.

Lemma includes_nothing (s : string) : includes s "" = true.
Proof. destruct s; reflexivity. Qed.

Lemma sepMatch_none (c : ascii) (rest : string) :
  sepMatch (String c rest) = None \/ sepMatch (String c rest) = Some 0%nat ->
  isSepChar c = false.
Proof.
  unfold sepMatch. cbn [sepRun]. destruct (isSepChar c); [|reflexivity].
  intros [E|E]; discriminate.
Qed.

Lemma split_plain (s : string) : forall cur,
  Props.noSeparator s = true -> split_go s 0 cur = [cur ++ s].
Proof.
  induction s as [|c s IH]; intros cur H.
  - simpl. rewrite append_empty_r. reflexivity.
  - cbn [Props.noSeparator] in H. cbn [split_go].
    destruct (sepMatch (String c s)) eqn:M; [discriminate|].
    rewrite IH by assumption. rewrite append_snoc. reflexivity.
Qed.

Lemma noSepChars_snoc (cur : string) (c : ascii) :
  Props.noSepChars cur = true -> isSepChar c = false ->
  Props.noSepChars (cur ++ String c "") = true.
Proof.
  intros H C. induction cur as [|a cur IH]; simpl in *.
  - rewrite C. reflexivity.
  - apply andb_true_iff in H as [A R]. rewrite A, IH; auto.
Qed.

Lemma split_go_clean (s : string) : forall skip cur,
  Props.noSepChars cur = true ->
  Forall (fun t => Props.noSepChars t = true) (split_go s skip cur).
Proof.
  induction s as [|c s IH]; intros skip cur H; cbn [split_go].
  - repeat constructor; assumption.
  - destruct skip as [|k]; [|apply IH, H].
    destruct (sepMatch (String c s)) as [[|k]|] eqn:M.
    + apply IH, noSepChars_snoc; [assumption|]. eapply sepMatch_none; eauto.
    + constructor; [assumption|]. apply IH. reflexivity.
    + apply IH, noSepChars_snoc; [assumption|]. eapply sepMatch_none; eauto.
Qed.

Lemma lowerChar_sep (c : ascii) : isSepChar c = true -> lowerChar c = c.
Proof.
  destruct c as [[] [] [] [] [] [] [] []]; vm_compute; intros E;
    reflexivity || discriminate.
Qed.

Lemma sepOnly_lower (s : string) : Props.sepOnly s = true -> toLowerCase s = s.
Proof.
  induction s as [|c s IH]; simpl; [reflexivity|].
  intros E. apply andb_true_iff in E as [C R]. rewrite lowerChar_sep, IH; auto.
Qed.

Lemma sepOnly_trimStart (s : string) :
  Props.sepOnly s = true -> Props.sepOnly (trimStart s) = true.
Proof.
  induction s as [|c s IH]; simpl; [reflexivity|].
  intros E. pose proof E as E'. apply andb_true_iff in E as [C R].
  destruct (isWhiteSpace c); [auto|exact E'].
Qed.

Lemma sepOnly_trimEnd (s : string) :
  Props.sepOnly s = true -> Props.sepOnly (trimEnd s) = true.
Proof.
  induction s as [|c s IH]; simpl; [reflexivity|].
  intros E. apply andb_true_iff in E as [C R]. specialize (IH R).
  destruct (trimEnd s) as [|a r].
  - destruct (isWhiteSpace c); simpl; [reflexivity|rewrite C; reflexivity].
  - change (Props.sepOnly (String c (String a r))) with
      (isSepChar c && Props.sepOnly (String a r))%bool.
    rewrite C, IH. reflexivity.
Qed.

Lemma sepRun_all (s : string) : Props.sepOnly s = true -> sepRun s = String.length s.
Proof.
  induction s as [|c s IH]; simpl; [reflexivity|].
  intros E. apply andb_true_iff in E as [C R]. rewrite C, IH; auto.
Qed.

Lemma split_skip_all (s : string) : forall cur, split_go s (String.length s) cur = [cur].
Proof. induction s as [|c s IH]; intros cur; simpl; [reflexivity|apply IH]. Qed.

Lemma split_sepOnly (s : string) :
  Props.sepOnly s = true -> filter truthy (split_sep s) = [].
Proof.
  unfold split_sep. destruct s as [|c s]; [reflexivity|].
  intros E. cbn [split_go]. unfold sepMatch.
  rewrite (sepRun_all _ E). cbn [String.length].
  rewrite split_skip_all. reflexivity.
Qed.

Lemma targetsOf_sepOnly (target : string) :
  Props.sepOnly target = true -> Analysis.targetsOf target = [].
Proof.
  intros E. unfold Analysis.targetsOf. apply split_sepOnly.
  rewrite (sepOnly_lower _ E). unfold trim.
  apply sepOnly_trimEnd, sepOnly_trimStart, E.
Qed.

Lemma targetsOf_plain (target : string) :
  Props.noSeparator (trim (toLowerCase target)) = true ->
  Analysis.targetsOf target =
    if truthy (trim (toLowerCase target)) then [trim (toLowerCase target)] else [].
Proof.
  intros H. unfold Analysis.targetsOf, split_sep.
  rewrite split_plain by assumption. simpl.
  destruct (truthy _); reflexivity.
Qed.

End Tokens.

(** X7.  Every token the object mode of the person-analysis application
    filters with is non-empty and holds neither white space nor a comma,
    whatever the detection target typed. *)
Theorem target_tokens_are_clean :
  forall (target token : string),
    In token (Analysis.targetsOf target) ->
    token <> ""%string /\ Props.noSepChars token = true.
Proof.
  intros target token I. unfold Analysis.targetsOf in I.
  apply filter_In in I as [I T]. split.
  - intros ->. discriminate.
  - pose proof (split_go_clean (JS.trim (JS.toLowerCase target)) 0 ""%string eq_refl) as F.
    rewrite Forall_forall in F. apply F, I.
Qed.

Lemma target_tokens_are_clean_witness :
  "dog"%string <> ""%string /\ Props.noSepChars "dog" = true.
Proof.
  apply (target_tokens_are_clean " Cup,  dog and	cat, "%string "dog"%string).
  vm_compute. right; left; reflexivity.
Defined.

(** X8.  A detection target made of white space and commas only (the
    empty target included) yields no token, and object mode of the
    person-analysis application then draws every detection that has a
    category and a bounding box, and nothing for the others. *)
Theorem blank_target_draws_everything :
  forall (target : string) (ds : list Canvas.Detection) (W : JS.number),
    Props.sepOnly target = true ->
    Analysis.targetsOf target = [] /\
    Analysis.drawObjectDetections target ds W = flat_map (Spec.boxAndLabel W) ds.
Proof.
  intros target ds W E. pose proof (targetsOf_sepOnly target E) as T.
  split; [exact T|].
  induction ds as [|d ds IH]; [reflexivity|].
  cbn [Analysis.drawObjectDetections flat_map]. rewrite T, IH.
  unfold Spec.boxAndLabel.
  destruct (Canvas.boundingBox d), (Canvas.categories d); reflexivity.
Qed.

Lemma blank_target_draws_everything_witness :
  Analysis.targetsOf " , ,"%string = [] /\
  Analysis.drawObjectDetections " , ,"%string
    [Spec.exampleDetection; Props.nameless; Spec.personDetection] 640%float
    = flat_map (Spec.boxAndLabel 640%float)
        [Spec.exampleDetection; Props.nameless; Spec.personDetection].
Proof.
  apply (blank_target_draws_everything " , ,"%string
           [Spec.exampleDetection; Props.nameless; Spec.personDetection] 640%float).
  reflexivity.
Defined.

(** X9.  For a detection target whose lower-cased, trimmed form holds no
    separator (no white space, no comma, nowhere the letters a-n-d), and
    for detections that all have a category and a bounding box, the two
    object renderers select the same detections: the token filter of the
    person-analysis application is then the substring filter of the
    tracker.  For each selected detection both stroke the same rectangle
    and hand the same label, x and y to the [drawLabel] of their own
    file; what the two [drawLabel] bodies paint for it is not compared. *)
Theorem single_word_target_filters_alike :
  forall (target : string) (ds : list Canvas.Detection) (W : JS.number),
    Props.noSeparator (JS.trim (JS.toLowerCase target)) = true ->
    Forall Spec.wellFormed ds ->
    Tracker.drawObjectDetections target ds W
      = (map Props.trackerCall (Analysis.drawObjectDetections target ds W),
         Canvas.Normal).
Proof.
  intros target ds W P F.
  pose proof (targetsOf_plain target P) as T.
  induction F as [|d ds [C B] F IH]; [reflexivity|].
  cbn [Analysis.drawObjectDetections Tracker.drawObjectDetections].
  rewrite T, IH.
  destruct (Canvas.categories d) as [|c0 cs]; [contradiction|].
  destruct (Canvas.boundingBox d) as [b|]; [|contradiction].
  destruct (JS.truthy (JS.trim (JS.toLowerCase target))) eqn:N.
  - assert (TT : JS.truthy target = true).
    { destruct target; [discriminate|reflexivity]. }
    rewrite TT. cbn [List.length Nat.ltb Nat.leb andb JS.some existsb].
    rewrite orb_false_r.
    destruct (JS.includes _ _); reflexivity.
  - assert (E : JS.trim (JS.toLowerCase target) = ""%string).
    { destruct (JS.trim (JS.toLowerCase target)); [reflexivity|discriminate]. }
    rewrite E, includes_nothing. cbn [List.length Nat.ltb Nat.leb andb negb].
    rewrite andb_false_r. reflexivity.
Qed.

Lemma single_word_target_filters_alike_witness :
  Tracker.drawObjectDetections " Person "%string
    [Spec.exampleDetection; Spec.personDetection] 640%float
  = (map Props.trackerCall
       (Analysis.drawObjectDetections " Person "%string
          [Spec.exampleDetection; Spec.personDetection] 640%float), Canvas.Normal).
Proof.
  apply (single_word_target_filters_alike " Person "%string
           [Spec.exampleDetection; Spec.personDetection] 640%float).
  - vm_compute; reflexivity.
  - repeat constructor; discriminate.
Defined.

(* ================================================================== *)
(** ** Landmarks and face labels *)
(* ================================================================== *)

Lemma landmark_set_segments (lm : list Tracker.NormalizedLandmark)
    (conns : list Tracker.Connection) (W H : JS.number) (color : string) :
  let ops := Tracker.drawLandmarks [lm] conns W H color in
  Forall (Props.isSegment color) ops /\
  List.length ops = List.length (filter (Props.connected lm) conns).
Proof.
  unfold Tracker.drawLandmarks. cbn [flat_map]. rewrite app_nil_r.
  induction conns as [|c conns [IHs IHl]]; [split; [constructor|reflexivity]|].
  cbn [flat_map filter].
  destruct (Props.connected lm c) eqn:K; unfold Props.connected in K;
    destruct (nth_error lm (Tracker.conn_start c)), (nth_error lm (Tracker.conn_end c));
    try discriminate; cbn [app List.length]; rewrite ?IHl;
    (split; [|reflexivity]); try assumption.
  constructor; [|assumption]. unfold Props.isSegment. eauto.
Qed.

(** X10.  The landmark renderer strokes one segment, in the colour
    given and 3 wide, for every pair of a landmark set and a connection
    whose two end points exist in that set; a connection that points past
    the landmarks of a set is skipped without an error.  So it draws at
    most (number of sets) x (number of connections) segments. *)
Theorem landmark_segments_counted :
  forall (landmarks : list (list Tracker.NormalizedLandmark))
         (connections : list Tracker.Connection) (W H : JS.number) (color : string),
    let ops := Tracker.drawLandmarks landmarks connections W H color in
    Forall (Props.isSegment color) ops /\
    List.length ops
      = list_sum (map (fun lm => List.length (filter (Props.connected lm) connections))
                    landmarks) /\
    (List.length ops <= List.length landmarks * List.length connections)%nat.
Proof.
  intros lms conns W H color.
  induction lms as [|lm lms (IHs & IHl & IHb)]; [repeat split; constructor|].
  destruct (landmark_set_segments lm conns W H color) as [S1 L1].
  unfold Tracker.drawLandmarks in *. cbn [flat_map] in *. rewrite app_nil_r in S1, L1.
  cbv zeta. rewrite length_app. cbn [map list_sum List.length].
  split; [apply Forall_app; split; assumption|].
  split; [rewrite L1, IHl; reflexivity|].
  rewrite L1. pose proof (filter_length_le (Props.connected lm) conns). lia.
Qed.

Example landmark_segments_example :
  List.length (Tracker.drawLandmarks [Props.threeLandmarks] Props.someConnections
                 640%float 480%float "#FF0000") = 2%nat.
Proof. vm_compute; reflexivity. Qed.

Lemma matchResult_shape W m r :
  Analysis.matchResult W m r = m \/
  exists d box,
    Canvas.boundingBox (snd d) = Some box /\
    Analysis.attached (Analysis.matchResult W m r) = Analysis.attached m ++ [(r, d)] /\
    Analysis.ops (Analysis.matchResult W m r) = Analysis.ops m ++ [Spec.labelFor W r box].
Proof.
  unfold Analysis.matchResult, Analysis.accepted.
  destruct (Analysis.bestMatch _) as [d|]; [|left; reflexivity].
  destruct (Canvas.boundingBox (snd d)) as [box|] eqn:B; [|left; reflexivity].
  destruct (JS.lt _ _); [|left; reflexivity].
  right. exists d, box. repeat split. assumption.
Qed.

Lemma labelled_step W m r :
  Props.labelled m ->
  Props.labelled (Analysis.matchResult W m r) /\
  (List.length (Analysis.attached (Analysis.matchResult W m r))
     <= S (List.length (Analysis.attached m)))%nat.
Proof.
  intros (L & F & B).
  destruct (matchResult_shape W m r) as [->|(d & box & E & EA & EO)];
    [split; [repeat split; assumption|lia]|].
  unfold Props.labelled. rewrite EA, EO, !length_app. simpl. split; [|lia].
  repeat split.
  - lia.
  - apply Forall_app. split; [assumption|]. repeat constructor.
    unfold Props.isLabel, Spec.labelFor. eauto.
  - intros a I. apply in_app_or in I as [I|[<-|[]]]; [auto|].
    simpl. unfold Props.hasBox. rewrite E. reflexivity.
Qed.

Lemma labelled_matchAll W rs ds :
  Props.labelled (Analysis.matchAll W rs ds) /\
  (List.length (Analysis.attached (Analysis.matchAll W rs ds)) <= List.length rs)%nat.
Proof.
  unfold Analysis.matchAll.
  assert (G : forall rs m, Props.labelled m ->
            Props.labelled (fold_left (Analysis.matchResult W) rs m) /\
            (List.length (Analysis.attached (fold_left (Analysis.matchResult W) rs m))
               <= List.length (Analysis.attached m) + List.length rs)%nat).
  { clear rs. induction rs as [|r rs IH]; intros m L; simpl; [split; [assumption|lia]|].
    destruct (labelled_step W m r L) as [L' B].
    destruct (IH _ L') as [L'' B']. split; [assumption|lia]. }
  apply (G rs). split; [reflexivity|]. split; [constructor|]. intros a [].
Qed.

Lemma boxed_refs (ds : list Canvas.Detection) : forall n,
  List.length (filter (fun x : Analysis.DetectionRef => Props.hasBox (snd x))
                 (combine (seq n (List.length ds)) ds))
  = List.length (filter Props.hasBox ds).
Proof.
  induction ds as [|d ds IH]; intros n; simpl; [reflexivity|].
  destruct (Props.hasBox d); simpl; rewrite IH; reflexivity.
Qed.

Lemma faceBoxes_count (ds : list Canvas.Detection) (W : JS.number) :
  List.length (Analysis.drawFaceBoxes ds W) = List.length (filter Props.hasBox ds).
Proof.
  induction ds as [|d ds IH]; simpl; [reflexivity|]. unfold Props.hasBox.
  destruct (Canvas.boundingBox d); simpl; rewrite IH; reflexivity.
Qed.

(** X11.  The face renderer of the person-analysis application draws
    nothing when it is handed no detections; otherwise one rectangle per
    detection that has a bounding box, followed by labels only: at most
    one per analysis result and at most one per detection that has a
    box.  With no stored results, or an empty result list, it draws the
    rectangles alone. *)
Theorem face_renderer_counts :
  forall (results : option (list Analysis.AnalysisResult))
         (detections : list Canvas.Detection) (W : JS.number),
    Analysis.drawFaceDetections results None W = [] /\
    exists labels,
      Analysis.drawFaceDetections results (Some detections) W
        = Analysis.drawFaceBoxes detections W ++ labels /\
      List.length (Analysis.drawFaceBoxes detections W)
        = List.length (filter Props.hasBox detections) /\
      Forall Props.isLabel labels /\
      (List.length labels <= List.length (filter Props.hasBox detections))%nat /\
      (List.length labels
         <= match results with Some rs => List.length rs | None => 0 end)%nat.
Proof.
  intros results ds W. split; [reflexivity|].
  unfold Analysis.drawFaceDetections.
  destruct results as [[|r rs]|];
    try (exists []; rewrite faceBoxes_count; repeat split; auto; simpl; lia).
  exists (Analysis.ops (Analysis.matchAll W (r :: rs) ds)).
  destruct (labelled_matchAll W (r :: rs) ds) as [(L & F & B) N].
  destruct (exclusive_matchAll W (r :: rs) ds) as (_ & Q & _ & ND & _).
  split; [reflexivity|]. split; [apply faceBoxes_count|]. split; [assumption|].
  split; [|rewrite L; exact N].
  assert (Hle : (List.length (map Spec.claimedId
                                (Analysis.attached (Analysis.matchAll W (r :: rs) ds)))
                 <= List.length
                      (map fst (filter (fun x : Analysis.DetectionRef => Props.hasBox (snd x))
                                  (Analysis.refsOf ds))))%nat).
  { apply NoDup_incl_length; [assumption|].
    intros i I. apply in_map_iff in I as (a & <- & Ia).
    apply in_map_iff. exists (snd a). split; [reflexivity|].
    apply filter_In. split; [apply Q, Ia|apply B, Ia]. }
  rewrite !length_map in Hle. unfold Analysis.refsOf in Hle.
  rewrite boxed_refs in Hle. rewrite L. exact Hle.
Qed.

(* ================================================================== *)
(** ** Reset, model handles and handlers *)
(* ================================================================== *)

(** X12.  The session reset stops exactly the tracks of the stream it
    finds, after those stopped before and in the stream's order, and no
    other track; and a second reset changes nothing. *)
Theorem reset_is_idempotent :
  forall w : Session.World,
    Session.stopped (Session.resetState w) = Session.stopped w ++ Props.streamTracks w /\
    (forall t, Session.ended (Session.resetState w) t ->
       Session.ended w t \/ In t (Props.streamTracks w)) /\
    Session.resetState (Session.resetState w) = Session.resetState w.
Proof.
  intros w. unfold Session.ended, Props.streamTracks, Session.resetState. simpl.
  unfold Session.stopTracks.
  destruct (Session.ShareStream (Session.store w)) as [tracks|].
  - repeat split. intros t I. apply in_app_or in I. exact I.
  - rewrite app_nil_r. repeat split. auto.
Qed.

Lemma NoDup_snoc {A : Type} (l : list A) (x : A) :
  NoDup l -> ~ In x l -> NoDup (l ++ [x]).
Proof.
  intros N I. apply NoDup_app; [assumption|repeat constructor; intros []|].
  intros a Ia [<-|[]]. contradiction.
Qed.

(** X13.  When the models in the slots are distinct and not yet closed,
    and model construction returns a handle not seen before, a switch
    closes each model it held exactly once, in slot order, and afterwards
    again holds only models that are distinct and not closed: over any
    number of switches no model is closed twice and no closed model is
    kept. *)
Theorem switch_closes_each_model_once :
  forall (lib : Tracker.VisionLib) (task : Tracker.VisionTask) (s : Tracker.State),
    NoDup (Tracker.closed s ++ Props.heldList s) ->
    (forall h, Tracker.createFromOptions lib task = JS.Fulfilled h ->
       ~ In h (Tracker.closed s ++ Props.heldList s)) ->
    let s' := Tracker.switchModel lib task s in
    Tracker.closed s' = Tracker.closed s ++ Props.heldList s /\
    NoDup (Tracker.closed s' ++ Props.heldList s').
Proof.
  intros lib task s N F s'. subst s'. unfold Tracker.switchModel, Tracker.switchModel_release.
  destruct s as [? ? ? ? ? ? o f h p ? cl ? ? ? ?].
  unfold Props.heldList in *. simpl in N, F.
  destruct (Tracker.createFromOptions lib task) as [n|e].
  - specialize (F n eq_refl).
    destruct task, o, f, h, p; simpl in *; rewrite <- ?app_assoc; simpl;
      rewrite ?app_nil_r in *;
      (split; [reflexivity|]);
      match goal with
      | N0 : NoDup ?L |- NoDup ?X =>
          replace X with (L ++ [n]) by (rewrite <- ?app_assoc; reflexivity);
          apply NoDup_snoc; assumption
      end.
  - destruct o, f, h, p; simpl in *; rewrite <- ?app_assoc; simpl;
      rewrite ?app_nil_r in *; (split; [reflexivity|]); assumption.
Qed.

Lemma switch_closes_each_model_once_witness :
  let s' := Tracker.switchModel Props.freshVision Tracker.hands Spec.trackerRunning in
  Tracker.closed s' = [1%nat] /\
  NoDup (Tracker.closed s' ++ Props.heldList s').
Proof.
  apply (switch_closes_each_model_once Props.freshVision Tracker.hands Spec.trackerRunning).
  - vm_compute. repeat constructor. intros [].
  - intros h E. inversion E; subst h. vm_compute. intros [C|[]]. discriminate.
Defined.

Lemma analysis_switch_frame lib task s :
  let s' := Analysis.switchModel lib task s in
  Analysis.detectionMode s' = Analysis.detectionMode s /\
  Analysis.personAnalysisResults s' = Analysis.personAnalysisResults s /\
  Analysis.inputPrompt s' = Analysis.inputPrompt s /\
  Analysis.detectionTarget s' = Analysis.detectionTarget s /\
  Analysis.isLoading s' = false /\
  Analysis.errorMessage s' =
    match Analysis.createFromOptions lib task with
    | JS.Fulfilled _ => Analysis.errorMessage s
    | JS.Rejected _ =>
        "Failed to load the selected AI model. Please try another prompt."%string
    end.
Proof.
  unfold Analysis.switchModel, Analysis.switchModel_release.
  destruct s as [? ? ? ? ? ? ? o f ? ? ? ? ? ? ? ? ? ? ? ?].
  destruct (Analysis.createFromOptions lib task), task, o, f; repeat split.
Qed.

(** X14.  A mode button for the mode already active does nothing.  A
    change of mode closes every model held, drops the stored analysis
    results and installs the default prompt of the new mode (the target
    [cup] for object mode, no target for person analysis).  If the model
    of the new mode loads, it is the one model loaded and no error is
    shown, an earlier one being cleared; if it does not load, no model is
    loaded and the model error is shown.  The loading flag ends down. *)
Theorem mode_change_resets_and_switches :
  forall (lib : Analysis.VisionLib) (mode : Analysis.DetectionMode) (s : Analysis.State),
    Spec.landmarkersUnused s ->
    let s' := Analysis.handleModeChange lib mode s in
    if Analysis.DetectionMode_eqb mode (Analysis.detectionMode s) then s' = s
    else
      Analysis.detectionMode s' = mode /\
      Analysis.personAnalysisResults s' = None /\
      Analysis.isLoading s' = false /\
      Analysis.inputPrompt s' =
        match mode with
        | Analysis.object => "cup"%string
        | Analysis.person_analysis => "age and gender"%string
        end /\
      Analysis.detectionTarget s' =
        match mode with
        | Analysis.object => "cup"%string
        | Analysis.person_analysis => ""%string
        end /\
      (forall h, Spec.analysisHolds s h -> In h (Analysis.closed s')) /\
      match Analysis.createFromOptions lib mode with
      | JS.Fulfilled h =>
          Analysis.errorMessage s' = ""%string /\
          Spec.analysisSlot mode s' = Some h /\ Analysis.loaded s' = 1%nat
      | JS.Rejected _ =>
          Analysis.errorMessage s' =
            "Failed to load the selected AI model. Please try another prompt."%string /\
          Analysis.loaded s' = 0%nat
      end.
Proof.
  intros lib mode s U s'. subst s'. unfold Analysis.handleModeChange.
  destruct (Analysis.DetectionMode_eqb mode (Analysis.detectionMode s)); [reflexivity|].
  set (s1 := match mode with
             | Analysis.object => _
             | Analysis.person_analysis => _
             end).
  assert (U1 : Spec.landmarkersUnused s1) by (subst s1; destruct mode; exact U).
  assert (H1 : forall h, Spec.analysisHolds s h -> Spec.analysisHolds s1 h)
    by (subst s1; destruct mode; auto).
  destruct (analysis_switch_frame lib mode s1) as (F1 & F2 & F3 & F4 & F5 & F6).
  destruct (analysis_switch lib mode s1 U1) as (_ & C & M).
  destruct (analysis_release s1 U1) as (_ & _ & HC & _).
  rewrite F1, F2, F3, F4, F5, F6.
  split; [subst s1; destruct mode; reflexivity|].
  split; [subst s1; destruct mode; reflexivity|].
  split; [reflexivity|].
  split; [subst s1; destruct mode; reflexivity|].
  split; [subst s1; destruct mode; reflexivity|].
  split; [intros h Hh; rewrite C; apply HC, H1, Hh|].
  destruct (Analysis.createFromOptions lib mode).
  - split; [subst s1; destruct mode; reflexivity|]. destruct M; auto.
  - split; [reflexivity|exact M].
Qed.

Lemma mode_change_resets_and_switches_witness :
  let s' := Analysis.handleModeChange Spec.analysisVision Analysis.object
              Spec.analysisRunning in
  Analysis.detectionMode s' = Analysis.object /\
  Analysis.personAnalysisResults s' = None /\
  Analysis.detectionTarget s' = "cup"%string /\
  In 7%nat (Analysis.closed s').
Proof.
  pose proof (mode_change_resets_and_switches Spec.analysisVision Analysis.object
                Spec.analysisRunning (conj eq_refl eq_refl)) as H.
  cbv zeta in H.
  change (Analysis.DetectionMode_eqb Analysis.object
            (Analysis.detectionMode Spec.analysisRunning)) with false in H.
  destruct H as (M & R & _ & _ & T & C & _).
  repeat split; try assumption. apply C. right; reflexivity.
Defined.

(** X15.  Submitting a prompt in person-analysis mode drops the stored
    results and re-arms the analysis: the next new frame on which the
    face detector finds a face launches a batch however recently the
    last one was launched, provided the page clock is past 3000 ms, the
    video element is mounted and no batch is in flight; that frame is
    drawn with rectangles only. *)
Theorem resubmitted_prompt_rearms_analysis :
  forall (lib : Analysis.VisionLib) (f : Analysis.Frame) (s : Analysis.State)
         (h : Analysis.Handle) (d : Canvas.Detection) (ds : list Canvas.Detection),
    Analysis.inputPrompt s <> ""%string ->
    Analysis.detectionMode s = Analysis.person_analysis ->
    JS.strict_neq (Analysis.currentTime f) (Analysis.lastVideoTime s) = true ->
    Analysis.faceDetector s = Some h ->
    Analysis.detectForVideo lib h (Analysis.currentTime f) (Analysis.nowMs f) = d :: ds ->
    JS.lt 3000%float (Analysis.nowMs f - 0)%float = true ->
    Analysis.videoRef s = true ->
    Analysis.isAnalyzing s = false ->
    let s1 := Analysis.handlePromptSubmit s in
    let s2 := Analysis.renderLoop lib f s1 in
    Analysis.personAnalysisResults s1 = None /\
    Analysis.batches s2 = Analysis.batches s ++ [d :: ds] /\
    Analysis.isAnalyzing s2 = true /\
    Analysis.canvas s2 =
      Canvas.ClearRect 0%float 0%float (Analysis.canvasWidth f) (Analysis.canvasHeight f)
      :: Analysis.drawFaceBoxes (d :: ds) (Analysis.canvasWidth f).
Proof.
  intros lib f s h d ds P M N F D L V A s1 s2. subst s2 s1.
  unfold Analysis.handlePromptSubmit.
  destruct (Analysis.inputPrompt s) eqn:E; [contradiction|]. cbn [JS.truthy negb].
  rewrite M. unfold Analysis.renderLoop.
  destruct s as [? ? ? ? mode ? ? o fd ? ? v la an lv ? ? ? ? ? ?]; simpl in *.
  subst mode fd v an. rewrite N. simpl. rewrite D. simpl. rewrite L. simpl.
  unfold Analysis.analyzeAllFaces_returns; simpl.
  repeat split. unfold Analysis.drawResults, Analysis.drawFaceDetections.
  cbn -[Analysis.drawFaceBoxes]. f_equal. apply app_nil_r.
Qed.

Lemma resubmitted_prompt_rearms_analysis_witness :
  JS.lt 3000%float (4000 - Analysis.lastAnalysisTime Props.analysisRecent)%float = false /\
  Analysis.batches
    (Analysis.renderLoop Spec.analysisVision Spec.analysisFrameA
       (Analysis.handlePromptSubmit Props.analysisRecent))
    = Analysis.batches Props.analysisRecent ++ [Spec.twoFaces].
Proof.
  split; [vm_compute; reflexivity|].
  apply (resubmitted_prompt_rearms_analysis Spec.analysisVision Spec.analysisFrameA
           Props.analysisRecent 7%nat
           {| Canvas.categories := []; Canvas.boundingBox := Some Spec.exampleBox |}
           [{| Canvas.categories := []; Canvas.boundingBox := Some Spec.smallBox |}]);
    try (vm_compute; reflexivity).
  discriminate.
Defined.

(** X16.  A submitted prompt without a face keyword that contains a hand
    keyword selects the hands task; one without face and hand keywords
    that contains a pose keyword selects the pose task.  Either way the
    detection target is cleared. *)
Theorem hand_and_pose_keywords_route :
  forall (lib : Tracker.VisionLib) (s : Tracker.State) (keyword : string),
    (forall k, In k Tracker.faceKeywords ->
       JS.includes (JS.trim (JS.toLowerCase (Tracker.inputPrompt s))) k = false) ->
    JS.includes (JS.trim (JS.toLowerCase (Tracker.inputPrompt s))) keyword = true ->
    let s' := Tracker.handlePromptSubmit lib s in
    (In keyword Tracker.handKeywords ->
       Tracker.activeTask s' = Tracker.hands /\ Tracker.detectionTarget s' = ""%string) /\
    ((forall k, In k Tracker.handKeywords ->
        JS.includes (JS.trim (JS.toLowerCase (Tracker.inputPrompt s))) k = false) ->
     In keyword Tracker.poseKeywords ->
       Tracker.activeTask s' = Tracker.pose /\ Tracker.detectionTarget s' = ""%string).
Proof.
  intros lib s keyword NF E s'. subst s'.
  assert (T : In keyword (Tracker.handKeywords ++ Tracker.poseKeywords) ->
              JS.truthy (Tracker.inputPrompt s) = true).
  { intros I. destruct (Tracker.inputPrompt s) eqn:P; [|reflexivity].
    apply includes_empty in E. subst keyword.
    simpl in I. repeat destruct I as [I|I]; discriminate || contradiction. }
  split.
  - intros I.
    destruct (handlePromptSubmit_routes lib s (T (in_or_app _ _ _ (or_introl I)))) as [A D].
    rewrite A, D. unfold Tracker.route.
    rewrite (some_excludes _ _ NF), (some_includes _ keyword); auto.
  - intros NH I.
    destruct (handlePromptSubmit_routes lib s (T (in_or_app _ _ _ (or_intror I)))) as [A D].
    rewrite A, D. unfold Tracker.route.
    rewrite (some_excludes _ _ NF), (some_excludes _ _ NH), (some_includes _ keyword); auto.
Qed.

Lemma hand_and_pose_keywords_route_witness :
  let s' := Tracker.handlePromptSubmit Spec.stubVision
              (Tracker.setInputPrompt "wave hello"%string Spec.trackerRunning) in
  Tracker.activeTask s' = Tracker.hands /\ Tracker.detectionTarget s' = ""%string.
Proof.
  destruct (hand_and_pose_keywords_route Spec.stubVision
              (Tracker.setInputPrompt "wave hello"%string Spec.trackerRunning)
              "wave"%string) as [H _].
  - intros k I. repeat (destruct I as [<-|I]; [vm_compute; reflexivity|]). contradiction.
  - vm_compute; reflexivity.
  - apply H. vm_compute. tauto.
Defined.

(** X17.  In the tracker every loaded model sits in the slot of the
    task stored in the [activeTask] cell, and at most one model is
    loaded: both hold after the initial load, and a prompt submission
    keeps both, whether it changes the task or not and whether the new
    model loads or not. *)
Theorem active_task_owns_the_model :
  forall (lib : Tracker.VisionLib) (s : Tracker.State),
    Props.owned s ->
    (Tracker.loaded s <= 1)%nat ->
    let s' := Tracker.handlePromptSubmit lib s in
    let s0 := Tracker.switchModel lib (Tracker.activeTask Tracker.initial)
                Tracker.initial in
    Props.owned s' /\ (Tracker.loaded s' <= 1)%nat /\
    Props.owned s0 /\ (Tracker.loaded s0 <= 1)%nat.
Proof.
  intros lib s O L s' s0. subst s' s0. split; [|split; [|split]].
  - unfold Tracker.handlePromptSubmit.
    destruct (negb (JS.truthy (Tracker.inputPrompt s))); [assumption|].
    destruct (Tracker.route _) as [task target].
    destruct (negb (Tracker.VisionTask_eqb task (Tracker.activeTask s))).
    + unfold Tracker.switchModel, Tracker.switchModel_release.
      destruct s as [? ? ? ? a ? o f h p ? ? ? ? ? ?].
      destruct (Tracker.createFromOptions lib task), task, o, f, h, p;
        intros x [E|[E|[E|E]]]; simpl in *; try discriminate; exact E.
    + destruct s as [? ? ? ? a ? o f h p ? ? ? ? ? ?]. exact O.
  - unfold Tracker.handlePromptSubmit.
    destruct (negb (JS.truthy (Tracker.inputPrompt s))); [assumption|].
    destruct (Tracker.route _) as [task target].
    destruct (negb (Tracker.VisionTask_eqb task (Tracker.activeTask s))).
    + unfold Tracker.switchModel, Tracker.switchModel_release.
      destruct s as [? ? ? ? a ? o f h p ? ? ? ? ? ?].
      destruct (Tracker.createFromOptions lib task), task, o, f, h, p;
        unfold Tracker.loaded; simpl; lia.
    + destruct s as [? ? ? ? a ? o f h p ? ? ? ? ? ?]. exact L.
  - unfold Tracker.switchModel. simpl.
    destruct (Tracker.createFromOptions lib Tracker.object);
      intros x [E|[E|[E|E]]]; simpl in *; try discriminate; exact E.
  - unfold Tracker.switchModel. simpl.
    destruct (Tracker.createFromOptions lib Tracker.object);
      unfold Tracker.loaded; simpl; lia.
Qed.

Lemma active_task_owns_the_model_witness :
  let s' := Tracker.handlePromptSubmit Spec.stubVision
              (Tracker.setInputPrompt "dance"%string Spec.trackerRunning) in
  Props.owned s' /\ (Tracker.loaded s' <= 1)%nat.
Proof.
  destruct (active_task_owns_the_model Spec.stubVision
              (Tracker.setInputPrompt "dance"%string Spec.trackerRunning))
    as (O & L & _).
  - intros x [E|[E|[E|E]]]; try discriminate; exact E.
  - vm_compute. apply le_n.
  - split; [exact O|exact L].
Defined.

(* ================================================================== *)
(** ** Start-up *)
(* ================================================================== *)

(** X18.  Start-up of the person-analysis application.  If the vision
    runtime fails to load, the camera is not requested, no model is
    loaded, and the page shows the initialisation error with the loading
    flag down.  Otherwise a missing or refused camera does not stop the
    start-up: the face detector is still constructed, and the loading
    flag ends down.  The message shown is then the model error if the
    model failed to load, else the camera error if the camera was missing
    or refused, else none; and the stream reaches the video element
    exactly when the camera request succeeded and the element is
    mounted. *)
Theorem startup_error_precedence :
  forall (b : Startup.Browser) (lib : Analysis.VisionLib),
    let p := Startup.setup b lib Startup.mounted in
    let a := Startup.app p in
    Analysis.isLoading a = false /\
    match Startup.forVisionTasks b with
    | JS.Rejected _ =>
        Analysis.errorMessage a = "Failed to initialize. Please refresh the page."%string /\
        Analysis.loaded a = 0%nat /\ Startup.srcObject p = None /\
        Startup.listening p = false
    | JS.Fulfilled _ =>
        (match Analysis.createFromOptions lib Analysis.person_analysis with
         | JS.Fulfilled h => Analysis.faceDetector a = Some h /\ Analysis.loaded a = 1%nat
         | JS.Rejected _ => Analysis.loaded a = 0%nat
         end) /\
        Analysis.errorMessage a =
          (match Analysis.createFromOptions lib Analysis.person_analysis with
           | JS.Rejected _ =>
               "Failed to load the selected AI model. Please try another prompt."%string
           | JS.Fulfilled _ =>
               if negb (Startup.hasGetUserMedia b)
               then "Camera access is not supported by this browser."%string
               else match Startup.getUserMedia b with
                    | JS.Rejected _ =>
                        "Could not access the camera. Please grant permission and refresh."%string
                    | JS.Fulfilled _ => ""%string
                    end
           end) /\
        Startup.srcObject p =
          (if Startup.hasGetUserMedia b
           then match Startup.getUserMedia b with
                | JS.Fulfilled stream => Some stream
                | JS.Rejected _ => None
                end
           else None)
    end.
Proof.
  intros b lib p a. subst a p. unfold Startup.setup, Startup.setupCamera.
  destruct (Startup.forVisionTasks b); [|repeat split].
  destruct (Startup.hasGetUserMedia b); simpl;
    [destruct (Startup.getUserMedia b); simpl|];
    unfold Analysis.switchModel;
    destruct (Analysis.createFromOptions lib Analysis.person_analysis);
    repeat split.
Qed.

Example startup_with_camera_denied :
  let p := Startup.setup Props.cameraDenied Spec.analysisVision Startup.mounted in
  Analysis.errorMessage (Startup.app p)
    = "Could not access the camera. Please grant permission and refresh."%string /\
  Analysis.faceDetector (Startup.app p) = Some 7%nat /\
  Analysis.console (Startup.app p) = ["Failed to get camera feed"%string].
Proof. repeat split. Qed.

(* ================================================================== *)
(** ** The render loop that runs *)
(* ================================================================== *)

Lemma trackerCells_eq (from to : Tracker.State) :
  Mounted.trackerCells from to =
  {| Tracker.inputPrompt := Tracker.inputPrompt from;
     Tracker.isLoading := Tracker.isLoading from;
     Tracker.loadingMessage := Tracker.loadingMessage from;
     Tracker.errorMessage := Tracker.errorMessage from;
     Tracker.activeTask := Tracker.activeTask from;
     Tracker.detectionTarget := Tracker.detectionTarget from;
     Tracker.objectDetector := Tracker.objectDetector to;
     Tracker.faceDetector := Tracker.faceDetector to;
     Tracker.handLandmarker := Tracker.handLandmarker to;
     Tracker.poseLandmarker := Tracker.poseLandmarker to;
     Tracker.lastVideoTime := Tracker.lastVideoTime to;
     Tracker.closed := Tracker.closed to; Tracker.console := Tracker.console to;
     Tracker.calls := Tracker.calls to; Tracker.canvas := Tracker.canvas to;
     Tracker.thrown := Tracker.thrown to |}.
Proof. destruct from, to; reflexivity. Qed.

Lemma analysisCells_eq (from to : Analysis.State) :
  Mounted.analysisCells from to =
  {| Analysis.inputPrompt := Analysis.inputPrompt from;
     Analysis.isLoading := Analysis.isLoading from;
     Analysis.loadingMessage := Analysis.loadingMessage from;
     Analysis.errorMessage := Analysis.errorMessage from;
     Analysis.detectionMode := Analysis.detectionMode from;
     Analysis.detectionTarget := Analysis.detectionTarget from;
     Analysis.personAnalysisResults := Analysis.personAnalysisResults from;
     Analysis.objectDetector := Analysis.objectDetector to;
     Analysis.faceDetector := Analysis.faceDetector to;
     Analysis.handLandmarker := Analysis.handLandmarker to;
     Analysis.poseLandmarker := Analysis.poseLandmarker to;
     Analysis.videoRef := Analysis.videoRef to;
     Analysis.lastAnalysisTime := Analysis.lastAnalysisTime to;
     Analysis.isAnalyzing := Analysis.isAnalyzing to;
     Analysis.lastVideoTime := Analysis.lastVideoTime to;
     Analysis.closed := Analysis.closed to; Analysis.console := Analysis.console to;
     Analysis.calls := Analysis.calls to; Analysis.batches := Analysis.batches to;
     Analysis.canvas := Analysis.canvas to; Analysis.thrown := Analysis.thrown to |}.
Proof. destruct from, to; reflexivity. Qed.

(** X19.  One callback of the tracker's running loop on a frame with a
    new playback time.  Whatever task and target the cells hold, the
    loop consults the object-detector slot only: if it holds a model, one
    inference is run on it and its detections are drawn through the
    filter [person]; if it is empty, no inference is run and the canvas
    is cleared and left blank.  The cells are not changed. *)
Theorem running_tracker_filters_persons :
  forall (lib : Tracker.VisionLib) (f : Tracker.Frame) (s : Tracker.State),
    JS.strict_neq (Tracker.currentTime f) (Tracker.lastVideoTime s) = true ->
    let s' := Mounted.trackerLoop lib f s in
    let clear := Canvas.ClearRect 0%float 0%float (Tracker.canvasWidth f)
                   (Tracker.canvasHeight f) in
    Tracker.activeTask s' = Tracker.activeTask s /\
    Tracker.detectionTarget s' = Tracker.detectionTarget s /\
    Tracker.lastVideoTime s' = Tracker.currentTime f /\
    match Tracker.objectDetector s with
    | Some h =>
        Tracker.calls s' = Tracker.calls s ++
          [{| Tracker.call_model := h; Tracker.call_frame := Tracker.currentTime f;
              Tracker.call_now := Tracker.now f |}] /\
        forall ds,
          Tracker.detectForVideo lib h (Tracker.currentTime f) (Tracker.now f)
            = Tracker.DetectionResults ds ->
          Tracker.canvas s'
            = clear :: fst (Tracker.drawObjectDetections "person" ds (Tracker.canvasWidth f)) /\
          Tracker.thrown s'
            = snd (Tracker.drawObjectDetections "person" ds (Tracker.canvasWidth f))
    | None =>
        Tracker.calls s' = Tracker.calls s /\ Tracker.canvas s' = [clear] /\
        Tracker.thrown s' = Canvas.Normal
    end.
Proof.
  intros lib f s N s' clear. subst s' clear.
  unfold Mounted.trackerLoop. rewrite !trackerCells_eq.
  destruct s as [? ? ? ? a t o fd h p lv ? ? ? ? ?].
  unfold Tracker.renderLoop. simpl in *. rewrite N.
  destruct o as [m|]; simpl.
  - destruct (Tracker.detectForVideo lib m _ _) as [ds|ls] eqn:D; simpl.
    + destruct (Tracker.drawObjectDetections "person" ds (Tracker.canvasWidth f))
        as [ops c] eqn:R; simpl.
      do 4 (split; [reflexivity|]).
      intros ds' E; inversion E; subst ds'; rewrite R; split; reflexivity.
    + do 4 (split; [reflexivity|]). intros ds' E; discriminate.
  - destruct fd, h, p; repeat split.
Qed.

Lemma running_tracker_filters_persons_witness :
  let s' := Mounted.trackerLoop Mounted.sceneVision Spec.trackerFrameA
              Mounted.trackerAfterCup in
  Tracker.detectionTarget Mounted.trackerAfterCup = "cup"%string /\
  Tracker.canvas s' =
    [Canvas.ClearRect 0%float 0%float 640%float 480%float;
     Canvas.StrokeRect "#3B68FF" 4 530%float 10%float 100%float 50%float;
     Canvas.DrawTrackerLabel (Canvas.CategoryLabel "person" 0.75%float) 530%float 10%float].
Proof.
  split; [reflexivity|].
  destruct (running_tracker_filters_persons Mounted.sceneVision Spec.trackerFrameA
              Mounted.trackerAfterCup) as (_ & _ & _ & _ & D).
  - vm_compute; reflexivity.
  - destruct (D [Spec.personDetection; Spec.exampleDetection] eq_refl) as [C _].
    rewrite C. vm_compute. reflexivity.
Defined.

Lemma trackerLoop_idle (lib : Tracker.VisionLib) (f : Tracker.Frame) (s : Tracker.State) :
  JS.strict_neq (Tracker.currentTime f) (Tracker.lastVideoTime s) = true ->
  Tracker.objectDetector s = None ->
  let s' := Mounted.trackerLoop lib f s in
  Tracker.calls s' = Tracker.calls s /\
  Tracker.canvas s' =
    [Canvas.ClearRect 0%float 0%float (Tracker.canvasWidth f) (Tracker.canvasHeight f)] /\
  Tracker.thrown s' = Canvas.Normal.
Proof.
  intros N O s'. subst s'.
  unfold Mounted.trackerLoop. rewrite !trackerCells_eq.
  destruct s as [? ? ? ? a t o fd h p lv ? ? ? ? ?].
  unfold Tracker.renderLoop. simpl in *. rewrite N. subst o.
  destruct fd, h, p; repeat split.
Qed.

Lemma switchModel_empties_object (lib : Tracker.VisionLib) (task : Tracker.VisionTask)
    (s : Tracker.State) :
  task <> Tracker.object ->
  Tracker.objectDetector (Tracker.switchModel lib task s) = None /\
  Tracker.lastVideoTime (Tracker.switchModel lib task s) = Tracker.lastVideoTime s.
Proof.
  intros T. unfold Tracker.switchModel, Tracker.switchModel_release.
  destruct s as [? ? ? ? a t o fd h p lv ? ? ? ? ?].
  destruct task; [contradiction| | |];
    destruct (Tracker.createFromOptions lib _), o, fd, h, p; split; reflexivity.
Qed.

(** X20.  After the tracker has switched to a task other than object
    detection, its running loop runs no inference and leaves the canvas
    blank on every new frame, whether the model of the new task has
    loaded or not: the switch has emptied the object-detector slot, the
    only one the loop consults. *)
Theorem running_tracker_idle_after_switch :
  forall (lib : Tracker.VisionLib) (f : Tracker.Frame) (s : Tracker.State)
         (task : Tracker.VisionTask),
    task <> Tracker.object ->
    JS.strict_neq (Tracker.currentTime f) (Tracker.lastVideoTime s) = true ->
    let s1 := Tracker.switchModel lib task s in
    let s' := Mounted.trackerLoop lib f s1 in
    Tracker.objectDetector s1 = None /\
    Tracker.calls s' = Tracker.calls s1 /\
    Tracker.canvas s' =
      [Canvas.ClearRect 0%float 0%float (Tracker.canvasWidth f) (Tracker.canvasHeight f)] /\
    Tracker.thrown s' = Canvas.Normal.
Proof.
  intros lib f s task T N s1 s'. subst s1 s'.
  destruct (switchModel_empties_object lib task s T) as [O L].
  split; [exact O|].
  apply trackerLoop_idle; [rewrite L; exact N|exact O].
Qed.

Lemma running_tracker_idle_after_switch_witness :
  let s' := Mounted.trackerLoop Mounted.sceneVision Spec.trackerFrameA
              Mounted.trackerAfterFace in
  Tracker.activeTask Mounted.trackerAfterFace = Tracker.face /\
  Tracker.faceDetector Mounted.trackerAfterFace = Some 1%nat /\
  Tracker.calls s' = [] /\
  Tracker.canvas s' = [Canvas.ClearRect 0%float 0%float 640%float 480%float].
Proof.
  split; [reflexivity|]. split; [reflexivity|].
  destruct (running_tracker_idle_after_switch Mounted.sceneVision Spec.trackerFrameA
              (Tracker.setIsLoading true
                 (Tracker.setActiveTask Tracker.face
                    (Tracker.setDetectionTarget ""%string
                       (Tracker.setInputPrompt "face"%string
                          (Tracker.switchModel Mounted.sceneVision Tracker.object
                             Tracker.initial)))))
              Tracker.face) as (_ & C & D & _).
  - discriminate.
  - vm_compute; reflexivity.
  - split; [exact C|exact D].
Defined.

(** X21.  One callback of the running loop of the person-analysis
    application on a frame with a new playback time.  Whatever mode and
    results the cells hold, the loop consults the face-detector slot
    only: if it holds a model, one inference is run on it and a box is
    drawn for every face that has one, and nothing else, so no analysis
    label; if it is empty, no inference is run, no batch is launched and
    the canvas is cleared and left blank.  The cells are not changed. *)
Theorem running_analysis_draws_boxes_only :
  forall (lib : Analysis.VisionLib) (f : Analysis.Frame) (s : Analysis.State),
    JS.strict_neq (Analysis.currentTime f) (Analysis.lastVideoTime s) = true ->
    let s' := Mounted.analysisLoop lib f s in
    let clear := Canvas.ClearRect 0%float 0%float (Analysis.canvasWidth f)
                   (Analysis.canvasHeight f) in
    Analysis.detectionMode s' = Analysis.detectionMode s /\
    Analysis.detectionTarget s' = Analysis.detectionTarget s /\
    Analysis.personAnalysisResults s' = Analysis.personAnalysisResults s /\
    Analysis.lastVideoTime s' = Analysis.currentTime f /\
    match Analysis.faceDetector s with
    | Some h =>
        Analysis.calls s' = Analysis.calls s ++
          [{| Analysis.call_model := h; Analysis.call_frame := Analysis.currentTime f;
              Analysis.call_now := Analysis.nowMs f |}] /\
        Analysis.canvas s' =
          clear :: Analysis.drawFaceBoxes
                     (Analysis.detectForVideo lib h (Analysis.currentTime f)
                        (Analysis.nowMs f))
                     (Analysis.canvasWidth f)
    | None =>
        Analysis.calls s' = Analysis.calls s /\ Analysis.canvas s' = [clear] /\
        Analysis.batches s' = Analysis.batches s
    end.
Proof.
  intros lib f s N s' clear. subst s' clear.
  unfold Mounted.analysisLoop. rewrite !analysisCells_eq.
  destruct s as [? ? ? ? mode t r o fd ? ? v la an lv ? ? ? ? ? ?].
  unfold Analysis.renderLoop. simpl in *. rewrite N.
  destruct fd as [h|]; simpl; [|repeat split].
  destruct (Analysis.detectForVideo lib h _ _) as [|d ds] eqn:D; simpl;
    [repeat split|].
  destruct (JS.lt _ _); simpl;
    [unfold Analysis.analyzeAllFaces_returns; simpl; destruct v, an; simpl|];
    unfold Analysis.drawResults, Analysis.drawFaceDetections,
      Analysis.analyzeAllFaces_begin; simpl;
    rewrite ?app_nil_r; repeat split.
Qed.

Lemma running_analysis_draws_boxes_only_witness :
  let s' := Mounted.analysisLoop Spec.analysisVision Spec.analysisFrameA
              Mounted.analysisWithResult in
  Analysis.personAnalysisResults s' = Some [Spec.resultNearLeft] /\
  Analysis.canvas s' =
    [Canvas.ClearRect 0%float 0%float 640%float 480%float;
     Canvas.StrokeRect "#3B68FF" 2 530%float 10%float 100%float 50%float;
     Canvas.StrokeRect "#3B68FF" 2 310%float 40%float 30%float 30%float].
Proof.
  destruct (running_analysis_draws_boxes_only Spec.analysisVision Spec.analysisFrameA
              Mounted.analysisWithResult) as (_ & _ & R & _ & _ & C).
  - vm_compute; reflexivity.
  - split; [exact R|]. rewrite C. vm_compute. reflexivity.
Defined.
